(** * Survey aggregation scripts: a shallow embedding and its properties

    The repository is a set of pandas scripts.  Each script reads a CSV
    export of survey responses, filters it, groups it and prints or plots
    a summary.  This file embeds the data transformations of

      - [firstworkingprocessEvacuate.py] and [processEvacuate.py]
        (latest response per user, inner join of two extractions),
      - [genetedatefilterprocess.py] (global percentage breakdown,
        conditional breakdown, start-date filter),
      - [geneteprocess.py] (percentage breakdown per [hashed_user_id]),

    as functions on lists of rows, and proves the properties the
    specification states about them.

    Conventions of the embedding.
      - A data frame is the list of its column names and the list of its
        rows, in row order.  A text cell is [option string]; [None] is
        pandas' NaN.  The modules of the scripts take the text columns to
        hold text (pandas' [object] dtype).  [read_csv] reads a column
        without any non-numeric value as numbers; the module
        [DateFilter] and the module [SummaryTyped] carry the result of
        this inference for the [answer] column, on which a comparison
        with the text "2009" and [', '.join] depend.
      - A [created_at] cell is an instant in seconds on one time line, a
        missing cell or a cell that does not parse: the constructor of a
        cell records what [to_datetime] made of it in its column.  The
        module [DateFilter] adds the time-zone kind of the parsed column
        and of the parsed start date, whose comparison raises when the
        kinds differ.
      - In the modules of the scripts percentages are exact rationals
        ([Q]).  The module [Floating] has the breakdowns with every
        operation on percentages rounded, for the properties of sums,
        which depend on the rounding.
      - [sort_values] is a stable sort.  pandas documents its default
        sort kind as not guaranteed to be stable; the specification
        describes it as stable, and so does the model. *)

From Stdlib Require Import List String Ascii ZArith QArith Bool Lia.
From Stdlib Require Import Permutation Sorted Morphisms Lqa.
From Stdlib Require DecimalString.
Import ListNotations.

Local Open Scope string_scope.
Local Open Scope list_scope.

(** ** Data model *)

Inductive timestamp_cell : Type :=
| NaT                      (* missing cell, or coerced parse failure *)
| Unparsed (raw : string)  (* text that is not a date *)
| Timestamp (t : Z).       (* seconds since the epoch *)

Record Row : Type := mkRow {
  user_id : option string;
  hashed_user_id : option string;
  session_id : option string;
  question : option string;
  step_name : option string;
  answer : option string;
  created_at : timestamp_cell
}.

Record DataFrame : Type := mkFrame {
  columns : list string;
  rows : list Row
}.

(** ** Exceptions: a small error monad *)

Inductive exn : Type :=
| EmptyDataError
| KeyError (col : string)
| ValueError (msg : string)
| OtherError (msg : string).

(** [str(e)], as the handlers print it. *)
Definition str_exn (e : exn) : string :=
  match e with
  | EmptyDataError => "No columns to parse from file"
  | KeyError col => "'" ++ col ++ "'"
  | ValueError msg => msg
  | OtherError msg => msg
  end.

Definition M (A : Type) : Type := (exn + A)%type.

Definition ret {A : Type} (a : A) : M A := inr a.

Definition raise {A : Type} (e : exn) : M A := inl e.

Definition bind {A B : Type} (c : M A) (k : A -> M B) : M B :=
  match c with
  | inl e => inl e
  | inr a => k a
  end.

Declare Scope exn_scope.
Delimit Scope exn_scope with exn.
Notation "x <- c ;; k" := (bind c (fun x => k))
  (at level 61, c at next level, right associativity) : exn_scope.
Notation "c ;; k" := (bind c (fun _ => k))
  (at level 61, right associativity) : exn_scope.

(** ** The pandas operations the scripts use *)

Module Pandas.

Definition cell_eqb (a b : option string) : bool :=
  match a, b with
  | Some x, Some y => String.eqb x y
  | None, None => true
  | _, _ => false
  end.

Definition notna {A : Type} (c : option A) : bool :=
  match c with
  | Some _ => true
  | None => false
  end.

(** [Series.astype(str)]: a missing cell becomes the text [nan]. *)
Definition astype_str (c : option string) : string :=
  match c with
  | Some s => s
  | None => "nan"
  end.

(** [Series.str.startswith(prefix)]. *)
Definition startswith (prefix s : string) : bool := String.prefix prefix s.

(** [Series.isin(values)] for a list of text values. *)
Definition isin (c : option string) (values : list string) : bool :=
  match c with
  | Some s => existsb (String.eqb s) values
  | None => false
  end.

(** [Series.isin(values)] where the values come from [Series.unique()]
    and may hold NaN, which [isin] matches with NaN. *)
Definition isin_cells (c : option string) (values : list (option string)) : bool :=
  existsb (cell_eqb c) values.

(** [series == "text"]. *)
Definition eq_str (c : option string) (s : string) : bool :=
  match c with
  | Some x => String.eqb x s
  | None => false
  end.

(** [Series.replace({old: new})]. *)
Definition replace (old new : string) (c : option string) : option string :=
  match c with
  | Some x => if String.eqb x old then Some new else Some x
  | None => None
  end.

(** Python's truth value of an optional command-line string. *)
Definition truthy (s : option string) : bool :=
  match s with
  | Some x => negb (String.eqb x "")
  | None => false
  end.

(** Order of [created_at] cells under [sort_values]: ascending, missing
    values last. *)
Definition ts_leb (a b : timestamp_cell) : bool :=
  match a, b with
  | Timestamp x, Timestamp y => (x <=? y)%Z
  | Timestamp _, _ => true
  | _, Timestamp _ => false
  | _, _ => true
  end.

(** [series >= ts] and [series <= ts]: false on a missing value. *)
Definition ts_ge (c : timestamp_cell) (ts : Z) : bool :=
  match c with
  | Timestamp t => (ts <=? t)%Z
  | _ => false
  end.

Definition ts_le (c : timestamp_cell) (ts : Z) : bool :=
  match c with
  | Timestamp t => (t <=? ts)%Z
  | _ => false
  end.

(** The time window as the specification words it: the instant lies in
    the inclusive interval, either bound optional; a row without an
    instant lies in no interval. *)
Definition within (lo hi : option Z) (c : timestamp_cell) : bool :=
  match c with
  | Timestamp t =>
      match lo with Some a => (a <=? t)%Z | None => true end &&
      match hi with Some b => (t <=? b)%Z | None => true end
  | _ => false
  end.

(** [series.dt.date == today], dates as day numbers. *)
Definition date_eq (c : timestamp_cell) (today : Z) : bool :=
  match c with
  | Timestamp t => (t / 86400 =? today)%Z
  | _ => false
  end.

Section Sort.
Context {A : Type} (leb : A -> A -> bool).

Fixpoint insert_sorted (x : A) (l : list A) : list A :=
  match l with
  | [] => [x]
  | y :: t => if leb x y then x :: y :: t else y :: insert_sorted x t
  end.

(** A stable sort: an element is placed before the elements that
    followed it in the input and are not smaller. *)
Definition stable_sort (l : list A) : list A :=
  fold_right insert_sorted [] l.

(** The greatest element, the last one in input order among equals: an
    element wins over those that follow it only when it is strictly
    greater.  It is the last row of the sorted list (see
    [stable_sort_last]). *)
Fixpoint last_greatest (l : list A) : option A :=
  match l with
  | [] => None
  | x :: t =>
      match last_greatest t with
      | None => Some x
      | Some b => if leb x b then Some b else Some x
      end
  end.

End Sort.

(** [df.sort_values('created_at')]. *)
Definition created_leb (a b : Row) : bool :=
  ts_leb (created_at a) (created_at b).

Definition sort_values_created_at (df : list Row) : list Row :=
  stable_sort created_leb df.

(** [df.drop_duplicates(key, keep='last')]: a row stays when no later row
    has its key; NaN keys count as equal. *)
Fixpoint drop_duplicates_last (key : Row -> option string) (df : list Row) : list Row :=
  match df with
  | [] => []
  | r :: t =>
      if existsb (fun r' => cell_eqb (key r) (key r')) t
      then drop_duplicates_last key t
      else r :: drop_duplicates_last key t
  end.

(** [Series.unique()]: the distinct values in order of first appearance. *)
Fixpoint unique {K : Type} (eqb : K -> K -> bool) (l : list K) : list K :=
  match l with
  | [] => []
  | x :: t => x :: filter (fun y => negb (eqb x y)) (unique eqb t)
  end.

Definition count {K : Type} (eqb : K -> K -> bool) (x : K) (l : list K) : nat :=
  List.length (filter (eqb x) l).

(** [Series.dropna()]. *)
Definition dropna (l : list (option string)) : list (option string) :=
  filter notna l.

(** [pd.to_datetime(column)] with the default [errors='raise']. *)
Definition is_unparsed (c : timestamp_cell) : bool :=
  match c with
  | Unparsed _ => true
  | _ => false
  end.

Definition raw_text (c : timestamp_cell) : string :=
  match c with
  | Unparsed raw => raw
  | _ => ""
  end.

Definition to_datetime_strict (df : list Row) : M (list Row) :=
  match find (fun r => is_unparsed (created_at r)) df with
  | Some r => raise (ValueError (raw_text (created_at r)))
  | None => ret df
  end.

(** [pd.to_datetime(column, errors='coerce')]. *)
Definition coerce_cell (c : timestamp_cell) : timestamp_cell :=
  match c with
  | Unparsed _ => NaT
  | c' => c'
  end.

Definition set_created_at (r : Row) (c : timestamp_cell) : Row :=
  mkRow (user_id r) (hashed_user_id r) (session_id r) (question r)
        (step_name r) (answer r) c.

Definition set_answer (r : Row) (a : option string) : Row :=
  mkRow (user_id r) (hashed_user_id r) (session_id r) (question r)
        (step_name r) a (created_at r).

Definition to_datetime_coerce (df : list Row) : list Row :=
  map (fun r => set_created_at r (coerce_cell (created_at r))) df.

(** [df.dropna(subset=['created_at'])]. *)
Definition dropna_created_at (df : list Row) : list Row :=
  filter (fun r => match created_at r with NaT => false | _ => true end) df.

(** [df[col]] raises [KeyError] when the column is absent. *)
Definition has_column (df : DataFrame) (col : string) : bool :=
  existsb (String.eqb col) (columns df).

Definition getitem (df : DataFrame) (col : string) : M unit :=
  if has_column df col then ret tt else raise (KeyError col).

(** [df.empty]. *)
Definition empty {A : Type} (df : list A) : bool :=
  match df with
  | [] => true
  | _ :: _ => false
  end.

(** Order of text cells in a sorted group index: by code point, missing
    values last. *)
Definition cell_leb (a b : option string) : bool :=
  match a, b with
  | Some x, Some y => String.leb x y
  | Some _, None => true
  | None, Some _ => false
  | None, None => true
  end.

(** [Series.value_counts()]: the count of each distinct non-missing
    value, largest count first. *)
Definition value_counts (s : list (option string)) : list (option string * nat) :=
  let values := dropna s in
  stable_sort (fun a b => Nat.leb (snd b) (snd a))
    (map (fun v => (v, count cell_eqb v values)) (unique cell_eqb values)).

(** [(count / total) * 100]. *)
Definition percent (count total : nat) : Q :=
  (inject_Z (Z.of_nat count) / inject_Z (Z.of_nat total)) * 100.

(** [Series.sum()] of a column of percentages. *)
Definition qsum (l : list Q) : Q := fold_right Qplus 0 l.

(** The line feed, and [', '.join(names)]. *)
Definition nl : string := String (ascii_of_nat 10) EmptyString.

Definition join (names : list string) : string := String.concat ", " names.

End Pandas.

(** ** Latest response per user and the join of two extractions

    The part that [process_data] of [firstworkingprocessEvacuate.py] and
    of [processEvacuate.py] share, line for line. *)

Module Evacuate.
Import Pandas.
Local Open Scope exn_scope.

(** A frame with the columns [user_id] and one renamed [answer]. *)
Record Extract : Type := mkExtract {
  ex_user_id : option string;
  ex_answer : option string
}.

(** A row of the merged frame. *)
Record Merged : Type := mkMerged {
  m_user_id : option string;
  player_type : option string;
  evacuate_choice : option string
}.

(** [df['answer'].replace({'Petowner': 'Pet Owner'})]. *)
Definition standardize (df : list Row) : list Row :=
  map (fun r => set_answer r (replace "Petowner" "Pet Owner" (answer r))) df.

(** The same replacement on a frame, for statements about whole inputs. *)
Definition standardize_frame (frame : DataFrame) : DataFrame :=
  mkFrame (columns frame) (standardize (rows frame)).

(** [df['step_name'].isin(['player_select', 'playerselect'])]. *)
Definition is_player_select (r : Row) : bool :=
  isin (step_name r) ["player_select"; "playerselect"].

(** [df['step_name'] == 'evacuate_select']. *)
Definition is_evacuate_select (r : Row) : bool :=
  eq_str (step_name r) "evacuate_select".

(** [df[mask].sort_values('created_at').drop_duplicates('user_id', keep='last')]. *)
Definition latest_rows (mask : Row -> bool) (df : list Row) : list Row :=
  drop_duplicates_last user_id (sort_values_created_at (filter mask df)).

(** The same extraction with the sort left open, for the properties that
    hold whatever the sort does with equal timestamps. *)
Definition latest_rows_with (sort : list Row -> list Row)
  (mask : Row -> bool) (df : list Row) : list Row :=
  drop_duplicates_last user_id (sort (filter mask df)).

(** [[['user_id', 'answer']].rename(columns={'answer': ...})]. *)
Definition select_user_answer (df : list Row) : list Extract :=
  map (fun r => mkExtract (user_id r) (answer r)) df.

Definition player_types (df : list Row) : list Extract :=
  select_user_answer (latest_rows is_player_select df).

Definition evac_choices (df : list Row) : list Extract :=
  select_user_answer (latest_rows is_evacuate_select df).

(** [pd.merge(left, right, on='user_id', how='inner')]: the pairs with
    equal keys, in the order of the left frame; NaN keys match NaN keys. *)
Definition merge (left right : list Extract) : list Merged :=
  flat_map
    (fun l =>
       map (fun r => mkMerged (ex_user_id l) (ex_answer l) (ex_answer r))
           (filter (fun r => cell_eqb (ex_user_id l) (ex_user_id r)) right))
    left.

(** From "Standardize player types" to [return merged]; each column is
    looked up where the source first indexes it. *)
Definition extract_and_merge (cols : DataFrame) (df : list Row) : M (list Merged) :=
  getitem cols "answer" ;;
  let df := standardize df in
  getitem cols "step_name" ;;
  getitem cols "user_id" ;;
  let player_types := player_types df in
  let evac_choices := evac_choices df in
  ret (merge player_types evac_choices).

(** What a script prints on the console. *)
Inductive console : Type :=
| Print (s : string)
| PrintNoResponsesToday (today : Z).

(** The outcome of a run of a script: console output and exit status.  An
    exception that nothing catches ends the interpreter with status 1. *)
Record Run : Type := mkRun {
  printed : list console;
  exit_status : Z
}.

Definition run_main (r : M (list console * option (list Merged)))
  (success : list console) : Run :=
  match r with
  | inl _ => mkRun [] 1
  | inr (out, None) => mkRun out 0
  | inr (out, Some _) => mkRun (out ++ success) 0
  end.

End Evacuate.

(** ** [firstworkingprocessEvacuate.py] *)

Module FirstWorking.
Import Pandas Evacuate.
Local Open Scope exn_scope.

Section Script.
(** The system clock, as the day number of the current date. *)
Variable today : Z.

Definition process_data (csv_file : M DataFrame) (only_today : bool)
  : M (list console * option (list Merged)) :=
  frame <- csv_file ;;
  getitem frame "created_at" ;;
  df <- to_datetime_strict (rows frame) ;;
  let df := if only_today
            then filter (fun r => date_eq (created_at r) today) df
            else df in
  if only_today && empty df
  then ret ([PrintNoResponsesToday today], None)
  else
    merged <- extract_and_merge frame df ;;
    ret ([], Some merged).

Definition main (csv_file : M DataFrame) (only_today : bool) : Run :=
  run_main (process_data csv_file only_today)
    [Print "Success! Created: player_breakdown.png, evacuation_overall.png, evacuation_by_type.png, and plots_summary.html"].

End Script.
End FirstWorking.

(** ** [processEvacuate.py] *)

Module ProcessEvacuate.
Import Pandas Evacuate.
Local Open Scope exn_scope.

Section Script.
(** The system clock (day number of the current UTC date) and
    [pd.to_datetime] on a command-line string; [None] stands for the
    exception it raises on text that is not a date. *)
Variable today : Z.
Variable to_datetime : string -> option Z.

Definition parse_bound (s : string) : M Z :=
  match to_datetime s with
  | Some ts => ret ts
  | None => raise (ValueError s)
  end.

(** The [--start] / [--end] filter, lines 21 to 27. *)
Definition time_window (start_time end_time : option string) (df : list Row)
  : M (list Row) :=
  df <- match start_time with
        | Some s =>
            if truthy start_time
            then start_ts <- parse_bound s ;;
                 ret (filter (fun r => ts_ge (created_at r) start_ts) df)
            else ret df
        | None => ret df
        end ;;
  match end_time with
  | Some e =>
      if truthy end_time
      then end_ts <- parse_bound e ;;
           ret (filter (fun r => ts_le (created_at r) end_ts) df)
      else ret df
  | None => ret df
  end.

Definition process_data (csv_file : M DataFrame) (only_today : bool)
  (start_time end_time : option string)
  : M (list console * option (list Merged)) :=
  frame <- csv_file ;;
  getitem frame "created_at" ;;
  df <- to_datetime_strict (rows frame) ;;
  let df := if only_today
            then filter (fun r => date_eq (created_at r) today) df
            else df in
  df <- time_window start_time end_time df ;;
  if empty df
  then ret ([Print "Warning: No data found for the specified timeframe."], None)
  else
    merged <- extract_and_merge frame df ;;
    ret ([], Some merged).

(** The script body; of the closing banner only the first line is
    kept. *)
Definition main (csv_file : M DataFrame) (only_today : bool)
  (start_time end_time : option string) : Run :=
  run_main (process_data csv_file only_today start_time end_time)
    [Print "SUCCESS: Analysis Complete"].

End Script.
End ProcessEvacuate.

(** ** [genetedatefilterprocess.py] *)

Module GeneteDateFilter.
Import Pandas.

(** A row of a breakdown: the columns [answer] and [percentage]. *)
Record PctRow : Type := mkPct {
  pct_answer : option string;
  percentage : Q
}.

(** [df['question'].astype(str).str.startswith(prefix, na=False)]. *)
Definition question_startswith (prefix : string) (r : Row) : bool :=
  startswith prefix (astype_str (question r)).

Definition calculate_aggregated_answer_percentages
  (df_input : list Row) (question_prefix : string) : list PctRow :=
  let filtered_questions_df := filter (question_startswith question_prefix) df_input in
  if empty filtered_questions_df then []
  else
    let answer_counts := value_counts (map answer filtered_questions_df) in
    let total_answers := list_sum (map snd answer_counts) in
    if Nat.eqb total_answers 0 then []
    else
      stable_sort (fun a b => Qle_bool (percentage b) (percentage a))
        (map (fun ac => mkPct (fst ac) (percent (snd ac) total_answers)) answer_counts).

(** The answers that are counted for a prefix: [value_counts] leaves the
    missing ones out. *)
Definition matching_answers (df : list Row) (question_prefix : string)
  : list (option string) :=
  dropna (map answer (filter (question_startswith question_prefix) df)).

(** The sum of the [percentage] column of a breakdown. *)
Definition sum_percentages (table : list PctRow) : Q :=
  qsum (map percentage table).

(** What the script writes to standard output: text, the percentage of
    the second section (printed with two decimals) or a table as CSV. *)
Inductive chunk : Type :=
| Write (s : string)
| WritePercent2009 (p : Q)
| ToCsv (table : list PctRow).

Record Process : Type := mkProcess {
  stdout : list chunk;
  stderr : list string;
  exit_code : Z
}.

Definition required_cols : list string :=
  ["hashed_user_id"; "question"; "answer"; "session_id"; "created_at"].

Definition missing_columns (required : list string) (df : DataFrame) : list string :=
  filter (fun col => negb (has_column df col)) required.

Definition missing_message (missing : list string) : string :=
  "Error: Missing expected columns: " ++ join missing ++
  ". Please ensure 'hashed_user_id', 'question', 'answer', 'session_id', and 'created_at' columns exist." ++ nl.

(** First section: the breakdown of the "Now," questions over all rows. *)
Definition first_output (df : list Row) : list chunk :=
  let all_data_percentages := calculate_aggregated_answer_percentages df "Now," in
  [Write ("--- Overall Percentage of Answers for Questions Starting with 'Now,' (All Data) ---" ++ nl);
   if negb (empty all_data_percentages)
   then ToCsv all_data_percentages
   else Write ("No questions starting with 'Now,' found in the full dataset (after date filter if applied)." ++ nl);
   Write nl].

(** Second section: the share of "2009" among the "First" questions. *)
Definition second_output (df : list Row) : list chunk :=
  let first_questions_overall_df := filter (question_startswith "First") df in
  [Write ("--- Overall Percentage of '2009' Answers for Questions Starting with 'First' ---" ++ nl);
   if empty first_questions_overall_df
   then Write ("No questions starting with 'First' found in the dataset (after date filter if applied)." ++ nl)
   else
     let total_first_questions_answered := List.length first_questions_overall_df in
     let answers_2009_count :=
       List.length (filter (fun r => eq_str (answer r) "2009") first_questions_overall_df) in
     if Nat.ltb 0 total_first_questions_answered
     then WritePercent2009 (percent answers_2009_count total_first_questions_answered)
     else Write ("No answers found for questions starting with 'First'." ++ nl);
   Write nl].

(** Step 1 of the third section: the sessions with a "First" question
    answered "2009". *)
Definition sessions_with_2009_answer (df : list Row) : list (option string) :=
  let first_questions_df := filter (question_startswith "First") df in
  unique cell_eqb
    (map session_id (filter (fun r => eq_str (answer r) "2009") first_questions_df)).

(** Step 2: the rows of these sessions. *)
Definition filtered_df (df : list Row) : list Row :=
  filter (fun r => isin_cells (session_id r) (sessions_with_2009_answer df)) df.

(** Third section: the breakdown of the "Now," questions over the
    sessions that answered "2009". *)
Definition third_output (df : list Row) : list chunk :=
  Write ("--- Overall Percentage of Answers for Questions Starting with 'Now,' (Filtered by 'First' = '2009') ---" ++ nl) ::
  (if Nat.eqb (List.length (sessions_with_2009_answer df)) 0
   then [Write ("No sessions found where answer to a 'First' question was '2009'." ++ nl);
         Write ("Therefore, no filtered percentages for 'Now,' questions can be calculated." ++ nl)]
   else
     let filtered_data_percentages :=
       calculate_aggregated_answer_percentages (filtered_df df) "Now," in
     [if negb (empty filtered_data_percentages)
      then ToCsv filtered_data_percentages
      else Write ("No questions starting with 'Now,' found in the filtered dataset (after date filter if applied)." ++ nl)])
  ++ [Write nl].

(** The three sections, written after the optional date filter. *)
Definition report (df : list Row) : Process :=
  mkProcess (first_output df ++ second_output df ++ third_output df) [] 0.

Section Script.
(** [pd.to_datetime] on the [--start-date] string; [None] stands for the
    [ValueError] it raises on text that is not a date. *)
Variable to_datetime : string -> option Z.

Definition process_and_output_percentages (stdin : M DataFrame)
  (start_date : option string) : Process :=
  match stdin with
  | inl EmptyDataError =>
      mkProcess [] [("Error: No data to parse. The input CSV might be empty." ++ nl)%string] 1
  | inl e =>
      mkProcess [] [("An unexpected error occurred: " ++ str_exn e ++ nl)%string] 1
  | inr frame =>
      if negb (forallb (has_column frame) required_cols)
      then
        let missing := missing_columns required_cols frame in
        mkProcess [] [missing_message missing] 1
      else
        let df := dropna_created_at (to_datetime_coerce (rows frame)) in
        match start_date with
        | Some text =>
            if truthy start_date
            then
              match to_datetime text with
              | Some start_datetime =>
                  let df := filter (fun r => ts_ge (created_at r) start_datetime) df in
                  if empty df
                  then mkProcess
                         [Write ("No data found on or after " ++ text ++ " after filtering." ++ nl)]
                         [] 0
                  else report df
              | None =>
                  mkProcess []
                    [("Error: Invalid start date format: '" ++ text ++ "'. Please use YYYY-MM-DD format." ++ nl)%string]
                    1
              end
            else report df
        | None => report df
        end
  end.

End Script.
End GeneteDateFilter.

(** ** [geneteprocess.py] *)

Module Genete.
Import Pandas.

(** The frame [answer_counts]. *)
Record AnswerCount : Type := mkCount {
  ac_user : option string;
  ac_answer : option string;
  ac_count : nat
}.

(** The frame [total_answers_per_user]. *)
Record UserTotal : Type := mkTotal {
  ut_user : option string;
  total_answers : nat
}.

(** A row of the output: [hashed_user_id], [answer], [percentage]. *)
Record UserPct : Type := mkUserPct {
  up_user : option string;
  up_answer : option string;
  up_percentage : Q
}.

Definition pair_eqb (a b : option string * option string) : bool :=
  cell_eqb (fst a) (fst b) && cell_eqb (snd a) (snd b).

Definition pair_leb (a b : option string * option string) : bool :=
  if cell_eqb (fst a) (fst b) then cell_leb (snd a) (snd b)
  else cell_leb (fst a) (fst b).

(** [df.groupby(['hashed_user_id', 'answer']).size().reset_index(name='count')]:
    rows with a missing key are left out; the groups come sorted by key. *)
Definition group_keys (df : list Row) : list (option string * option string) :=
  filter (fun k => notna (fst k) && notna (snd k))
    (map (fun r => (hashed_user_id r, answer r)) df).

(** The groups: the distinct key pairs, sorted. *)
Definition groups (df : list Row) : list (option string * option string) :=
  stable_sort pair_leb (unique pair_eqb (group_keys df)).

Definition answer_counts (df : list Row) : list AnswerCount :=
  map (fun k => mkCount (fst k) (snd k) (count pair_eqb k (group_keys df)))
    (groups df).

(** [answer_counts.groupby('hashed_user_id')['count'].sum().reset_index(name='total_answers')]:
    per user, the sum of the counts of the user's groups. *)
Definition user_total (counts : list AnswerCount) (u : option string) : nat :=
  list_sum (map ac_count (filter (fun c => cell_eqb u (ac_user c)) counts)).

Definition total_answers_per_user (counts : list AnswerCount) : list UserTotal :=
  map (fun u => mkTotal u (user_total counts u))
    (stable_sort cell_leb (unique cell_eqb (filter notna (map ac_user counts)))).

(** [pd.merge(answer_counts, total_answers_per_user, on='hashed_user_id')]
    followed by the [percentage] column and the selection of the three
    output columns. *)
Definition merged_df (counts : list AnswerCount) (totals : list UserTotal)
  : list UserPct :=
  flat_map
    (fun c =>
       map (fun t => mkUserPct (ac_user c) (ac_answer c)
                       (percent (ac_count c) (total_answers t)))
           (filter (fun t => cell_eqb (ac_user c) (ut_user t)) totals))
    counts.

(** [sort_values(by=['hashed_user_id', 'percentage'], ascending=[True, False])]. *)
Definition output_leb (a b : UserPct) : bool :=
  if cell_eqb (up_user a) (up_user b)
  then Qle_bool (up_percentage b) (up_percentage a)
  else cell_leb (up_user a) (up_user b).

Definition question_startswith (prefix : string) (r : Row) : bool :=
  startswith prefix (astype_str (question r)).

(** The table the script prints, from the filtered rows on. *)
Definition final_output_df (filtered_questions_df : list Row) : list UserPct :=
  let answer_counts := answer_counts filtered_questions_df in
  let total_answers_per_user := total_answers_per_user answer_counts in
  stable_sort output_leb (merged_df answer_counts total_answers_per_user).

(** The sum of the [percentage] column over the rows of one user. *)
Definition sum_percentages_of (u : option string) (table : list UserPct) : Q :=
  qsum (map up_percentage (filter (fun r => cell_eqb u (up_user r)) table)).

Inductive chunk : Type :=
| Write (s : string)
| ToCsv (table : list UserPct).

Record Process : Type := mkProcess {
  stdout : list chunk;
  stderr : list string;
  exit_code : Z
}.

Definition required_cols : list string :=
  ["hashed_user_id"; "question"; "answer"].

Definition missing_columns (required : list string) (df : DataFrame) : list string :=
  filter (fun col => negb (has_column df col)) required.

Definition missing_message (missing : list string) : string :=
  "Error: Missing expected columns: " ++ join missing ++
  ". Please ensure 'hashed_user_id', 'question', and 'answer' columns exist." ++ nl.

Definition calculate_drought_answer_percentages (stdin : M DataFrame) : Process :=
  match stdin with
  | inl EmptyDataError =>
      mkProcess [] [("Error: No data to parse. The input CSV might be empty." ++ nl)%string] 1
  | inl e =>
      mkProcess [] [("An unexpected error occurred: " ++ str_exn e ++ nl)%string] 1
  | inr frame =>
      if negb (forallb (has_column frame) required_cols)
      then
        let missing := missing_columns required_cols frame in
        mkProcess [] [missing_message missing] 1
      else
        let filtered_questions_df := filter (question_startswith "Now,") (rows frame) in
        if empty filtered_questions_df
        then mkProcess [Write ("No questions starting with 'Now,' found in the input." ++ nl)] [] 0
        else mkProcess [ToCsv (final_output_df filtered_questions_df)] [] 0
  end.

End Genete.

(** ** Sample inputs *)

Module Samples.
Import Pandas.

(** Instants, in seconds since the epoch. *)
Definition t_2026_01_01_10h : Z := 1767261600.
Definition t_2026_01_01_23h59m59 : Z := 1767311999.
Definition t_2026_01_02_00h : Z := 1767312000.
Definition t_2026_01_02_09h : Z := 1767344400.

(** A row of the evacuation export. *)
Definition response (user step ans : string) (at_ : timestamp_cell) : Row :=
  mkRow (Some user) None None None (Some step) (Some ans) at_.

(** A row of the survey export; the answer may be missing. *)
Definition survey (user session quest : string) (ans : option string)
  (at_ : timestamp_cell) : Row :=
  mkRow None (Some user) (Some session) (Some quest) None ans at_.

Definition evacuation_columns : list string :=
  ["user_id"; "step_name"; "answer"; "created_at"].

Definition survey_columns : list string :=
  ["hashed_user_id"; "session_id"; "question"; "answer"; "created_at"].

(** One user chose a player type twice; the second row has no
    [created_at]. *)
Definition missing_timestamp : DataFrame :=
  mkFrame evacuation_columns
    [response "u1" "player_select" "Farmer" (Timestamp t_2026_01_01_10h);
     response "u1" "player_select" "Pet Owner" NaT;
     response "u1" "evacuate_select" "Yep, evacuate!" (Timestamp t_2026_01_02_09h)].

(** The same answers, typed with and without the space. *)
Definition spelled_petowner : DataFrame :=
  mkFrame evacuation_columns
    [response "u1" "player_select" "Petowner" (Timestamp t_2026_01_01_10h);
     response "u1" "evacuate_select" "Yep, evacuate!" (Timestamp t_2026_01_02_09h)].

Definition spelled_pet_owner : DataFrame :=
  mkFrame evacuation_columns
    [response "u1" "player_select" "Pet Owner" (Timestamp t_2026_01_01_10h);
     response "u1" "evacuate_select" "Yep, evacuate!" (Timestamp t_2026_01_02_09h)].

(** One response on each side of midnight. *)
Definition around_midnight : list Row :=
  [response "u1" "player_select" "Farmer" (Timestamp t_2026_01_01_23h59m59);
   response "u2" "player_select" "Farmer" (Timestamp t_2026_01_02_09h)].

(** A "Now," question whose only row has no answer. *)
Definition unanswered : list Row :=
  [survey "h1" "s1" "Now, drought?" None (Timestamp t_2026_01_01_10h)].

(** Two answers to a "Now," question. *)
Definition two_answers : list Row :=
  [survey "h1" "s1" "Now, drought?" (Some "A") (Timestamp t_2026_01_01_10h);
   survey "h1" "s1" "Now, drought?" (Some "B") (Timestamp t_2026_01_02_09h)].



(** A table without the columns [session_id] and [created_at]. *)
Definition two_columns_short : DataFrame :=
  mkFrame ["hashed_user_id"; "question"; "answer"] [].

(** [pd.to_datetime] on the dates used below. *)
Definition to_datetime (s : string) : option Z :=
  if String.eqb s "2026-01-02" then Some t_2026_01_02_00h
  else if String.eqb s "2026-01-01" then Some 1767225600%Z
  else None.

End Samples.

(** ** The figures of [processEvacuate.py]

    The numbers that [generate_plots] draws and writes on the bars; the
    drawing itself is left to the plotting library. *)

Module Plots.
Import Pandas Evacuate.

Definition EVAC_ORDER : list string :=
  ["Yep, evacuate!"; "Heck no! dont evacuate"].

(** [Series.value_counts().reindex(EVAC_ORDER, fill_value=0)]: the count
    of each label of the order, 0 for a label that does not occur; other
    values are left out. *)
Definition reindex (order : list string) (counts : list (option string * nat))
  : list nat :=
  map (fun label =>
         match find (fun vc => cell_eqb (Some label) (fst vc)) counts with
         | Some vc => snd vc
         | None => 0%nat
         end)
      order.

(** Plot 2: [ev_counts] and [ev_pcts]; a percentage is [None] (NaN) when
    the counts sum to 0. *)
Definition ev_counts (df : list Merged) : list nat :=
  reindex EVAC_ORDER (value_counts (map evacuate_choice df)).

Definition ev_pcts (df : list Merged) : list (option Q) :=
  let counts := ev_counts df in
  let total := list_sum counts in
  map (fun c => if Nat.eqb total 0 then None else Some (percent c total)) counts.

(** Plot 3: [grouped], one row per player type (sorted) with the counts
    of the two choices of [EVAC_ORDER]; pairs with a missing player type
    or choice form no group. *)
Definition choice_pairs (df : list Merged) : list (option string * option string) :=
  filter (fun k => notna (fst k) && notna (snd k))
    (map (fun m => (player_type m, evacuate_choice m)) df).

Definition grouped_index (df : list Merged) : list (option string) :=
  stable_sort cell_leb (unique cell_eqb (map fst (choice_pairs df))).

Definition grouped (df : list Merged) : list (list nat) :=
  map (fun p =>
         map (fun c => count Genete.pair_eqb (p, Some c) (choice_pairs df)) EVAC_ORDER)
      (grouped_index df).

Definition row_totals (table : list (list nat)) : list nat :=
  map (fun row => list_sum row) table.

(** [grouped.iloc[group_idx, cat_idx]]. *)
Definition iloc (table : list (list nat)) (group_idx cat_idx : nat) : nat :=
  nth cat_idx (nth group_idx table []) 0%nat.

(** [ax3.patches]: the heights of the bars, one run of bars per column,
    each run in the order of the rows. *)
Definition patches (table : list (list nat)) : list nat :=
  flat_map (fun cat_idx => map (fun row => nth cat_idx row 0%nat) table)
    (seq 0 (List.length EVAC_ORDER)).

(** The text on a bar: the count and its percentage of the row. *)
Record Annotation : Type := mkAnnotation {
  an_count : nat;
  an_pct : Q
}.

(** The body of the loop over the patches: the annotation of patch [i],
    if one is written.  A table without rows has no patch, so the loop
    never divides by an [n_groups] of 0. *)
Definition annotate (table : list (list nat)) (i : nat) (height : nat)
  : option Annotation :=
  let n_groups := List.length table in
  let group_idx := Nat.modulo i n_groups in
  let cat_idx := Nat.div i n_groups in
  let count := iloc table group_idx cat_idx in
  let total := nth group_idx (row_totals table) 0%nat in
  let pct := if Nat.ltb 0 total then percent count total else 0 in
  if Nat.ltb 0 height then Some (mkAnnotation count pct) else None.

Definition annotations (table : list (list nat)) : list (option Annotation) :=
  map (fun ih => annotate table (fst ih) (snd ih))
    (combine (seq 0 (List.length (patches table))) (patches table)).

End Plots.

(** ** [summarize_noki.py] *)

Module SummarizeNoki.
Import Pandas.

(** The script parses no date: [created_at] is the text of the cell. *)
Record RawRow : Type := mkRaw {
  hashed_user_id : option string;
  created_at : option string;
  question : option string;
  answer : option string
}.

Record RawFrame : Type := mkRawFrame {
  columns : list string;
  rows : list RawRow
}.

(** A row of the summary. *)
Record SummaryRow : Type := mkSummary {
  s_user : option string;
  s_created_at : option string;
  s_question : option string;
  s_answer : string
}.

Inductive chunk : Type :=
| PrintLine (s : string)
| ToCsv (table : list SummaryRow).

Record Process : Type := mkProcess {
  stdout : list chunk;
  stderr : list string;
  exit_code : Z
}.

Definition has_column (df : RawFrame) (col : string) : bool :=
  existsb (String.eqb col) (columns df).

(** The values of a column that are present, as text. *)
Definition texts (l : list (option string)) : list string :=
  flat_map (fun c => match c with Some s => [s] | None => [] end) l.

(** [filtered_df['answer'].dropna().unique().tolist()]; [None] stands for
    [sys.exit(1)] after the message on standard error. *)
Definition get_unique_answers_for_question (df : RawFrame) (question_text : string)
  : option (list string) :=
  if negb (has_column df "question") || negb (has_column df "answer")
  then None
  else
    let filtered_df := filter (fun r => eq_str (question r) question_text) (rows df) in
    Some (unique String.eqb (texts (map answer filtered_df))).

Definition key (r : RawRow) : option string * option string * option string :=
  (hashed_user_id r, created_at r, question r).

Definition key_eqb (a b : option string * option string * option string) : bool :=
  cell_eqb (fst (fst a)) (fst (fst b)) &&
  cell_eqb (snd (fst a)) (snd (fst b)) &&
  cell_eqb (snd a) (snd b).

(** The order of the group index: by user, then [created_at], then
    question. *)
Definition key_leb (a b : option string * option string * option string) : bool :=
  if cell_eqb (fst (fst a)) (fst (fst b))
  then if cell_eqb (snd (fst a)) (snd (fst b))
       then cell_leb (snd a) (snd b)
       else cell_leb (snd (fst a)) (snd (fst b))
  else cell_leb (fst (fst a)) (fst (fst b)).

Definition complete (k : option string * option string * option string) : bool :=
  notna (fst (fst k)) && notna (snd (fst k)) && notna (snd k).

(** The groups of [df.groupby(['hashed_user_id', 'created_at', 'question'])]:
    the distinct keys without a missing part, sorted. *)
Definition groups (df : list RawRow) : list (option string * option string * option string) :=
  stable_sort key_leb (unique key_eqb (filter complete (map key df))).

(** [x.unique()] for the answers of one group. *)
Definition group_answers (df : list RawRow)
  (k : option string * option string * option string) : list (option string) :=
  unique cell_eqb (map answer (filter (fun r => key_eqb k (key r)) df)).

Fixpoint index_of_missing (l : list (option string)) : option nat :=
  match l with
  | [] => None
  | None :: _ => Some 0%nat
  | Some _ :: t => option_map S (index_of_missing t)
  end.

(** [', '.join(values)]: a [TypeError] on a value that is not text. *)
Definition join_answers (values : list (option string)) : M string :=
  match index_of_missing values with
  | Some i =>
      raise (OtherError
               ("sequence item " ++
                DecimalString.NilEmpty.string_of_uint (Nat.to_uint i) ++
                ": expected str instance, float found"))
  | None => ret (String.concat ", " (texts values))
  end.

(** [groupby(...)['answer'].apply(...)] followed by [reset_index()]: the
    groups are summarised in order, the first failure ends the run. *)
Fixpoint summarise (df : list RawRow)
  (ks : list (option string * option string * option string)) : M (list SummaryRow) :=
  match ks with
  | [] => ret []
  | k :: rest =>
      bind (join_answers (group_answers df k)) (fun text =>
      bind (summarise df rest) (fun table =>
      ret (mkSummary (fst (fst k)) (snd (fst k)) (snd k) text :: table)))
  end.


(** [sort_values(by=['hashed_user_id', 'created_at'])]. *)
Definition summary_leb (a b : SummaryRow) : bool :=
  if cell_eqb (s_user a) (s_user b)
  then cell_leb (s_created_at a) (s_created_at b)
  else cell_leb (s_user a) (s_user b).

Definition required_cols : list string :=
  ["hashed_user_id"; "created_at"; "question"; "answer"].

Definition generate_full_summary (df : RawFrame) : Process :=
  if negb (forallb (has_column df) required_cols)
  then
    let missing := filter (fun col => negb (has_column df col)) required_cols in
    mkProcess []
      [("Error: " ++ str_exn (KeyError ("Missing expected columns: " ++ join missing)) ++
        ". Please ensure relevant columns exist in your CSV input." ++ nl)%string]
      1
  else
    match summarise (rows df) (groups (rows df)) with
    | inl e =>
        mkProcess []
          [("An unexpected error occurred during full summary generation: " ++
            str_exn e ++ nl)%string]
          1
    | inr summary_df =>
        mkProcess [ToCsv (stable_sort summary_leb summary_df)] [] 0
    end.

(** The script body: [process_data_from_stdin], then one of the two
    modes. *)
Definition main (stdin : M RawFrame) (filter_question : option string) : Process :=
  match stdin with
  | inl EmptyDataError =>
      mkProcess [] [("Error: No data to parse. The input CSV might be empty." ++ nl)%string] 1
  | inl e =>
      mkProcess []
        [("An unexpected error occurred while reading input: " ++ str_exn e ++ nl)%string] 1
  | inr data_frame =>
      match filter_question with
      | Some question_to_filter =>
          if truthy filter_question
          then
            match get_unique_answers_for_question data_frame question_to_filter with
            | Some answers => mkProcess (map PrintLine answers) [] 0
            | None =>
                mkProcess []
                  [("Error: 'question' or 'answer' column not found in the input data." ++ nl)%string]
                  1
            end
          else generate_full_summary data_frame
      | None => generate_full_summary data_frame
      end
  end.

End SummarizeNoki.

(** ** [downloadStorms.py]

    The two HTTP exchanges are inputs of the model: what the server
    answers, or the [RequestException] that the call raises. *)

Module DownloadStorms.

Definition OUTPUT_FILE : string := "NokiEvacuateOutput.csv".

(** [requests.post(...)], [raise_for_status()] and [.json().get('token')]. *)
Inductive auth_outcome : Type :=
| AuthRaises (e : string)
| AuthJson (token : option string).

(** [requests.get(..., stream=True)], [raise_for_status()] and the chunks
    of [iter_content]; the stream may break after some chunks. *)
Inductive data_outcome : Type :=
| DataRaises (e : string)
| DataStream (chunks : list (list Byte.byte)) (broken : option string).

(** What the run leaves behind: the lines printed, the [Authorization]
    header of the download request if one was made, and the content of
    the output file ([None]: no such file). *)
Record Outcome : Type := mkOutcome {
  printed : list string;
  authorization : option string;
  output_file : option (list Byte.byte)
}.

Definition download_noki_data (auth : auth_outcome) (data : data_outcome)
  (file_before : option (list Byte.byte)) : Outcome :=
  let error (e : string) : string := ("An error occurred: " ++ e)%string in
  let downloading : string := ("Downloading data to " ++ OUTPUT_FILE ++ "...")%string in
  match auth with
  | AuthRaises e =>
      mkOutcome ["Authenticating..."; error e] None file_before
  | AuthJson token =>
      if negb (Pandas.truthy token)
      then mkOutcome ["Authenticating..."; "Error: Could not find 'token' in response."]
             None file_before
      else
        let bearer : string :=
          ("Bearer " ++ match token with Some t => t | None => "" end)%string in
        match data with
        | DataRaises e =>
            mkOutcome ["Authenticating..."; downloading; error e]
              (Some bearer) file_before
        | DataStream chunks (Some e) =>
            mkOutcome ["Authenticating..."; downloading; error e]
              (Some bearer) (Some (List.concat chunks))
        | DataStream chunks None =>
            mkOutcome ["Authenticating..."; downloading; "Download complete."]
              (Some bearer) (Some (List.concat chunks))
        end
  end.

End DownloadStorms.

(** ** Selections of rows used in the statements *)

Module Selection.
Import Pandas.

(** The rows whose [created_at] holds an instant. *)
Definition has_instant (r : Row) : bool :=
  match created_at r with
  | Timestamp _ => true
  | _ => false
  end.

(** The rows that [genetedatefilterprocess.py] works on: after
    [to_datetime(errors='coerce')] and [dropna(subset=['created_at'])]. *)
Definition parsed_rows (df : list Row) : list Row :=
  dropna_created_at (to_datetime_coerce df).


End Selection.

(** ** Percentages as the code computes them

    The scripts compute percentages in binary floating point.  A rounding
    function [fl] stands for the rounding of one operation; the
    breakdowns below are those of the scripts with every operation on
    percentages rounded. *)

Module Floating.
Import Pandas.

Fixpoint qpow (x : Q) (n : nat) : Q :=
  match n with
  | O => 1
  | S m => x * qpow x m
  end.

(** [(count / total) * 100], one rounding per operation. *)
Definition percent_fl (fl : Q -> Q) (count total : nat) : Q :=
  fl (fl (inject_Z (Z.of_nat count) / inject_Z (Z.of_nat total)) * 100).

(** The sum of a column, accumulated from the first row on. *)
Definition sum_fl (fl : Q -> Q) (l : list Q) : Q :=
  fold_left (fun s x => fl (s + x)) l 0.

(** [calculate_aggregated_answer_percentages] of
    [genetedatefilterprocess.py] with the percentage column computed by
    [pct]. *)
Definition calculate_aggregated_answer_percentages
  (pct : nat -> nat -> Q) (df_input : list Row) (question_prefix : string)
  : list GeneteDateFilter.PctRow :=
  let filtered_questions_df :=
    filter (GeneteDateFilter.question_startswith question_prefix) df_input in
  if empty filtered_questions_df then []
  else
    let answer_counts := value_counts (map answer filtered_questions_df) in
    let total_answers := list_sum (map snd answer_counts) in
    if Nat.eqb total_answers 0 then []
    else
      stable_sort
        (fun a b => Qle_bool (GeneteDateFilter.percentage b)
                             (GeneteDateFilter.percentage a))
        (map (fun ac => GeneteDateFilter.mkPct (fst ac) (pct (snd ac) total_answers))
           answer_counts).

(** The table of [geneteprocess.py] with the percentage column computed
    by [pct]. *)
Definition merged_df (pct : nat -> nat -> Q)
  (counts : list Genete.AnswerCount) (totals : list Genete.UserTotal)
  : list Genete.UserPct :=
  flat_map
    (fun c =>
       map (fun t => Genete.mkUserPct (Genete.ac_user c) (Genete.ac_answer c)
                       (pct (Genete.ac_count c) (Genete.total_answers t)))
           (filter (fun t => cell_eqb (Genete.ac_user c) (Genete.ut_user t)) totals))
    counts.

Definition final_output_df (pct : nat -> nat -> Q)
  (filtered_questions_df : list Row) : list Genete.UserPct :=
  let answer_counts := Genete.answer_counts filtered_questions_df in
  let total_answers_per_user := Genete.total_answers_per_user answer_counts in
  stable_sort Genete.output_leb (merged_df pct answer_counts total_answers_per_user).

(** The percentages of one user, in the order of the table. *)
Definition percentages_of (u : option string) (table : list Genete.UserPct) : list Q :=
  map Genete.up_percentage
    (filter (fun r => cell_eqb u (Genete.up_user r)) table).

End Floating.

(** ** [genetedatefilterprocess.py] with the column types of pandas

    [read_csv] infers a type for every column, and [to_datetime] gives
    the parsed [created_at] column a time-zone kind.  Two steps of the
    script depend on them: the comparison [df['answer'] == "2009"] is
    [False] on every row of a column that was not read as text, and
    [df['created_at'] >= start_datetime] raises [TypeError] when one
    side carries a time zone and the other does not.  The script below is
    the script of [GeneteDateFilter] with both made explicit. *)

Module DateFilter.
Import Pandas.
Import GeneteDateFilter.

Inductive tz : Type :=
| Naive
| Aware.

Definition tz_eqb (a b : tz) : bool :=
  match a, b with
  | Naive, Naive | Aware, Aware => true
  | _, _ => false
  end.

(** [str(e)] of the [TypeError] of the comparison. *)
Definition invalid_comparison (column : tz) : string :=
  match column with
  | Aware => "Invalid comparison between dtype=datetime64[ns, UTC] and Timestamp"
  | Naive => "Invalid comparison between dtype=datetime64[ns] and Timestamp"
  end.

(** [first_questions_df['answer'] == "2009"], row by row. *)
Definition answer_is_2009 (text_answers : bool) (r : Row) : bool :=
  if text_answers then eq_str (answer r) "2009" else false.

Definition second_output (text_answers : bool) (df : list Row) : list chunk :=
  let first_questions_overall_df := filter (question_startswith "First") df in
  [Write ("--- Overall Percentage of '2009' Answers for Questions Starting with 'First' ---" ++ nl);
   if empty first_questions_overall_df
   then Write ("No questions starting with 'First' found in the dataset (after date filter if applied)." ++ nl)
   else
     let total_first_questions_answered := List.length first_questions_overall_df in
     let answers_2009_count :=
       List.length (filter (answer_is_2009 text_answers) first_questions_overall_df) in
     if Nat.ltb 0 total_first_questions_answered
     then WritePercent2009 (percent answers_2009_count total_first_questions_answered)
     else Write ("No answers found for questions starting with 'First'." ++ nl);
   Write nl].

Definition sessions_with_2009_answer (text_answers : bool) (df : list Row)
  : list (option string) :=
  let first_questions_df := filter (question_startswith "First") df in
  unique cell_eqb
    (map session_id (filter (answer_is_2009 text_answers) first_questions_df)).

Definition filtered_df (text_answers : bool) (df : list Row) : list Row :=
  filter (fun r => isin_cells (session_id r) (sessions_with_2009_answer text_answers df)) df.

Definition third_output (text_answers : bool) (df : list Row) : list chunk :=
  Write ("--- Overall Percentage of Answers for Questions Starting with 'Now,' (Filtered by 'First' = '2009') ---" ++ nl) ::
  (if Nat.eqb (List.length (sessions_with_2009_answer text_answers df)) 0
   then [Write ("No sessions found where answer to a 'First' question was '2009'." ++ nl);
         Write ("Therefore, no filtered percentages for 'Now,' questions can be calculated." ++ nl)]
   else
     let filtered_data_percentages :=
       calculate_aggregated_answer_percentages (filtered_df text_answers df) "Now," in
     [if negb (empty filtered_data_percentages)
      then ToCsv filtered_data_percentages
      else Write ("No questions starting with 'Now,' found in the filtered dataset (after date filter if applied)." ++ nl)])
  ++ [Write nl].

Definition report (text_answers : bool) (df : list Row) : Process :=
  mkProcess (first_output df ++ second_output text_answers df ++ third_output text_answers df)
    [] 0.

Section Script.
(** [read_csv]'s inference on the cells of a column: [true] when the
    column stays text. *)
Variable object_dtype : list (option string) -> bool.
(** [pd.to_datetime] on the [--start-date] string, and the time-zone kind
    of its result. *)
Variable to_datetime : string -> option Z.
Variable tz_of : string -> tz.

Definition process_and_output_percentages (stdin : M DataFrame)
  (created_at_tz : tz) (start_date : option string) : Process :=
  match stdin with
  | inl EmptyDataError =>
      mkProcess [] [("Error: No data to parse. The input CSV might be empty." ++ nl)%string] 1
  | inl e =>
      mkProcess [] [("An unexpected error occurred: " ++ str_exn e ++ nl)%string] 1
  | inr frame =>
      if negb (forallb (has_column frame) required_cols)
      then
        let missing := missing_columns required_cols frame in
        mkProcess [] [missing_message missing] 1
      else
        let text_answers := object_dtype (map answer (rows frame)) in
        let df := dropna_created_at (to_datetime_coerce (rows frame)) in
        match start_date with
        | Some text =>
            if truthy start_date
            then
              match to_datetime text with
              | Some start_datetime =>
                  if tz_eqb created_at_tz (tz_of text)
                  then
                    let df := filter (fun r => ts_ge (created_at r) start_datetime) df in
                    if empty df
                    then mkProcess
                           [Write ("No data found on or after " ++ text ++ " after filtering." ++ nl)]
                           [] 0
                    else report text_answers df
                  else
                    mkProcess []
                      [("An unexpected error occurred: " ++ invalid_comparison created_at_tz ++ nl)%string]
                      1
              | None =>
                  mkProcess []
                    [("Error: Invalid start date format: '" ++ text ++ "'. Please use YYYY-MM-DD format." ++ nl)%string]
                    1
              end
            else report text_answers df
        | None => report text_answers df
        end
  end.

End Script.
End DateFilter.

(** ** [generate_full_summary] with the column types of pandas

    On an [answer] column that [read_csv] did not read as text the values
    of a group are numbers, and [', '.join] raises on the first of
    them. *)

Module SummaryTyped.
Import Pandas.
Import SummarizeNoki.

Definition not_text_item (answers : list (option string)) : string :=
  if forallb notna answers
  then "sequence item 0: expected str instance, numpy.int64 found"
  else "sequence item 0: expected str instance, numpy.float64 found".

Section Script.
Variable object_dtype : list (option string) -> bool.

Definition generate_full_summary (df : RawFrame) : Process :=
  if negb (forallb (has_column df) required_cols)
  then SummarizeNoki.generate_full_summary df
  else if object_dtype (map SummarizeNoki.answer (rows df))
  then SummarizeNoki.generate_full_summary df
  else
    match groups (rows df) with
    | [] => SummarizeNoki.generate_full_summary df
    | _ :: _ =>
        mkProcess []
          [("An unexpected error occurred during full summary generation: " ++
            not_text_item (map SummarizeNoki.answer (rows df)) ++ nl)%string]
          1
    end.

End Script.
End SummaryTyped.

(** ** Inputs with column types *)

Module TypedSamples.
Import Pandas.

Definition is_digit (c : ascii) : bool :=
  (48 <=? nat_of_ascii c)%nat && (nat_of_ascii c <=? 57)%nat.

Fixpoint all_digits (s : string) : bool :=
  match s with
  | EmptyString => true
  | String c rest => is_digit c && all_digits rest
  end.

(** A cell of one to nine digits is read as an integer. *)
Definition integer_cell (c : option string) : bool :=
  match c with
  | Some s => (1 <=? String.length s)%nat && (String.length s <=? 9)%nat && all_digits s
  | None => false
  end.

(** [read_csv]'s inference on the columns used below: a column of
    integer cells is read as [int64], one without any present cell as
    [float64], and one with a cell that is no number stays text. *)
Definition object_dtype (cells : list (option string)) : bool :=
  negb (forallb (fun c => negb (notna c) || integer_cell c) cells).

(** A date without an offset parses to a naive timestamp. *)
Definition tz_of (s : string) : DateFilter.tz := DateFilter.Naive.

(** A survey in which every answer is a number: the session [s1]
    answered "2009" to the "First" question. *)
Definition numeric_answers : DataFrame :=
  mkFrame Samples.survey_columns
    [Samples.survey "h1" "s1" "First year here?" (Some "2009")
       (Timestamp Samples.t_2026_01_01_10h);
     Samples.survey "h1" "s1" "Now, how many dry months?" (Some "3")
       (Timestamp Samples.t_2026_01_02_09h)].

(** The same session with a text answer to the "Now," question. *)
Definition text_answers : DataFrame :=
  mkFrame Samples.survey_columns
    [Samples.survey "h1" "s1" "First year here?" (Some "2009")
       (Timestamp Samples.t_2026_01_01_10h);
     Samples.survey "h1" "s1" "Now, drought?" (Some "Yes")
       (Timestamp Samples.t_2026_01_02_09h)].

(** One survey row on each side of midnight, stamped
    [2026-01-01T23:59:59Z] and [2026-01-02T09:00:00Z]. *)
Definition survey_around_midnight : DataFrame :=
  mkFrame Samples.survey_columns
    [Samples.survey "h1" "s1" "Now, drought?" (Some "Yes")
       (Timestamp Samples.t_2026_01_01_23h59m59);
     Samples.survey "h2" "s2" "Now, drought?" (Some "No")
       (Timestamp Samples.t_2026_01_02_09h)].

End TypedSamples.

(** ** The conditional breakdown, in the words of the specification *)

Module ConditionalBreakdown.
Import Pandas.
Import GeneteDateFilter.

(** A session qualifies when one of its rows kept by the run has a
    question starting with "First" and the answer "2009"; on an [answer]
    column that was not read as text no answer equals the text "2009". *)
Definition qualifies (text_answers : bool) (df : list Row) (s : option string) : Prop :=
  exists r, In r df /\ question_startswith "First" r = true /\
            text_answers = true /\ answer r = Some "2009" /\ session_id r = s.

(** The third section of the report for the qualifying sessions
    [sessions]: a note that there is none, or the breakdown of the "Now,"
    questions over their rows, never an empty table. *)
Definition section (sessions : list (option string)) (df : list Row) : list chunk :=
  Write ("--- Overall Percentage of Answers for Questions Starting with 'Now,' (Filtered by 'First' = '2009') ---" ++ nl) ::
  match sessions with
  | [] =>
      [Write ("No sessions found where answer to a 'First' question was '2009'." ++ nl);
       Write ("Therefore, no filtered percentages for 'Now,' questions can be calculated." ++ nl)]
  | _ :: _ =>
      match calculate_aggregated_answer_percentages
              (filter (fun r => isin_cells (session_id r) sessions) df) "Now," with
      | [] => [Write ("No questions starting with 'Now,' found in the filtered dataset (after date filter if applied)." ++ nl)]
      | table => [ToCsv table]
      end
  end ++ [Write nl].

(** The run writes its three sections for the rows [df], the third one
    for exactly the qualifying sessions, and ends with status 0. *)
Definition reported (text_answers : bool) (df : list Row) (run : Process) : Prop :=
  exists sessions,
    (forall s, In s sessions <-> qualifies text_answers df s) /\
    run = mkProcess
            (first_output df ++ DateFilter.second_output text_answers df ++
             section sessions df)
            [] 0.

End ConditionalBreakdown.

(** * Properties *)

(** ** Facts about cells and lists *)

Import Pandas.

Lemma cell_eqb_eq (a b : option string) : cell_eqb a b = true <-> a = b.
Proof.
  destruct a as [x|], b as [y|]; simpl; split; intro H;
    try discriminate; try reflexivity.
  - apply String.eqb_eq in H. now subst.
  - injection H as ->. apply String.eqb_refl.
Qed.

Lemma cell_eqb_refl (a : option string) : cell_eqb a a = true.
Proof. now apply cell_eqb_eq. Qed.

Lemma cell_eqb_neq (a b : option string) : cell_eqb a b = false <-> a <> b.
Proof.
  split.
  - intros H E. apply cell_eqb_eq in E. congruence.
  - intro H. destruct (cell_eqb a b) eqn:E; [|reflexivity].
    apply cell_eqb_eq in E. contradiction.
Qed.

Lemma ts_leb_total (a b : timestamp_cell) :
  ts_leb a b = true \/ ts_leb b a = true.
Proof.
  destruct a, b; simpl; auto.
  destruct (Z.leb_spec t t0); [now left|right].
  apply Z.leb_le. lia.
Qed.

Lemma ts_leb_trans (a b c : timestamp_cell) :
  ts_leb a b = true -> ts_leb b c = true -> ts_leb a c = true.
Proof.
  destruct a, b, c; simpl; intros H1 H2; try discriminate; try reflexivity.
  apply Z.leb_le in H1, H2. apply Z.leb_le. lia.
Qed.

Lemma filter_all {A : Type} (p : A -> bool) (l : list A) :
  Forall (fun x => p x = true) l -> filter p l = l.
Proof.
  induction 1 as [|x l Hx _ IH]; simpl; [reflexivity|].
  now rewrite Hx, IH.
Qed.

Lemma filter_none {A : Type} (p : A -> bool) (l : list A) :
  Forall (fun x => p x = false) l -> filter p l = [].
Proof.
  induction 1 as [|x l Hx _ IH]; simpl; [reflexivity|].
  now rewrite Hx.
Qed.

Lemma filter_split {A : Type} (p : A -> bool) (l l1 l2 : list A) (x : A) :
  filter p l = l1 ++ x :: l2 ->
  exists d1 d2, l = d1 ++ x :: d2 /\ filter p d1 = l1 /\ filter p d2 = l2.
Proof.
  revert l1. induction l as [|y l IH]; intros l1 H; simpl in H.
  - destruct l1; discriminate.
  - destruct (p y) eqn:Ey.
    + destruct l1 as [|z l1]; simpl in H.
      * injection H as -> H. exists [], l. simpl. auto.
      * injection H as -> H. destruct (IH _ H) as (d1 & d2 & -> & H1 & H2).
        exists (z :: d1), d2. simpl. rewrite Ey, H1. auto.
    + destruct (IH _ H) as (d1 & d2 & -> & H1 & H2).
      exists (y :: d1), d2. simpl. rewrite Ey. auto.
Qed.

(** ** The stable sort *)

Section SortFacts.
Context {A : Type} (leb : A -> A -> bool).

Let le (a b : A) : Prop := leb a b = true.

Lemma insert_sorted_perm (x : A) (l : list A) :
  Permutation (insert_sorted leb x l) (x :: l).
Proof.
  induction l as [|y t IH]; simpl; [reflexivity|].
  destruct (leb x y); [reflexivity|].
  rewrite IH. apply perm_swap.
Qed.

Lemma stable_sort_perm (l : list A) : Permutation (stable_sort leb l) l.
Proof.
  induction l as [|x t IH]; simpl; [reflexivity|].
  rewrite insert_sorted_perm. now apply perm_skip.
Qed.

Lemma stable_sort_in (l : list A) (x : A) :
  In x (stable_sort leb l) <-> In x l.
Proof.
  split; apply Permutation_in;
    [apply stable_sort_perm | symmetry; apply stable_sort_perm].
Qed.

Lemma stable_sort_length (l : list A) :
  List.length (stable_sort leb l) = List.length l.
Proof. apply Permutation_length, stable_sort_perm. Qed.

(** A sorted list is left as it is: the sort never exchanges two rows
    that are already in order. *)
Lemma stable_sort_sorted_id (l : list A) :
  Sorted le l -> stable_sort leb l = l.
Proof.
  induction 1 as [|x t Ht IH Hx]; simpl; [reflexivity|].
  rewrite IH. destruct Hx as [|y t' Hxy]; simpl; [reflexivity|].
  unfold le in Hxy. now rewrite Hxy.
Qed.

Hypothesis leb_total : forall a b, leb a b = true \/ leb b a = true.
Hypothesis leb_trans : forall a b c, leb a b = true -> leb b c = true -> leb a c = true.

Lemma insert_sorted_strongly (x : A) (l : list A) :
  StronglySorted le l -> StronglySorted le (insert_sorted leb x l).
Proof.
  induction 1 as [|y t Ht IH Hy]; simpl.
  - repeat constructor.
  - destruct (leb x y) eqn:E.
    + constructor; [now constructor|].
      constructor; [exact E|].
      eapply Forall_impl; [|exact Hy]. intros z Hz. eapply leb_trans; eauto.
    + constructor; [exact IH|].
      assert (Hyx : le y x) by (destruct (leb_total x y); [congruence|assumption]).
      eapply Permutation_Forall; [symmetry; apply insert_sorted_perm|].
      now constructor.
Qed.

Lemma stable_sort_strongly (l : list A) : StronglySorted le (stable_sort leb l).
Proof.
  induction l as [|x t IH]; simpl; [constructor|].
  now apply insert_sorted_strongly.
Qed.

(** Stability: sorting commutes with any row selection. *)
Lemma filter_insert_sorted (p : A -> bool) (x : A) (l : list A) :
  StronglySorted le l ->
  filter p (insert_sorted leb x l) =
  if p x then insert_sorted leb x (filter p l) else filter p l.
Proof.
  induction 1 as [|y t Ht IH Hy]; simpl.
  - destruct (p x); reflexivity.
  - destruct (leb x y) eqn:E; simpl.
    + destruct (p x) eqn:Ex; [|reflexivity].
      destruct (p y) eqn:Ey; simpl.
      * now rewrite E.
      * assert (Hall : Forall (fun z => leb x z = true) (filter p t)).
        { apply Forall_forall. intros z Hz. apply filter_In in Hz.
          rewrite Forall_forall in Hy. eapply leb_trans; [exact E|].
          apply Hy, Hz. }
        destruct (filter p t) as [|z f]; simpl; [reflexivity|].
        inversion Hall as [|? ? Hz _]; subst. now rewrite Hz.
    + rewrite IH. destruct (p x), (p y); simpl; try reflexivity.
      now rewrite E.
Qed.

Lemma filter_stable_sort (p : A -> bool) (l : list A) :
  filter p (stable_sort leb l) = stable_sort leb (filter p l).
Proof.
  induction l as [|x t IH]; simpl; [reflexivity|].
  rewrite filter_insert_sorted by apply stable_sort_strongly.
  rewrite IH. destruct (p x); reflexivity.
Qed.

Lemma insert_sorted_last (x b : A) (s : list A) :
  StronglySorted le (s ++ [b]) ->
  insert_sorted leb x (s ++ [b]) =
  if leb x b then insert_sorted leb x s ++ [b] else s ++ [b; x].
Proof.
  induction s as [|y s IH]; simpl; intro H.
  - destruct (leb x b); reflexivity.
  - inversion H as [|? ? Hs Hy]; subst.
    destruct (leb x y) eqn:E.
    + assert (Hb : leb x b = true).
      { eapply leb_trans; [exact E|]. rewrite Forall_forall in Hy.
        apply Hy, in_or_app. right. now left. }
      now rewrite Hb.
    + rewrite (IH Hs). destruct (leb x b); reflexivity.
Qed.

Lemma insert_sorted_nonempty (x : A) (s : list A) :
  exists s' b, insert_sorted leb x s = s' ++ [b].
Proof.
  destruct (insert_sorted leb x s) as [|y t] eqn:E.
  - destruct s; simpl in E; [discriminate|]. destruct (leb x a); discriminate.
  - destruct (exists_last (l := y :: t)) as (s' & b & ->); [discriminate|].
    now exists s', b.
Qed.

Lemma stable_sort_last (l s : list A) (b : A) :
  stable_sort leb l = s ++ [b] -> last_greatest leb l = Some b.
Proof.
  revert s b. induction l as [|x t IH]; intros s b H; simpl in *.
  - destruct s; discriminate.
  - destruct t as [|y t'].
    + simpl in *. destruct s as [|? [|? ?]]; try discriminate.
      now injection H as ->.
    + destruct (insert_sorted_nonempty y (stable_sort leb t')) as (s0 & b0 & E0).
      change (stable_sort leb (y :: t')) with
        (insert_sorted leb y (stable_sort leb t')) in *.
      rewrite E0 in H. rewrite (IH _ _ E0).
      rewrite insert_sorted_last in H.
      2:{ rewrite <- E0. apply insert_sorted_strongly, stable_sort_strongly. }
      destruct (leb x b0).
      * apply app_inj_tail in H. destruct H as [_ ->]. reflexivity.
      * change (s0 ++ [b0; x]) with (s0 ++ [b0] ++ [x]) in H.
        rewrite app_assoc in H. apply app_inj_tail in H.
        destruct H as [_ ->]. reflexivity.
Qed.

Lemma last_greatest_split (l : list A) (b : A) :
  last_greatest leb l = Some b ->
  exists l1 l2, l = l1 ++ b :: l2 /\
    Forall (fun x => leb x b = true) l1 /\
    Forall (fun x => leb b x = false) l2.
Proof.
  revert b. induction l as [|x t IH]; intros b H; simpl in H; [discriminate|].
  destruct (last_greatest leb t) as [c|] eqn:Et.
  - destruct (IH _ eq_refl) as (l1 & l2 & -> & H1 & H2).
    destruct (leb x c) eqn:E; injection H as <-.
    + exists (x :: l1), l2. simpl. auto.
    + exists [], (l1 ++ c :: l2). simpl. repeat split; auto.
      assert (Hcx : leb c x = true) by (destruct (leb_total x c); congruence).
      apply Forall_app. split.
      * eapply Forall_impl; [|exact H1]. intros z Hz. simpl in Hz.
        destruct (leb x z) eqn:Exz; [|reflexivity].
        rewrite (leb_trans _ _ _ Exz Hz) in E. discriminate.
      * constructor; [exact E|].
        eapply Forall_impl; [|exact H2]. intros z Hz. simpl in Hz.
        destruct (leb x z) eqn:Exz; [|reflexivity].
        rewrite (leb_trans _ _ _ Hcx Exz) in Hz. discriminate.
  - injection H as <-. destruct t; simpl in Et.
    + exists [], []. auto.
    + destruct (last_greatest leb t); [destruct (leb a a0)|]; discriminate.
Qed.

End SortFacts.

(** ** [drop_duplicates(keep='last')] *)

Section DropDuplicates.
Variable key : Row -> option string.

Lemma existsb_key (k : option string) (l : list Row) :
  existsb (fun r' => cell_eqb k (key r')) l = true <-> In k (map key l).
Proof.
  rewrite existsb_exists, in_map_iff. split.
  - intros (r & Hr & E). apply cell_eqb_eq in E. eauto.
  - intros (r & E & Hr). exists r. split; [exact Hr|].
    apply cell_eqb_eq. congruence.
Qed.

Lemma drop_duplicates_last_incl (l : list Row) (r : Row) :
  In r (drop_duplicates_last key l) -> In r l.
Proof.
  induction l as [|x t IH]; simpl; [tauto|].
  destruct (existsb _ t); simpl; intuition.
Qed.

Lemma drop_duplicates_last_keys (l : list Row) (k : option string) :
  In k (map key (drop_duplicates_last key l)) <-> In k (map key l).
Proof.
  induction l as [|x t IH]; simpl; [tauto|].
  destruct (existsb _ t) eqn:E; simpl; rewrite IH; [|tauto].
  apply existsb_key in E. split; [tauto|]. intros [<-|H]; assumption.
Qed.

Lemma drop_duplicates_last_NoDup (l : list Row) :
  NoDup (map key (drop_duplicates_last key l)).
Proof.
  induction l as [|x t IH]; simpl; [constructor|].
  destruct (existsb _ t) eqn:E; simpl; [exact IH|].
  constructor; [|exact IH].
  rewrite drop_duplicates_last_keys, <- existsb_key. congruence.
Qed.

(** A kept row is the last row of its key. *)
Lemma drop_duplicates_last_split (l : list Row) (r : Row) :
  In r (drop_duplicates_last key l) ->
  exists l1 l2, l = l1 ++ r :: l2 /\ Forall (fun r' => key r' <> key r) l2.
Proof.
  induction l as [|x t IH]; simpl; [tauto|].
  destruct (existsb _ t) eqn:E.
  - intro H. destruct (IH H) as (l1 & l2 & -> & H2).
    exists (x :: l1), l2. auto.
  - intros [->|H].
    + exists [], t. split; [reflexivity|].
      apply Forall_forall. intros r' Hr' Ek.
      assert (existsb (fun r'0 => cell_eqb (key r) (key r'0)) t = true).
      { apply existsb_key. rewrite <- Ek. now apply in_map. }
      congruence.
    + destruct (IH H) as (l1 & l2 & -> & H2). exists (x :: l1), l2. auto.
Qed.

Lemma drop_duplicates_last_fixed (l : list Row) :
  NoDup (map key l) -> drop_duplicates_last key l = l.
Proof.
  induction l as [|x t IH]; simpl; intro H; [reflexivity|].
  inversion H as [|? ? Hx Ht]; subst.
  destruct (existsb _ t) eqn:E.
  - apply existsb_key in E. contradiction.
  - now rewrite IH.
Qed.

Lemma drop_duplicates_last_Forall (P : Row -> Prop) (l : list Row) :
  Forall P l -> Forall P (drop_duplicates_last key l).
Proof.
  rewrite !Forall_forall. intros H r Hr.
  apply H, drop_duplicates_last_incl, Hr.
Qed.

Lemma drop_duplicates_last_strongly (R : Row -> Row -> Prop) (l : list Row) :
  StronglySorted R l -> StronglySorted R (drop_duplicates_last key l).
Proof.
  induction 1 as [|x t Ht IH Hx]; simpl; [constructor|].
  destruct (existsb _ t); [exact IH|].
  constructor; [exact IH|]. now apply drop_duplicates_last_Forall.
Qed.

End DropDuplicates.

(** ** Latest response per user *)

Section Latest.
Import Evacuate.
Variable mask : Row -> bool.

Lemma created_leb_total (a b : Row) :
  created_leb a b = true \/ created_leb b a = true.
Proof. apply ts_leb_total. Qed.

Lemma created_leb_trans (a b c : Row) :
  created_leb a b = true -> created_leb b c = true -> created_leb a c = true.
Proof. apply ts_leb_trans. Qed.

Lemma latest_rows_in (df : list Row) (r : Row) :
  In r (latest_rows mask df) -> In r df /\ mask r = true.
Proof.
  unfold latest_rows, sort_values_created_at. intro H.
  apply drop_duplicates_last_incl, stable_sort_in, filter_In in H. exact H.
Qed.

Lemma latest_rows_NoDup (df : list Row) :
  NoDup (map user_id (latest_rows mask df)).
Proof. apply drop_duplicates_last_NoDup. Qed.

Lemma latest_rows_users (df : list Row) (u : option string) :
  In u (map user_id (latest_rows mask df)) <->
  exists r, In r df /\ mask r = true /\ user_id r = u.
Proof.
  unfold latest_rows, sort_values_created_at.
  rewrite drop_duplicates_last_keys, in_map_iff. split.
  - intros (r & E & H). apply stable_sort_in, filter_In in H.
    exists r. tauto.
  - intros (r & H & Hm & E). exists r. split; [exact E|].
    apply stable_sort_in, filter_In. tauto.
Qed.

(** The row kept for a user is the greatest of the user's rows of the
    group in the order of the sort, the last one in input order among
    equals. *)
Lemma latest_rows_greatest (df : list Row) (r : Row) :
  In r (latest_rows mask df) ->
  last_greatest created_leb
    (filter (fun r' => cell_eqb (user_id r) (user_id r')) (filter mask df))
  = Some r.
Proof.
  unfold latest_rows, sort_values_created_at. intro H.
  apply drop_duplicates_last_split in H. destruct H as (s1 & s2 & E & H2).
  eapply stable_sort_last with
    (s := filter (fun r' => cell_eqb (user_id r) (user_id r')) s1);
    [apply created_leb_total | apply created_leb_trans |].
  rewrite <- filter_stable_sort
    by (apply created_leb_total || apply created_leb_trans).
  rewrite E, filter_app. simpl.
  rewrite cell_eqb_refl. f_equal. f_equal.
  apply filter_none. eapply Forall_impl; [|exact H2].
  intros r' Hr'. apply cell_eqb_neq. congruence.
Qed.

Lemma latest_rows_position (df : list Row) (r : Row) :
  In r (latest_rows mask df) ->
  exists d1 d2, df = d1 ++ r :: d2 /\ mask r = true /\
    (forall r', In r' d1 -> mask r' = true -> user_id r' = user_id r ->
                ts_leb (created_at r') (created_at r) = true) /\
    (forall r', In r' d2 -> mask r' = true -> user_id r' = user_id r ->
                ts_leb (created_at r) (created_at r') = false).
Proof.
  intro H. pose proof (latest_rows_in _ _ H) as [_ Hm].
  apply latest_rows_greatest in H.
  apply last_greatest_split in H;
    [|apply created_leb_total | apply created_leb_trans].
  destruct H as (l1 & l2 & E & H1 & H2).
  apply filter_split in E. destruct E as (e1 & e2 & E & <- & <-).
  apply filter_split in E. destruct E as (d1 & d2 & -> & <- & <-).
  exists d1, d2. split; [reflexivity|]. split; [exact Hm|].
  rewrite Forall_forall in H1, H2.
  split; intros r' Hr' Hm' Hu.
  - apply H1. rewrite !filter_In. repeat split; auto.
    apply cell_eqb_eq. congruence.
  - apply H2. rewrite !filter_In. repeat split; auto.
    apply cell_eqb_eq. congruence.
Qed.

(** Extracting twice changes nothing: the rows of the first extraction
    all belong to the group, are sorted, and have distinct users. *)
Lemma latest_rows_idempotent (df : list Row) :
  latest_rows mask (latest_rows mask df) = latest_rows mask df.
Proof.
  set (out := latest_rows mask df).
  assert (Hmask : filter mask out = out).
  { apply filter_all, Forall_forall. intros r Hr.
    now apply latest_rows_in in Hr. }
  assert (Hsorted : sort_values_created_at out = out).
  { apply stable_sort_sorted_id, StronglySorted_Sorted.
    apply drop_duplicates_last_strongly.
    apply stable_sort_strongly;
      [apply created_leb_total | apply created_leb_trans]. }
  unfold latest_rows at 1. rewrite Hmask, Hsorted.
  apply drop_duplicates_last_fixed, latest_rows_NoDup.
Qed.

(** With any sort that returns a rearrangement of its input, extracting
    twice gives the rows of the first extraction. *)
Lemma latest_rows_with_idempotent (sort : list Row -> list Row) (df : list Row) :
  (forall l, Permutation (sort l) l) ->
  Permutation (latest_rows_with sort mask (latest_rows_with sort mask df))
              (latest_rows_with sort mask df).
Proof.
  intro Hsort. set (out := latest_rows_with sort mask df).
  assert (Hmask : filter mask out = out).
  { apply filter_all, Forall_forall. intros r Hr.
    apply drop_duplicates_last_incl in Hr.
    apply (Permutation_in _ (Hsort _)), filter_In in Hr. tauto. }
  unfold latest_rows_with at 1. rewrite Hmask.
  rewrite drop_duplicates_last_fixed; [apply Hsort|].
  apply (Permutation_NoDup (l := map user_id out)).
  - apply Permutation_map. symmetry. apply Hsort.
  - apply drop_duplicates_last_NoDup.
Qed.

End Latest.

(** ** The inner join *)

Section Join.
Import Evacuate.

Lemma merge_in (left right : list Extract) (m : Merged) :
  In m (merge left right) <->
  exists l r, In l left /\ In r right /\ ex_user_id l = ex_user_id r /\
              m = mkMerged (ex_user_id l) (ex_answer l) (ex_answer r).
Proof.
  unfold merge. rewrite in_flat_map. split.
  - intros (l & Hl & Hm). apply in_map_iff in Hm.
    destruct Hm as (r & <- & Hr). apply filter_In in Hr.
    destruct Hr as [Hr E]. apply cell_eqb_eq in E. exists l, r. auto.
  - intros (l & r & Hl & Hr & E & ->). exists l. split; [exact Hl|].
    apply in_map_iff. exists r. split; [reflexivity|].
    apply filter_In. split; [exact Hr|]. now apply cell_eqb_eq.
Qed.

Lemma merge_users (left right : list Extract) (u : option string) :
  In u (map m_user_id (merge left right)) <->
  In u (map ex_user_id left) /\ In u (map ex_user_id right).
Proof.
  rewrite !in_map_iff. split.
  - intros (m & <- & Hm). apply merge_in in Hm.
    destruct Hm as (l & r & Hl & Hr & E & ->). simpl. split.
    + now exists l.
    + exists r. auto.
  - intros [(l & El & Hl) (r & Er & Hr)].
    exists (mkMerged (ex_user_id l) (ex_answer l) (ex_answer r)).
    split; [exact El|]. apply merge_in. exists l, r.
    repeat split; auto. congruence.
Qed.

End Join.

(** ** Normalisation of the answers *)

Section Standardize.
Import Evacuate.
Local Open Scope exn_scope.

Lemma replace_petowner_idempotent (c : option string) :
  replace "Petowner" "Pet Owner" (replace "Petowner" "Pet Owner" c) =
  replace "Petowner" "Pet Owner" c.
Proof.
  destruct c as [x|]; simpl; [|reflexivity].
  destruct (String.eqb x "Petowner") eqn:E; simpl; [reflexivity|].
  now rewrite E.
Qed.

Lemma replace_petowner_gone (c : option string) :
  replace "Petowner" "Pet Owner" c <> Some "Petowner".
Proof.
  destruct c as [x|]; simpl; [|discriminate].
  destruct (String.eqb x "Petowner") eqn:E; [discriminate|].
  apply String.eqb_neq in E. congruence.
Qed.

Lemma standardize_idempotent (df : list Row) :
  standardize (standardize df) = standardize df.
Proof.
  unfold standardize. rewrite map_map. apply map_ext. intro r.
  unfold set_answer. simpl. now rewrite replace_petowner_idempotent.
Qed.

Lemma standardize_filter (p : timestamp_cell -> bool) (df : list Row) :
  filter (fun r => p (created_at r)) (standardize df) =
  standardize (filter (fun r => p (created_at r)) df).
Proof.
  induction df as [|r t IH]; simpl; [reflexivity|].
  destruct (p (created_at r)); simpl; now rewrite IH.
Qed.

Lemma standardize_empty (df : list Row) : empty (standardize df) = empty df.
Proof. now destruct df. Qed.

Lemma to_datetime_strict_standardize (df : list Row) :
  to_datetime_strict (standardize df) =
  (df' <- to_datetime_strict df ;; ret (standardize df')).
Proof.
  unfold to_datetime_strict.
  assert (H : forall l,
    match find (fun r => is_unparsed (created_at r)) (standardize l) with
    | Some r => Some (created_at r) | None => None end =
    match find (fun r => is_unparsed (created_at r)) l with
    | Some r => Some (created_at r) | None => None end).
  { induction l as [|r t IH]; simpl; [reflexivity|].
    destruct (is_unparsed (created_at r)); [reflexivity|exact IH]. }
  specialize (H df).
  destruct (find _ (standardize df)) as [r1|], (find _ df) as [r2|];
    try discriminate; [|reflexivity].
  injection H as ->. reflexivity.
Qed.

Lemma extract_and_merge_standardize (cols : DataFrame) (df : list Row) :
  extract_and_merge (standardize_frame cols) (standardize df) =
  extract_and_merge cols df.
Proof.
  unfold extract_and_merge, getitem, has_column. simpl.
  now rewrite standardize_idempotent.
Qed.

Lemma extract_and_merge_no_petowner (cols : DataFrame) (df : list Row)
  (merged : list Merged) (m : Merged) :
  extract_and_merge cols df = inr merged -> In m merged ->
  player_type m <> Some "Petowner" /\ evacuate_choice m <> Some "Petowner".
Proof.
  unfold extract_and_merge, getitem.
  destruct (has_column cols "answer"); [|discriminate].
  destruct (has_column cols "step_name"); [|discriminate].
  destruct (has_column cols "user_id"); [|discriminate].
  simpl. intros [= <-] Hm. apply merge_in in Hm.
  destruct Hm as (l & r & Hl & Hr & _ & ->). simpl.
  assert (H : forall mask e,
    In e (select_user_answer (latest_rows mask (standardize df))) ->
    ex_answer e <> Some "Petowner").
  { intros mask e He. apply in_map_iff in He. destruct He as (x & <- & Hx).
    apply latest_rows_in in Hx. destruct Hx as [Hx _].
    apply in_map_iff in Hx. destruct Hx as (y & <- & _). simpl.
    apply replace_petowner_gone. }
  split; eapply H; eassumption.
Qed.

Lemma first_working_standardize (today : Z) (frame : DataFrame) (only_today : bool) :
  FirstWorking.process_data today (inr (standardize_frame frame)) only_today =
  FirstWorking.process_data today (inr frame) only_today.
Proof.
  unfold FirstWorking.process_data. simpl.
  change (getitem (standardize_frame frame) "created_at")
    with (getitem frame "created_at").
  destruct (getitem frame "created_at") as [e|[]]; [reflexivity|]. simpl.
  rewrite to_datetime_strict_standardize.
  destruct (to_datetime_strict (rows frame)) as [e|df]; [reflexivity|]. simpl.
  destruct only_today; simpl.
  - rewrite (standardize_filter (fun c => date_eq c today)).
    rewrite standardize_empty.
    destruct (empty _); [reflexivity|].
    now rewrite extract_and_merge_standardize.
  - now rewrite extract_and_merge_standardize.
Qed.

Lemma time_window_standardize (to_datetime : string -> option Z)
  (start_time end_time : option string) (df : list Row) :
  ProcessEvacuate.time_window to_datetime start_time end_time (standardize df) =
  (df' <- ProcessEvacuate.time_window to_datetime start_time end_time df ;;
   ret (standardize df')).
Proof.
  unfold ProcessEvacuate.time_window, ProcessEvacuate.parse_bound.
  assert (Hend : forall l,
    match end_time with
    | Some e =>
        if truthy end_time
        then end_ts <- match to_datetime e with
                       | Some ts => ret ts
                       | None => raise (ValueError e)
                       end ;;
             ret (filter (fun r => ts_le (created_at r) end_ts) (standardize l))
        else ret (standardize l)
    | None => ret (standardize l)
    end =
    (df' <- match end_time with
            | Some e =>
                if truthy end_time
                then end_ts <- match to_datetime e with
                               | Some ts => ret ts
                               | None => raise (ValueError e)
                               end ;;
                     ret (filter (fun r => ts_le (created_at r) end_ts) l)
                else ret l
            | None => ret l
            end ;;
     ret (standardize df'))).
  { intro l. destruct end_time as [e|]; [|reflexivity].
    destruct (truthy (Some e)); [|reflexivity].
    destruct (to_datetime e) as [ts|]; [|reflexivity]. simpl.
    now rewrite (standardize_filter (fun c => ts_le c ts)). }
  destruct start_time as [s|]; simpl; [|apply Hend].
  destruct (negb (String.eqb s "")); simpl; [|apply Hend].
  destruct (to_datetime s) as [ts|]; simpl; [|reflexivity].
  rewrite (standardize_filter (fun c => ts_ge c ts)). apply Hend.
Qed.

Lemma process_evacuate_standardize (today : Z) (to_datetime : string -> option Z)
  (frame : DataFrame) (only_today : bool) (start_time end_time : option string) :
  ProcessEvacuate.process_data today to_datetime (inr (standardize_frame frame))
    only_today start_time end_time =
  ProcessEvacuate.process_data today to_datetime (inr frame)
    only_today start_time end_time.
Proof.
  unfold ProcessEvacuate.process_data. simpl.
  change (getitem (standardize_frame frame) "created_at")
    with (getitem frame "created_at").
  destruct (getitem frame "created_at") as [e|[]]; [reflexivity|]. simpl.
  rewrite to_datetime_strict_standardize.
  destruct (to_datetime_strict (rows frame)) as [e|df]; [reflexivity|]. simpl.
  assert (H : forall l,
    (df0 <- ProcessEvacuate.time_window to_datetime start_time end_time (standardize l) ;;
     if empty df0
     then ret ([Print "Warning: No data found for the specified timeframe."], None)
     else merged <- extract_and_merge (standardize_frame frame) df0 ;;
          ret ([], Some merged)) =
    (df0 <- ProcessEvacuate.time_window to_datetime start_time end_time l ;;
     if empty df0
     then ret ([Print "Warning: No data found for the specified timeframe."], None)
     else merged <- extract_and_merge frame df0 ;;
          ret ([], Some merged))).
  { intro l. rewrite time_window_standardize.
    destruct (ProcessEvacuate.time_window _ _ _ l) as [e|df0]; [reflexivity|].
    simpl. rewrite standardize_empty. destruct (empty df0); [reflexivity|].
    now rewrite extract_and_merge_standardize. }
  destruct only_today.
  - rewrite (standardize_filter (fun c => date_eq c today)). apply H.
  - apply H.
Qed.

End Standardize.

(** ** Counting *)

Section Counting.
Context {K : Type} (eqb : K -> K -> bool).
Hypothesis eqb_eq : forall a b, eqb a b = true <-> a = b.

Lemma unique_in (l : list K) (x : K) : In x (unique eqb l) <-> In x l.
Proof.
  induction l as [|y t IH]; simpl; [tauto|].
  rewrite filter_In, IH. split.
  - tauto.
  - intros [->|H]; [now left|].
    destruct (eqb y x) eqn:E.
    + left. now apply eqb_eq.
    + right. auto.
Qed.

Lemma unique_NoDup (l : list K) : NoDup (unique eqb l).
Proof.
  induction l as [|y t IH]; simpl; constructor.
  - rewrite filter_In. intros [_ H].
    assert (eqb y y = true) by now apply eqb_eq.
    rewrite H0 in H. discriminate.
  - now apply NoDup_filter.
Qed.

Lemma count_cons (x y : K) (l : list K) :
  count eqb x (y :: l) = ((if eqb x y then 1 else 0) + count eqb x l)%nat.
Proof. unfold count. simpl. now destruct (eqb x y). Qed.

Lemma count_positive (x : K) (l : list K) : In x l -> (0 < count eqb x l)%nat.
Proof.
  induction l as [|y t IH]; simpl; [tauto|]. rewrite count_cons.
  intros [->|H].
  - assert (E : eqb x x = true) by now apply eqb_eq. rewrite E. lia.
  - specialize (IH H). lia.
Qed.

Lemma sum_indicator (y : K) (u : list K) :
  NoDup u -> In y u ->
  list_sum (map (fun v => if eqb v y then 1%nat else 0%nat) u) = 1%nat.
Proof.
  induction 1 as [|x t Hx Ht IH]; simpl; [tauto|].
  assert (Hzero : forall l, ~ In y l ->
    list_sum (map (fun v => if eqb v y then 1%nat else 0%nat) l) = 0%nat).
  { induction l as [|z l IHl]; simpl; [reflexivity|]. intro Hn.
    destruct (eqb z y) eqn:E.
    - apply eqb_eq in E. subst. tauto.
    - apply IHl. tauto. }
  intros [->|H].
  - assert (E : eqb y y = true) by now apply eqb_eq.
    rewrite E, Hzero; auto.
  - destruct (eqb x y) eqn:E.
    + apply eqb_eq in E. subst. contradiction.
    + now rewrite IH.
Qed.

Lemma list_sum_map_add {B : Type} (f g : B -> nat) (l : list B) :
  list_sum (map (fun v => (f v + g v)%nat) l) =
  (list_sum (map f l) + list_sum (map g l))%nat.
Proof. induction l as [|x t IH]; simpl; [reflexivity|]. rewrite IH. lia. Qed.

(** The counts of the distinct values add up to the number of values. *)
Lemma sum_counts (u l : list K) :
  NoDup u -> incl l u ->
  list_sum (map (fun v => count eqb v l) u) = List.length l.
Proof.
  intro Hu. induction l as [|y t IH]; intro Hincl.
  - unfold count. simpl. clear. induction u as [|a u IHu]; simpl; auto.
  - rewrite (map_ext _ (fun v => ((if eqb v y then 1 else 0) + count eqb v t)%nat))
      by (intro v; apply count_cons).
    rewrite list_sum_map_add, sum_indicator, IH; simpl; auto.
    + intros z Hz. apply Hincl. now right.
    + apply Hincl. now left.
Qed.

Lemma sum_counts_unique (l : list K) :
  list_sum (map (fun v => count eqb v l) (unique eqb l)) = List.length l.
Proof.
  apply sum_counts; [apply unique_NoDup|].
  intros x Hx. now apply unique_in.
Qed.

Lemma filter_eqb_NoDup (u : K) (l : list K) :
  NoDup l -> In u l -> filter (eqb u) l = [u].
Proof.
  induction 1 as [|x t Hx Ht IH]; simpl; [tauto|].
  intros [->|H].
  - assert (E : eqb u u = true) by now apply eqb_eq. rewrite E. f_equal.
    apply filter_none, Forall_forall. intros z Hz.
    destruct (eqb u z) eqn:Ez; [|reflexivity].
    apply eqb_eq in Ez. subst. contradiction.
  - destruct (eqb u x) eqn:E.
    + apply eqb_eq in E. subst. contradiction.
    + auto.
Qed.

End Counting.

Lemma Permutation_filter_same {A : Type} (p : A -> bool) (l l' : list A) :
  Permutation l l' -> Permutation (filter p l) (filter p l').
Proof.
  induction 1 as [|x l l' _ IH|x y l|l l' l'' _ IH1 _ IH2]; simpl.
  - reflexivity.
  - destruct (p x); [now apply perm_skip|exact IH].
  - destruct (p x), (p y); try reflexivity. apply perm_swap.
  - now rewrite IH1.
Qed.

(** ** Sums of percentages *)

Lemma qsum_perm (l l' : list Q) : Permutation l l' -> qsum l == qsum l'.
Proof.
  induction 1 as [|x l l' _ IH|x y l|l l' l'' _ IH1 _ IH2]; simpl.
  - reflexivity.
  - now rewrite IH.
  - ring.
  - now rewrite IH1.
Qed.

Lemma qsum_percent {B : Type} (cnt : B -> nat) (total : nat) (l : list B) :
  qsum (map (fun b => percent (cnt b) total) l) ==
  percent (list_sum (map cnt l)) total.
Proof.
  unfold percent. induction l as [|x t IH]; simpl.
  - unfold Qdiv. ring.
  - rewrite IH, Nat2Z.inj_add, inject_Z_plus. unfold Qdiv. ring.
Qed.

Lemma percent_whole (total : nat) : total <> 0%nat -> percent total total == 100.
Proof.
  intro H. unfold percent. field.
  intro E. unfold Qeq in E. simpl in E. lia.
Qed.

(** ** The global breakdown *)

Section GlobalBreakdown.
Import GeneteDateFilter.

Lemma dropna_idempotent (s : list (option string)) : dropna (dropna s) = dropna s.
Proof.
  unfold dropna. apply filter_all, Forall_forall. intros x Hx.
  now apply filter_In in Hx.
Qed.

Lemma value_counts_dropna (s : list (option string)) :
  value_counts (dropna s) = value_counts s.
Proof. unfold value_counts. now rewrite dropna_idempotent. Qed.

Lemma value_counts_total (s : list (option string)) :
  list_sum (map snd (value_counts s)) = List.length (dropna s).
Proof.
  unfold value_counts.
  rewrite (Permutation_list_sum (Permutation_map snd (stable_sort_perm _ _))).
  rewrite map_map. simpl. apply sum_counts_unique, cell_eqb_eq.
Qed.

Lemma value_counts_in (s : list (option string)) (v : option string) (c : nat) :
  In (v, c) (value_counts s) <->
  In v (dropna s) /\ c = count cell_eqb v (dropna s).
Proof.
  unfold value_counts. rewrite stable_sort_in, in_map_iff. split.
  - intros (x & [= <- <-] & Hx). split; [|reflexivity].
    exact (proj1 (unique_in cell_eqb cell_eqb_eq _ _) Hx).
  - intros [Hv ->]. exists v. split; [reflexivity|].
    exact (proj2 (unique_in cell_eqb cell_eqb_eq _ _) Hv).
Qed.

(** The two guards of the function are one: no counted answer. *)
Lemma calculate_unfold (df : list Row) (question_prefix : string) :
  calculate_aggregated_answer_percentages df question_prefix =
  let total := List.length (matching_answers df question_prefix) in
  if Nat.eqb total 0 then []
  else
    stable_sort (fun a b => Qle_bool (percentage b) (percentage a))
      (map (fun ac => mkPct (fst ac) (percent (snd ac) total))
         (value_counts (map answer (filter (question_startswith question_prefix) df)))).
Proof.
  unfold calculate_aggregated_answer_percentages, matching_answers.
  rewrite value_counts_total.
  destruct (filter (question_startswith question_prefix) df) as [|r t];
    reflexivity.
Qed.

Lemma calculate_sum (df : list Row) (question_prefix : string) :
  matching_answers df question_prefix <> [] ->
  sum_percentages (calculate_aggregated_answer_percentages df question_prefix) == 100.
Proof.
  intro H. rewrite calculate_unfold. simpl.
  set (total := List.length (matching_answers df question_prefix)).
  assert (Ht : total <> 0%nat).
  { unfold total. destruct (matching_answers df question_prefix);
      [contradiction|discriminate]. }
  destruct (Nat.eqb_spec total 0) as [E|_]; [contradiction|].
  unfold sum_percentages.
  rewrite (qsum_perm _ _ (Permutation_map percentage (stable_sort_perm _ _))).
  rewrite map_map. simpl. rewrite qsum_percent, value_counts_total.
  apply percent_whole, Ht.
Qed.

Lemma calculate_no_answer (df : list Row) (question_prefix : string) :
  matching_answers df question_prefix = [] ->
  calculate_aggregated_answer_percentages df question_prefix = [].
Proof. intro H. rewrite calculate_unfold, H. reflexivity. Qed.

Lemma matching_answers_in (df : list Row) (question_prefix : string)
  (a : option string) :
  In a (matching_answers df question_prefix) <->
  exists r, In r df /\ question_startswith question_prefix r = true /\
            answer r = a /\ a <> None.
Proof.
  unfold matching_answers, dropna. rewrite filter_In, in_map_iff. split.
  - intros [(r & <- & Hr) Hn]. apply filter_In in Hr. exists r.
    repeat split; try tauto. destruct (answer r); [discriminate|discriminate].
  - intros (r & Hr & Hq & <- & Hn). split.
    + exists r. split; [reflexivity|]. now apply filter_In.
    + destruct (answer r); [reflexivity|contradiction].
Qed.

(** Rows without an answer can be removed without changing the result. *)
Lemma matching_answers_drop_missing (df : list Row) (question_prefix : string) :
  map answer
    (filter (question_startswith question_prefix)
       (filter (fun r => notna (answer r)) df)) =
  matching_answers df question_prefix.
Proof.
  unfold matching_answers, dropna.
  induction df as [|r t IH]; simpl; [reflexivity|].
  destruct (answer r) as [a|] eqn:Ea; simpl.
  - destruct (question_startswith question_prefix r); simpl;
      rewrite ?Ea; simpl; now rewrite IH.
  - destruct (question_startswith question_prefix r); simpl;
      rewrite ?Ea; simpl; exact IH.
Qed.

Lemma calculate_drop_missing (df : list Row) (question_prefix : string) :
  calculate_aggregated_answer_percentages
    (filter (fun r => notna (answer r)) df) question_prefix =
  calculate_aggregated_answer_percentages df question_prefix.
Proof.
  rewrite !calculate_unfold.
  assert (E1 : matching_answers (filter (fun r => notna (answer r)) df) question_prefix
               = matching_answers df question_prefix).
  { unfold matching_answers at 1. rewrite matching_answers_drop_missing.
    apply dropna_idempotent. }
  pose proof (value_counts_dropna
                (map answer (filter (question_startswith question_prefix) df))) as E2.
  change (dropna (map answer (filter (question_startswith question_prefix) df)))
    with (matching_answers df question_prefix) in E2.
  now rewrite E1, matching_answers_drop_missing, E2.
Qed.

Lemma count_matching (df : list Row) (question_prefix a : string) :
  count cell_eqb (Some a) (matching_answers df question_prefix) =
  List.length
    (filter (fun r => question_startswith question_prefix r && eq_str (answer r) a) df).
Proof.
  unfold count, matching_answers, dropna.
  induction df as [|r t IH]; simpl; [reflexivity|].
  destruct (question_startswith question_prefix r); simpl; [|exact IH].
  destruct (answer r) as [x|]; simpl; [|exact IH].
  rewrite String.eqb_sym. destruct (String.eqb x a); simpl; now rewrite IH.
Qed.

Lemma length_matching (df : list Row) (question_prefix : string) :
  List.length (matching_answers df question_prefix) =
  List.length
    (filter (fun r => question_startswith question_prefix r && notna (answer r)) df).
Proof.
  unfold matching_answers, dropna.
  induction df as [|r t IH]; simpl; [reflexivity|].
  destruct (question_startswith question_prefix r); simpl; [|exact IH].
  destruct (answer r) as [x|]; simpl; now rewrite IH.
Qed.

Lemma calculate_rows (df : list Row) (question_prefix : string) (row : PctRow) :
  In row (calculate_aggregated_answer_percentages df question_prefix) ->
  exists a, pct_answer row = Some a /\
    percentage row =
    percent
      (List.length
         (filter (fun r => question_startswith question_prefix r && eq_str (answer r) a) df))
      (List.length
         (filter (fun r => question_startswith question_prefix r && notna (answer r)) df)).
Proof.
  rewrite calculate_unfold. simpl.
  destruct (Nat.eqb _ 0); [intros []|].
  rewrite stable_sort_in, in_map_iff. intros ([v c] & <- & H). simpl.
  apply value_counts_in in H.
  change (dropna (map answer (filter (question_startswith question_prefix) df)))
    with (matching_answers df question_prefix) in H.
  destruct H as [Hv ->].
  apply matching_answers_in in Hv. destruct Hv as (_ & _ & _ & _ & Hv).
  destruct v as [a|]; [|contradiction]. exists a. split; [reflexivity|].
  now rewrite count_matching, length_matching.
Qed.

End GlobalBreakdown.

(** ** The breakdown per user *)

Section PerUserBreakdown.
Import Genete.

Lemma pair_eqb_eq (a b : option string * option string) :
  pair_eqb a b = true <-> a = b.
Proof.
  destruct a as [a1 a2], b as [b1 b2]. unfold pair_eqb. simpl.
  rewrite andb_true_iff, !cell_eqb_eq. split.
  - intros [-> ->]. reflexivity.
  - intros [= -> ->]. auto.
Qed.

Lemma list_sum_bound {B : Type} (f : B -> nat) (l : list B) (x : B) :
  In x l -> (f x <= list_sum (map f l))%nat.
Proof.
  induction l as [|y t IH]; simpl; [tauto|].
  intros [->|H]; [lia|]. specialize (IH H). lia.
Qed.

Lemma flat_map_singleton {B C : Type} (f : B -> list C) (h : B -> C) (l : list B) :
  (forall b, In b l -> f b = [h b]) -> flat_map f l = map h l.
Proof.
  induction l as [|x t IH]; simpl; intro H; [reflexivity|].
  rewrite H, IH by auto. reflexivity.
Qed.

Lemma groups_in (df : list Row) (k : option string * option string) :
  In k (groups df) <-> In k (group_keys df).
Proof.
  unfold groups. rewrite stable_sort_in. apply unique_in, pair_eqb_eq.
Qed.

Lemma groups_NoDup (df : list Row) : NoDup (groups df).
Proof.
  unfold groups. eapply Permutation_NoDup.
  - symmetry. apply stable_sort_perm.
  - apply unique_NoDup, pair_eqb_eq.
Qed.

Lemma group_keys_in (df : list Row) (k : option string * option string) :
  In k (group_keys df) -> fst k <> None /\ snd k <> None.
Proof.
  unfold group_keys. rewrite filter_In, andb_true_iff.
  intros [_ [H1 H2]]. destruct k as [[u|] [a|]]; simpl in *;
    split; discriminate.
Qed.

Lemma answer_counts_in (df : list Row) (c : AnswerCount) :
  In c (answer_counts df) ->
  In (ac_user c, ac_answer c) (group_keys df) /\
  ac_count c = count pair_eqb (ac_user c, ac_answer c) (group_keys df).
Proof.
  unfold answer_counts. rewrite in_map_iff.
  intros ([u a] & <- & H). simpl. split; [|reflexivity].
  now apply groups_in.
Qed.

Lemma totals_lookup (counts : list AnswerCount) (u : option string) :
  In u (map ac_user counts) -> u <> None ->
  filter (fun t => cell_eqb u (ut_user t)) (total_answers_per_user counts) =
  [mkTotal u (user_total counts u)].
Proof.
  intros Hin Hna. unfold total_answers_per_user.
  rewrite filter_map_swap. simpl.
  erewrite (filter_eqb_NoDup cell_eqb cell_eqb_eq); [reflexivity| |].
  - eapply Permutation_NoDup; [symmetry; apply stable_sort_perm|].
    apply unique_NoDup, cell_eqb_eq.
  - apply stable_sort_in, (unique_in cell_eqb cell_eqb_eq), filter_In.
    split; [exact Hin|]. destruct u; [reflexivity|contradiction].
Qed.

(** Every count row meets exactly one total row in the merge. *)
Lemma merged_df_map (counts : list AnswerCount) :
  Forall (fun c => ac_user c <> None) counts ->
  merged_df counts (total_answers_per_user counts) =
  map (fun c => mkUserPct (ac_user c) (ac_answer c)
                  (percent (ac_count c) (user_total counts (ac_user c))))
      counts.
Proof.
  intro H. unfold merged_df. apply flat_map_singleton. intros c Hc.
  rewrite totals_lookup; [reflexivity| |].
  - now apply in_map.
  - rewrite Forall_forall in H. now apply H.
Qed.

Lemma answer_counts_users (df : list Row) :
  Forall (fun c => ac_user c <> None) (answer_counts df).
Proof.
  apply Forall_forall. intros c Hc. apply answer_counts_in in Hc.
  destruct Hc as [Hc _]. apply group_keys_in in Hc. tauto.
Qed.

Lemma final_output_perm (df : list Row) :
  Permutation (final_output_df df)
    (map (fun c => mkUserPct (ac_user c) (ac_answer c)
                     (percent (ac_count c)
                        (user_total (answer_counts df) (ac_user c))))
         (answer_counts df)).
Proof.
  unfold final_output_df. rewrite stable_sort_perm.
  rewrite merged_df_map by apply answer_counts_users. reflexivity.
Qed.

Lemma final_output_in (df : list Row) (row : UserPct) :
  In row (final_output_df df) <->
  exists c, In c (answer_counts df) /\
    row = mkUserPct (ac_user c) (ac_answer c)
            (percent (ac_count c) (user_total (answer_counts df) (ac_user c))).
Proof.
  split.
  - intro H. apply (Permutation_in _ (final_output_perm df)) in H.
    apply in_map_iff in H. destruct H as (c & <- & Hc). eauto.
  - intros (c & Hc & ->).
    apply (Permutation_in _ (Permutation_sym (final_output_perm df))).
    apply in_map_iff. eauto.
Qed.

Lemma final_output_sum (df : list Row) (u : option string) :
  In u (map up_user (final_output_df df)) ->
  sum_percentages_of u (final_output_df df) == 100.
Proof.
  intro Hu. apply in_map_iff in Hu. destruct Hu as (row & <- & Hrow).
  apply final_output_in in Hrow. destruct Hrow as (c & Hc & ->). simpl.
  unfold sum_percentages_of.
  rewrite (qsum_perm _ _
             (Permutation_map up_percentage
                (Permutation_filter_same _ _ _ (final_output_perm df)))).
  rewrite filter_map_swap, map_map. simpl.
  rewrite (map_ext_in _
             (fun x => percent (ac_count x)
                         (user_total (answer_counts df) (ac_user c)))).
  2:{ intros x Hx. apply filter_In in Hx. destruct Hx as [_ Hx].
      apply cell_eqb_eq in Hx. now rewrite Hx. }
  rewrite qsum_percent. apply percent_whole.
  unfold user_total.
  assert (Hpos : (0 < ac_count c)%nat).
  { destruct (answer_counts_in _ _ Hc) as [Hk ->].
    now apply count_positive; [apply pair_eqb_eq|]. }
  pose proof (list_sum_bound ac_count
                (filter (fun c0 => cell_eqb (ac_user c) (ac_user c0)) (answer_counts df)) c)
    as Hb.
  assert (In c (filter (fun c0 => cell_eqb (ac_user c) (ac_user c0)) (answer_counts df))).
  { apply filter_In. split; [exact Hc|apply cell_eqb_refl]. }
  specialize (Hb H). lia.
Qed.

(** Rows without an answer (or without a user) form no group. *)
Lemma group_keys_drop_missing (df : list Row) :
  group_keys (filter (fun r => notna (answer r)) df) = group_keys df.
Proof.
  unfold group_keys. induction df as [|r t IH]; simpl; [reflexivity|].
  destruct (answer r) as [a|] eqn:Ea; simpl.
  - rewrite Ea. simpl. now rewrite IH.
  - rewrite andb_false_r. exact IH.
Qed.

Lemma final_output_drop_missing (df : list Row) :
  final_output_df (filter (fun r => notna (answer r)) df) = final_output_df df.
Proof.
  unfold final_output_df, answer_counts, groups.
  now rewrite group_keys_drop_missing.
Qed.

Lemma length_filter_keys (p : option string * option string -> bool) (df : list Row) :
  List.length (filter p (group_keys df)) =
  List.length
    (filter (fun r => (notna (hashed_user_id r) && notna (answer r)) &&
                      p (hashed_user_id r, answer r)) df).
Proof.
  unfold group_keys. induction df as [|r t IH]; [reflexivity|].
  cbn [map filter fst snd].
  destruct (notna (hashed_user_id r) && notna (answer r)); cbn [andb filter];
    [|exact IH].
  destruct (p (hashed_user_id r, answer r)); cbn [List.length]; now rewrite IH.
Qed.

Lemma count_group (df : list Row) (u a : string) :
  count pair_eqb (Some u, Some a) (group_keys df) =
  List.length
    (filter (fun r => eq_str (hashed_user_id r) u && eq_str (answer r) a) df).
Proof.
  unfold count. rewrite length_filter_keys. f_equal. apply filter_ext.
  intro r. unfold pair_eqb. simpl.
  destruct (hashed_user_id r) as [x|], (answer r) as [y|]; simpl;
    rewrite ?(String.eqb_sym u x), ?(String.eqb_sym a y), ?andb_false_r;
    reflexivity.
Qed.

Lemma length_user_keys (df : list Row) (u : string) :
  List.length (filter (fun k => cell_eqb (Some u) (fst k)) (group_keys df)) =
  List.length
    (filter (fun r => eq_str (hashed_user_id r) u && notna (answer r)) df).
Proof.
  rewrite length_filter_keys. f_equal. apply filter_ext.
  intro r. simpl.
  destruct (hashed_user_id r) as [x|], (answer r) as [y|]; simpl;
    rewrite ?(String.eqb_sym u x), ?andb_false_r, ?andb_true_r;
    reflexivity.
Qed.

Lemma count_within_user (u : option string)
  (k : option string * option string) (keys : list (option string * option string)) :
  fst k = u ->
  count pair_eqb k (filter (fun x => cell_eqb u (fst x)) keys) = count pair_eqb k keys.
Proof.
  intros <-. unfold count. induction keys as [|x t IH]; simpl; [reflexivity|].
  destruct (pair_eqb k x) eqn:E.
  - apply pair_eqb_eq in E. subst x. rewrite cell_eqb_refl. simpl.
    assert (E : pair_eqb k k = true) by now apply pair_eqb_eq.
    rewrite E. simpl. now rewrite IH.
  - destruct (cell_eqb (fst k) (fst x)); simpl; rewrite ?E; exact IH.
Qed.

Lemma user_total_length (df : list Row) (u : string) :
  user_total (answer_counts df) (Some u) =
  List.length
    (filter (fun r => eq_str (hashed_user_id r) u && notna (answer r)) df).
Proof.
  rewrite <- length_user_keys. unfold user_total, answer_counts.
  rewrite filter_map_swap, map_map. simpl.
  rewrite (map_ext_in _
    (fun k => count pair_eqb k
                (filter (fun x => cell_eqb (Some u) (fst x)) (group_keys df)))).
  2:{ intros k Hk. apply filter_In in Hk. destruct Hk as [_ Hk].
      change (cell_eqb (Some u) (fst k) = true) in Hk.
      apply cell_eqb_eq in Hk. symmetry. now apply count_within_user. }
  apply sum_counts; [apply pair_eqb_eq| |].
  - apply NoDup_filter, groups_NoDup.
  - intros k Hk. apply filter_In in Hk. apply filter_In.
    split; [apply groups_in|]; tauto.
Qed.

Lemma final_output_rows (df : list Row) (row : UserPct) :
  In row (final_output_df df) ->
  exists u a, up_user row = Some u /\ up_answer row = Some a /\
    up_percentage row =
    percent
      (List.length
         (filter (fun r => eq_str (hashed_user_id r) u && eq_str (answer r) a) df))
      (List.length
         (filter (fun r => eq_str (hashed_user_id r) u && notna (answer r)) df)).
Proof.
  intro H. apply final_output_in in H. destruct H as (c & Hc & ->). simpl.
  destruct (answer_counts_in _ _ Hc) as [Hk Hn].
  destruct (group_keys_in _ _ Hk) as [Hu Ha]. simpl in Hu, Ha.
  destruct (ac_user c) as [u|]; [|contradiction].
  destruct (ac_answer c) as [a|]; [|contradiction].
  exists u, a. repeat split.
  now rewrite Hn, count_group, user_total_length.
Qed.

End PerUserBreakdown.

(** * The properties of the specification *)

(** The scenarios of the specification, run on the model. *)

Example scenario_merged_output :
  FirstWorking.process_data 0 (inr Samples.spelled_pet_owner) false =
  inr ([], Some [Evacuate.mkMerged (Some "u1") (Some "Pet Owner")
                   (Some "Yep, evacuate!")]).
Proof. reflexivity. Qed.

Example scenario_two_answers :
  GeneteDateFilter.calculate_aggregated_answer_percentages Samples.two_answers "Now," =
  [GeneteDateFilter.mkPct (Some "A") (100 # 2);
   GeneteDateFilter.mkPct (Some "B") (100 # 2)].
Proof. reflexivity. Qed.

Example scenario_start_date :
  ProcessEvacuate.time_window Samples.to_datetime (Some "2026-01-02") None
    Samples.around_midnight =
  inr [Samples.response "u2" "player_select" "Farmer"
         (Timestamp Samples.t_2026_01_02_09h)].
Proof. reflexivity. Qed.

Section LatestResponse.
Import Evacuate.

(** When every row of the group carries an instant, the extraction keeps
    one row per user that answered within the group: the user's row with
    the greatest [created_at], the last one in input order among rows
    with that instant. *)
Lemma latest_rows_with_timestamps (mask : Row -> bool) (df : list Row) :
  (forall r, In r df -> mask r = true -> exists t, created_at r = Timestamp t) ->
  NoDup (map user_id (latest_rows mask df)) /\
  (forall u, In u (map user_id (latest_rows mask df)) <->
             exists r, In r df /\ mask r = true /\ user_id r = u) /\
  (forall r, In r (latest_rows mask df) ->
     exists d1 d2 t, df = d1 ++ r :: d2 /\ mask r = true /\
       created_at r = Timestamp t /\
       (forall r', In r' d1 -> mask r' = true -> user_id r' = user_id r ->
          exists t', created_at r' = Timestamp t' /\ (t' <= t)%Z) /\
       (forall r', In r' d2 -> mask r' = true -> user_id r' = user_id r ->
          exists t', created_at r' = Timestamp t' /\ (t' < t)%Z)).
Proof.
  intro Hts. split; [apply latest_rows_NoDup|].
  split; [apply latest_rows_users|].
  intros r Hr. destruct (latest_rows_position mask df r Hr)
    as (d1 & d2 & E & Hm & H1 & H2).
  assert (Hin : forall r', In r' d1 \/ In r' d2 -> In r' df).
  { intros r' H. rewrite E. apply in_or_app. simpl. tauto. }
  destruct (Hts r) as [t Ht]; [rewrite E; apply in_or_app; simpl; auto|exact Hm|].
  exists d1, d2, t. repeat split; auto.
  - intros r' Hr' Hm' Hu. destruct (Hts r') as [t' Ht']; auto.
    exists t'. split; [exact Ht'|].
    specialize (H1 r' Hr' Hm' Hu). rewrite Ht, Ht' in H1. simpl in H1.
    now apply Z.leb_le.
  - intros r' Hr' Hm' Hu. destruct (Hts r') as [t' Ht']; auto.
    exists t'. split; [exact Ht'|].
    specialize (H2 r' Hr' Hm' Hu). rewrite Ht, Ht' in H2. simpl in H2.
    apply Z.leb_gt in H2. exact H2.
Qed.

(** C2.  Latest-response extraction at work on a user with two
    player-type rows, one from 2026-01-01 10:00 and one whose
    [created_at] is missing.  The missing value sorts last, so the row
    without a timestamp is the one that is kept: the merged frame reports
    "Pet Owner", not the answer with the greatest [created_at]
    ("Farmer"). *)
Theorem latest_row_without_timestamp_wins :
  latest_rows is_player_select (rows Samples.missing_timestamp) =
    [Samples.response "u1" "player_select" "Pet Owner" NaT] /\
  FirstWorking.process_data 0 (inr Samples.missing_timestamp) false =
    inr ([], Some [mkMerged (Some "u1") (Some "Pet Owner") (Some "Yep, evacuate!")]) /\
  ProcessEvacuate.process_data 0 Samples.to_datetime
    (inr Samples.missing_timestamp) false None None =
    inr ([], Some [mkMerged (Some "u1") (Some "Pet Owner") (Some "Yep, evacuate!")]).
Proof. repeat split; reflexivity. Qed.

(** C9.  Latest-response extraction is idempotent: sorting the extracted
    rows by [created_at] and keeping the last row per [user_id] again
    gives the same frame, one row per user.  With any other sort, stable
    or not, the second extraction still gives the same rows, possibly in
    another order. *)
Theorem latest_response_idempotent (mask : Row -> bool) (df : list Row) :
  latest_rows mask (latest_rows mask df) = latest_rows mask df /\
  NoDup (map user_id (latest_rows mask df)) /\
  latest_rows mask df = latest_rows_with sort_values_created_at mask df /\
  (forall sort : list Row -> list Row,
     (forall l, Permutation (sort l) l) ->
     Permutation (latest_rows_with sort mask (latest_rows_with sort mask df))
                 (latest_rows_with sort mask df)).
Proof.
  split; [apply latest_rows_idempotent|].
  split; [apply latest_rows_NoDup|].
  split; [reflexivity|].
  intros sort Hsort. now apply latest_rows_with_idempotent.
Qed.

(** C8.  The answers are normalised before anything is grouped: two
    inputs that differ only in the spelling "Petowner" / "Pet Owner"
    give the same result in both scripts, and no row of a result carries
    the spelling "Petowner". *)
Theorem answers_normalized_before_grouping
  (today : Z) (to_datetime : string -> option Z)
  (only_today : bool) (start_time end_time : option string)
  (frame1 frame2 : DataFrame) :
  columns frame1 = columns frame2 ->
  standardize (rows frame1) = standardize (rows frame2) ->
  FirstWorking.process_data today (inr frame1) only_today =
  FirstWorking.process_data today (inr frame2) only_today /\
  ProcessEvacuate.process_data today to_datetime (inr frame1)
    only_today start_time end_time =
  ProcessEvacuate.process_data today to_datetime (inr frame2)
    only_today start_time end_time /\
  (forall out merged m,
     (FirstWorking.process_data today (inr frame1) only_today
        = inr (out, Some merged) \/
      ProcessEvacuate.process_data today to_datetime (inr frame1)
        only_today start_time end_time = inr (out, Some merged)) ->
     In m merged ->
     player_type m <> Some "Petowner" /\ evacuate_choice m <> Some "Petowner").
Proof.
  intros Hc Hr.
  assert (E : standardize_frame frame1 = standardize_frame frame2).
  { unfold standardize_frame. now rewrite Hc, Hr. }
  split; [|split].
  - rewrite <- (first_working_standardize today frame1),
            <- (first_working_standardize today frame2). now rewrite E.
  - rewrite <- (process_evacuate_standardize today to_datetime frame1),
            <- (process_evacuate_standardize today to_datetime frame2).
    now rewrite E.
  - intros out merged m [H|H] Hm.
    + unfold FirstWorking.process_data in H. simpl in H.
      destruct (getitem frame1 "created_at") as [e|[]]; [discriminate|].
      simpl in H.
      destruct (to_datetime_strict (rows frame1)) as [e|df]; [discriminate|].
      simpl in H. destruct (only_today && empty _); [discriminate|].
      destruct (extract_and_merge frame1 _) as [e|mg] eqn:Em; [discriminate|].
      injection H as _ <-. eapply extract_and_merge_no_petowner; eassumption.
    + unfold ProcessEvacuate.process_data in H. simpl in H.
      destruct (getitem frame1 "created_at") as [e|[]]; [discriminate|].
      simpl in H.
      destruct (to_datetime_strict (rows frame1)) as [e|df]; [discriminate|].
      simpl in H.
      destruct (ProcessEvacuate.time_window _ _ _ _) as [e|df']; [discriminate|].
      simpl in H. destruct (empty df'); [discriminate|].
      destruct (extract_and_merge frame1 df') as [e|mg] eqn:Em; [discriminate|].
      injection H as _ <-. eapply extract_and_merge_no_petowner; eassumption.
Qed.

Lemma answers_normalized_before_grouping_witness :
  FirstWorking.process_data 0 (inr Samples.spelled_petowner) false =
  FirstWorking.process_data 0 (inr Samples.spelled_pet_owner) false /\
  FirstWorking.process_data 0 (inr Samples.spelled_petowner) false =
  inr ([], Some [mkMerged (Some "u1") (Some "Pet Owner") (Some "Yep, evacuate!")]).
Proof.
  split; [|reflexivity].
  apply (answers_normalized_before_grouping 0 Samples.to_datetime false None None
           Samples.spelled_petowner Samples.spelled_pet_owner);
    reflexivity.
Defined.

End LatestResponse.

Section Breakdowns.
Import GeneteDateFilter.

Lemma filter_comm {A : Type} (p q : A -> bool) (l : list A) :
  filter p (filter q l) = filter q (filter p l).
Proof.
  induction l as [|x t IH]; simpl; [reflexivity|].
  destruct (p x) eqn:Ep, (q x) eqn:Eq; simpl; rewrite ?Ep, ?Eq, IH; reflexivity.
Qed.

(** C1, as the specification states it, fails: a row matches the prefix,
    it has no answer, and the breakdown is empty, so its percentages sum
    to 0. *)
Lemma percentages_of_unanswered_question :
  (exists r, In r Samples.unanswered /\ question_startswith "Now," r = true) /\
  calculate_aggregated_answer_percentages Samples.unanswered "Now," = [] /\
  ~ sum_percentages
      (calculate_aggregated_answer_percentages Samples.unanswered "Now,") == 100.
Proof.
  split; [|split].
  - eexists. split; [left; reflexivity|reflexivity].
  - reflexivity.
  - intro H. vm_compute in H. discriminate.
Qed.

(** C10.  A row that matches the prefix and has no answer adds nothing
    to the counts nor to the total: both breakdowns are those of the
    input without such rows, every row of a breakdown carries an answer,
    and its percentage is the number of matching rows with that answer
    (of that user, per user) over the number of matching rows with any
    answer (of that user). *)
Theorem missing_answers_not_counted (df : list Row) (question_prefix : string) :
  calculate_aggregated_answer_percentages
    (filter (fun r => notna (answer r)) df) question_prefix =
  calculate_aggregated_answer_percentages df question_prefix /\
  (forall row,
     In row (calculate_aggregated_answer_percentages df question_prefix) ->
     exists a, pct_answer row = Some a /\
       percentage row =
       percent
         (List.length
            (filter (fun r => question_startswith question_prefix r &&
                              eq_str (answer r) a) df))
         (List.length
            (filter (fun r => question_startswith question_prefix r &&
                              notna (answer r)) df))) /\
  Genete.final_output_df
    (filter (Genete.question_startswith question_prefix)
       (filter (fun r => notna (answer r)) df)) =
  Genete.final_output_df
    (filter (Genete.question_startswith question_prefix) df) /\
  (forall row,
     In row (Genete.final_output_df
               (filter (Genete.question_startswith question_prefix) df)) ->
     exists u a, Genete.up_user row = Some u /\ Genete.up_answer row = Some a /\
       Genete.up_percentage row =
       percent
         (List.length
            (filter (fun r => eq_str (hashed_user_id r) u && eq_str (answer r) a)
               (filter (Genete.question_startswith question_prefix) df)))
         (List.length
            (filter (fun r => eq_str (hashed_user_id r) u && notna (answer r))
               (filter (Genete.question_startswith question_prefix) df)))).
Proof.
  split; [apply calculate_drop_missing|].
  split; [apply calculate_rows|].
  split; [|apply final_output_rows].
  rewrite filter_comm. apply final_output_drop_missing.
Qed.

End Breakdowns.

Section ConditionalBreakdown.
Import GeneteDateFilter.

Lemma sessions_in (df : list Row) (s : option string) :
  In s (sessions_with_2009_answer df) <->
  exists r, In r df /\ question_startswith "First" r = true /\
            answer r = Some "2009" /\ session_id r = s.
Proof.
  unfold sessions_with_2009_answer.
  rewrite (unique_in cell_eqb cell_eqb_eq), in_map_iff. split.
  - intros (r & <- & Hr). apply filter_In in Hr. destruct Hr as [Hr Ha].
    apply filter_In in Hr. exists r. repeat split; try tauto.
    unfold eq_str in Ha. destruct (answer r) as [x|]; [|discriminate].
    apply String.eqb_eq in Ha. now subst.
  - intros (r & Hr & Hq & Ha & <-). exists r. split; [reflexivity|].
    rewrite !filter_In. repeat split; auto. now rewrite Ha.
Qed.

Lemma filtered_df_in (df : list Row) (r : Row) :
  In r (filtered_df df) <->
  In r df /\ In (session_id r) (sessions_with_2009_answer df).
Proof.
  unfold filtered_df, isin_cells. rewrite filter_In, existsb_exists. split.
  - intros [Hr (s & Hs & E)]. apply cell_eqb_eq in E. now subst.
  - intros [Hr Hs]. split; [exact Hr|].
    exists (session_id r). split; [exact Hs|apply cell_eqb_refl].
Qed.

Lemma first_output_tables (df : list Row) : ~ In (ToCsv []) (first_output df).
Proof.
  unfold first_output.
  destruct (calculate_aggregated_answer_percentages df "Now,"); simpl;
    intros [H|[H|[H|[]]]]; discriminate.
Qed.

Lemma second_output_tables (df : list Row) : ~ In (ToCsv []) (second_output df).
Proof.
  unfold second_output.
  destruct (empty _); [|destruct (Nat.ltb _ _)]; simpl;
    intros [H|[H|[H|[]]]]; discriminate.
Qed.

Lemma third_output_tables (df : list Row) : ~ In (ToCsv []) (third_output df).
Proof.
  unfold third_output.
  destruct (Nat.eqb _ 0); simpl.
  - intros [H|[H|[H|[H|[]]]]]; discriminate.
  - destruct (calculate_aggregated_answer_percentages (filtered_df df) "Now,");
      simpl; intros [H|[H|[H|[]]]]; discriminate.
Qed.

Lemma report_tables (df : list Row) : ~ In (ToCsv []) (stdout (report df)).
Proof.
  unfold report. cbn [stdout]. rewrite !in_app_iff.
  intros [H|[H|H]];
    [apply (first_output_tables df) | apply (second_output_tables df)
     | apply (third_output_tables df)]; exact H.
Qed.

Lemma process_tables (to_datetime : string -> option Z) (stdin : M DataFrame)
  (start_date : option string) :
  ~ In (ToCsv [])
      (stdout (process_and_output_percentages to_datetime stdin start_date)).
Proof.
  unfold process_and_output_percentages.
  destruct stdin as [[]|frame]; try (simpl; tauto).
  destruct (forallb (has_column frame) required_cols); cbn [negb];
    [|simpl; tauto].
  destruct start_date as [text|]; [|apply report_tables].
  destruct (truthy (Some text)); [|apply report_tables].
  destruct (to_datetime text); [|simpl; tauto].
  destruct (filter _ _) eqn:E; cbn [empty].
  - intros [H|[]]. discriminate.
  - apply report_tables.
Qed.

End ConditionalBreakdown.

Section TimeWindow.
Import Evacuate.

Lemma within_spec (lo hi : option Z) (c : timestamp_cell) :
  within lo hi c = true <->
  exists t, c = Timestamp t /\
    (forall a, lo = Some a -> (a <= t)%Z) /\
    (forall b, hi = Some b -> (t <= b)%Z).
Proof.
  split.
  - destruct c as [|raw|t]; simpl; try discriminate.
    rewrite andb_true_iff. intros [H1 H2]. exists t.
    split; [reflexivity|]. split.
    + intros a ->. now apply Z.leb_le.
    + intros b ->. now apply Z.leb_le.
  - intros (t & -> & H1 & H2). simpl. apply andb_true_iff. split.
    + destruct lo as [a|]; [|reflexivity]. apply Z.leb_le. auto.
    + destruct hi as [b|]; [|reflexivity]. apply Z.leb_le. auto.
Qed.

Lemma filter_filter_and {A : Type} (p q : A -> bool) (l : list A) :
  filter q (filter p l) = filter (fun x => p x && q x) l.
Proof.
  induction l as [|x t IH]; simpl; [reflexivity|].
  destruct (p x); simpl; [destruct (q x)|]; now rewrite IH.
Qed.

Lemma truthy_nonempty (s : string) : s <> "" -> truthy (Some s) = true.
Proof.
  intro H. simpl. apply negb_true_iff. now apply String.eqb_neq.
Qed.

Section Bounds.
Variable to_datetime : string -> option Z.
Variables (s e : string) (a b : Z).
Hypothesis s_given : s <> "".
Hypothesis e_given : e <> "".
Hypothesis s_parses : to_datetime s = Some a.
Hypothesis e_parses : to_datetime e = Some b.

Lemma ts_ge_within (l : list Row) :
  filter (fun r => ts_ge (created_at r) a) l =
  filter (fun r => within (Some a) None (created_at r)) l.
Proof.
  apply filter_ext. intro r. unfold within, ts_ge.
  destruct (created_at r); try reflexivity. now rewrite andb_true_r.
Qed.

Lemma time_window_both (df : list Row) :
  ProcessEvacuate.time_window to_datetime (Some s) (Some e) df =
  inr (filter (fun r => within (Some a) (Some b) (created_at r)) df).
Proof.
  unfold ProcessEvacuate.time_window, ProcessEvacuate.parse_bound.
  rewrite (truthy_nonempty s s_given), (truthy_nonempty e e_given),
    s_parses, e_parses. simpl.
  rewrite filter_filter_and. unfold ret. f_equal. apply filter_ext. intro r.
  unfold within, ts_ge, ts_le. destruct (created_at r); reflexivity.
Qed.

Lemma time_window_start (df : list Row) :
  ProcessEvacuate.time_window to_datetime (Some s) None df =
  inr (filter (fun r => within (Some a) None (created_at r)) df).
Proof.
  unfold ProcessEvacuate.time_window, ProcessEvacuate.parse_bound.
  rewrite (truthy_nonempty s s_given), s_parses. simpl.
  now rewrite ts_ge_within.
Qed.

Lemma time_window_end (df : list Row) :
  ProcessEvacuate.time_window to_datetime None (Some e) df =
  inr (filter (fun r => within None (Some b) (created_at r)) df).
Proof.
  unfold ProcessEvacuate.time_window, ProcessEvacuate.parse_bound.
  rewrite (truthy_nonempty e e_given), e_parses. reflexivity.
Qed.

Lemma start_date_filter (frame : DataFrame) :
  forallb (has_column frame) GeneteDateFilter.required_cols = true ->
  GeneteDateFilter.process_and_output_percentages to_datetime (inr frame) (Some s) =
    match filter (fun r => within (Some a) None (created_at r))
            (dropna_created_at (to_datetime_coerce (rows frame))) with
    | [] => GeneteDateFilter.mkProcess
              [GeneteDateFilter.Write
                 ("No data found on or after " ++ s ++ " after filtering." ++ nl)]
              [] 0
    | kept => GeneteDateFilter.report kept
    end.
Proof.
  intro Hcols. unfold GeneteDateFilter.process_and_output_percentages.
  rewrite Hcols, (truthy_nonempty s s_given), s_parses. cbn [negb].
  rewrite ts_ge_within. destruct (filter _ _); reflexivity.
Qed.

End Bounds.

End TimeWindow.

Section Failures.

Lemma has_column_in (df : DataFrame) (col : string) :
  has_column df col = true <-> In col (columns df).
Proof.
  unfold has_column. rewrite existsb_exists. split.
  - intros (c & Hc & E). apply String.eqb_eq in E. now subst.
  - intro H. exists col. split; [exact H|apply String.eqb_refl].
Qed.

Lemma missing_in (required : list string) (df : DataFrame) (col : string) :
  In col (filter (fun c => negb (has_column df c)) required) <->
  In col required /\ ~ In col (columns df).
Proof.
  rewrite filter_In, negb_true_iff, <- has_column_in.
  destruct (has_column df col); intuition congruence.
Qed.

Lemma some_column_absent (required : list string) (df : DataFrame) :
  (exists col, In col required /\ ~ In col (columns df)) ->
  forallb (has_column df) required = false.
Proof.
  intros (col & Hr & Hc).
  destruct (forallb (has_column df) required) eqn:E; [|reflexivity].
  rewrite forallb_forall in E. apply E, has_column_in in Hr. contradiction.
Qed.

(** C6.  When a required column is absent from the input table, the
    script writes nothing to standard output, writes one error message
    that lists the absent columns (the required columns that the table
    lacks, and no other) and exits with status 1. *)
Theorem missing_columns_abort (to_datetime : string -> option Z)
  (frame : DataFrame) (start_date : option string) :
  ((exists col, In col GeneteDateFilter.required_cols /\ ~ In col (columns frame)) ->
   let missing := GeneteDateFilter.missing_columns GeneteDateFilter.required_cols frame in
   GeneteDateFilter.process_and_output_percentages to_datetime (inr frame) start_date =
     GeneteDateFilter.mkProcess []
       [("Error: Missing expected columns: " ++ String.concat ", " missing ++
         ". Please ensure 'hashed_user_id', 'question', 'answer', 'session_id', and 'created_at' columns exist."
         ++ nl)%string] 1 /\
   forall col, In col missing <->
     In col GeneteDateFilter.required_cols /\ ~ In col (columns frame)) /\
  ((exists col, In col Genete.required_cols /\ ~ In col (columns frame)) ->
   let missing := Genete.missing_columns Genete.required_cols frame in
   Genete.calculate_drought_answer_percentages (inr frame) =
     Genete.mkProcess []
       [("Error: Missing expected columns: " ++ String.concat ", " missing ++
         ". Please ensure 'hashed_user_id', 'question', and 'answer' columns exist."
         ++ nl)%string] 1 /\
   forall col, In col missing <->
     In col Genete.required_cols /\ ~ In col (columns frame)).
Proof.
  split; intros H missing; (split; [|intro col; apply missing_in]).
  - unfold GeneteDateFilter.process_and_output_percentages.
    now rewrite (some_column_absent _ _ H).
  - unfold Genete.calculate_drought_answer_percentages.
    now rewrite (some_column_absent _ _ H).
Qed.

Lemma missing_columns_abort_witness :
  GeneteDateFilter.process_and_output_percentages Samples.to_datetime
    (inr Samples.two_columns_short) None =
  GeneteDateFilter.mkProcess []
    [("Error: Missing expected columns: session_id, created_at. Please ensure 'hashed_user_id', 'question', 'answer', 'session_id', and 'created_at' columns exist."
      ++ nl)%string] 1 /\
  Genete.calculate_drought_answer_percentages (inr (mkFrame ["answer"] [])) =
  Genete.mkProcess []
    [("Error: Missing expected columns: hashed_user_id, question. Please ensure 'hashed_user_id', 'question', and 'answer' columns exist."
      ++ nl)%string] 1.
Proof.
  split.
  - destruct (missing_columns_abort Samples.to_datetime Samples.two_columns_short None)
      as [H _].
    destruct H as [H _]; [|exact H].
    exists "session_id". split; [simpl; tauto|].
    simpl. intros [E|[E|[E|[]]]]; discriminate.
  - destruct (missing_columns_abort Samples.to_datetime (mkFrame ["answer"] []) None)
      as [_ H].
    destruct H as [H _]; [|exact H].
    exists "question". split; [simpl; tauto|].
    simpl. intros [E|[]]; discriminate.
Defined.

Import Evacuate.

Lemma process_data_no_rows (today : Z) (to_datetime : string -> option Z)
  (frame : DataFrame) (only_today : bool) (start_time end_time : option string)
  (df : list Row) :
  has_column frame "created_at" = true ->
  to_datetime_strict (rows frame) = inr df ->
  ProcessEvacuate.time_window to_datetime start_time end_time
    (if only_today then filter (fun r => date_eq (created_at r) today) df else df)
    = inr [] ->
  ProcessEvacuate.process_data today to_datetime (inr frame) only_today
    start_time end_time =
  inr ([Print "Warning: No data found for the specified timeframe."], None).
Proof.
  intros Hcol Hstrict Hwindow. unfold ProcessEvacuate.process_data.
  cbn [bind]. unfold getitem. rewrite Hcol. cbn [bind ret].
  rewrite Hstrict. cbn [bind]. rewrite Hwindow. reflexivity.
Qed.


End Failures.

(** * Further properties of the scripts *)

(** ** More about sorting *)

Section SortedOutput.
Context {A : Type} (leb : A -> A -> bool).
Hypothesis leb_total : forall a b, leb a b = true \/ leb b a = true.

Lemma insert_sorted_locally (x : A) (l : list A) :
  Sorted (fun a b => leb a b = true) l ->
  Sorted (fun a b => leb a b = true) (insert_sorted leb x l).
Proof.
  induction 1 as [|y t Ht IH Hy]; simpl.
  - repeat constructor.
  - destruct (leb x y) eqn:E.
    + constructor; [now constructor|]. now constructor.
    + constructor; [exact IH|].
      assert (Hyx : leb y x = true) by (destruct (leb_total x y); congruence).
      destruct t as [|z t']; simpl.
      * now constructor.
      * destruct (leb x z); constructor; [exact Hyx|].
        now inversion Hy.
Qed.

Lemma stable_sort_locally (l : list A) :
  Sorted (fun a b => leb a b = true) (stable_sort leb l).
Proof.
  induction l as [|x t IH]; simpl; [constructor|].
  now apply insert_sorted_locally.
Qed.

End SortedOutput.

Lemma Sorted_impl {A : Type} (R S : A -> A -> Prop) (l : list A) :
  (forall a b, R a b -> S a b) -> Sorted R l -> Sorted S l.
Proof.
  intros H. induction 1 as [|x t Ht IH Hx]; constructor; [exact IH|].
  destruct Hx; constructor; auto.
Qed.

Lemma percent_bounds (c total : nat) :
  (0 < c)%nat -> (c <= total)%nat ->
  0 < percent c total /\ percent c total <= 100.
Proof.
  intros Hc Ht. unfold percent.
  assert (Hqc : 0 < inject_Z (Z.of_nat c)).
  { change 0 with (inject_Z 0). rewrite <- Zlt_Qlt. lia. }
  assert (Hqt : 0 < inject_Z (Z.of_nat total)).
  { change 0 with (inject_Z 0). rewrite <- Zlt_Qlt. lia. }
  assert (Hle : inject_Z (Z.of_nat c) <= inject_Z (Z.of_nat total)).
  { rewrite <- Zle_Qle. lia. }
  split.
  - apply Qmult_lt_0_compat; [|reflexivity].
    apply Qlt_shift_div_l; [exact Hqt|]. now rewrite Qmult_0_l.
  - setoid_replace 100 with (1 * 100) at 2 by ring.
    apply Qmult_le_compat_r; [|discriminate].
    apply Qle_shift_div_r; [exact Hqt|]. now rewrite Qmult_1_l.
Qed.

(** ** [genetedatefilterprocess.py]: the breakdown and the report *)

Section BreakdownShape.
Import GeneteDateFilter.

Lemma breakdown_answers_perm (df : list Row) (question_prefix : string) :
  Permutation
    (map pct_answer (calculate_aggregated_answer_percentages df question_prefix))
    (unique cell_eqb (matching_answers df question_prefix)).
Proof.
  rewrite calculate_unfold. cbv zeta.
  destruct (Nat.eqb_spec (List.length (matching_answers df question_prefix)) 0)
    as [E|_].
  - destruct (matching_answers df question_prefix); [reflexivity|discriminate].
  - rewrite stable_sort_perm, map_map. simpl.
    unfold value_counts. rewrite stable_sort_perm, map_map. simpl.
    rewrite map_id. reflexivity.
Qed.

Lemma breakdown_answers_in (df : list Row) (question_prefix : string)
  (a : option string) :
  In a (map pct_answer
          (calculate_aggregated_answer_percentages df question_prefix)) <->
  exists r, In r df /\ question_startswith question_prefix r = true /\
            answer r = a /\ a <> None.
Proof.
  rewrite <- matching_answers_in. split; intro H.
  - apply (Permutation_in _ (breakdown_answers_perm df question_prefix)) in H.
    exact (proj1 (unique_in cell_eqb cell_eqb_eq _ _) H).
  - apply (Permutation_in _
             (Permutation_sym (breakdown_answers_perm df question_prefix))).
    exact (proj2 (unique_in cell_eqb cell_eqb_eq _ _) H).
Qed.

(** X1.  The rows of a breakdown come with the greatest percentage first, no
    answer comes twice, and the answers are those of the rows that match
    the prefix and have an answer. *)
Theorem breakdown_sorted_and_distinct (df : list Row) (question_prefix : string) :
  Sorted (fun a b => percentage b <= percentage a)
    (calculate_aggregated_answer_percentages df question_prefix) /\
  NoDup (map pct_answer
           (calculate_aggregated_answer_percentages df question_prefix)) /\
  (forall a,
     In a (map pct_answer
             (calculate_aggregated_answer_percentages df question_prefix)) <->
     exists r, In r df /\ question_startswith question_prefix r = true /\
               answer r = a /\ a <> None).
Proof.
  split; [|split].
  - unfold calculate_aggregated_answer_percentages.
    destruct (empty _); [constructor|].
    destruct (Nat.eqb _ 0); [constructor|].
    eapply Sorted_impl; [|apply stable_sort_locally].
    + intros a b H. now apply Qle_bool_iff.
    + intros a b. rewrite !Qle_bool_iff.
      destruct (Qlt_le_dec (percentage a) (percentage b)) as [H|H].
      * right. now apply Qlt_le_weak.
      * now left.
  - eapply Permutation_NoDup.
    + symmetry. apply breakdown_answers_perm.
    + apply unique_NoDup, cell_eqb_eq.
  - apply breakdown_answers_in.
Qed.

(** X2.  Every percentage of a breakdown is greater than 0 and at most 100. *)
Theorem breakdown_percentages_bounded (df : list Row) (question_prefix : string)
  (row : PctRow) :
  In row (calculate_aggregated_answer_percentages df question_prefix) ->
  0 < percentage row /\ percentage row <= 100.
Proof.
  intro H.
  assert (Ha : In (pct_answer row)
                 (map pct_answer
                    (calculate_aggregated_answer_percentages df question_prefix)))
    by now apply in_map.
  apply (Permutation_in _ (breakdown_answers_perm df question_prefix)) in Ha.
  apply (proj1 (unique_in cell_eqb cell_eqb_eq _ _)) in Ha.
  destruct (calculate_rows df question_prefix row H) as (a & Ea & ->).
  rewrite Ea in Ha. apply percent_bounds.
  - rewrite <- count_matching.
    now apply count_positive; [apply cell_eqb_eq|].
  - rewrite <- count_matching, <- length_matching. unfold count.
    apply filter_length_le.
Qed.

Lemma breakdown_percentages_bounded_witness :
  0 < 100 # 2 /\ 100 # 2 <= 100.
Proof.
  apply (breakdown_percentages_bounded Samples.two_answers "Now,"
           (mkPct (Some "A") (100 # 2))).
  simpl. auto.
Defined.

End BreakdownShape.

Section ReportSections.
Import GeneteDateFilter.

Lemma percent_range (c total : nat) :
  (c <= total)%nat -> (0 < total)%nat ->
  0 <= percent c total /\ percent c total <= 100.
Proof.
  intros Hc Ht. destruct c as [|c].
  - unfold percent. simpl. split.
    + unfold Qdiv. rewrite Qmult_0_l, Qmult_0_l. apply Qle_refl.
    + unfold Qdiv. rewrite Qmult_0_l, Qmult_0_l. discriminate.
  - destruct (percent_bounds (S c) total) as [H1 H2]; [lia|exact Hc|].
    split; [now apply Qlt_le_weak|exact H2].
Qed.

(** X4.  The conditional breakdown looks at rows of the input only: an answer
    of the table of the third section is an answer of the table of the
    first section, and when the first table is empty so is the third. *)
Theorem conditional_answers_among_overall (df : list Row) :
  (forall r, In r (filtered_df df) -> In r df) /\
  (forall a,
     In a (map pct_answer
             (calculate_aggregated_answer_percentages (filtered_df df) "Now,")) ->
     In a (map pct_answer (calculate_aggregated_answer_percentages df "Now,"))) /\
  (calculate_aggregated_answer_percentages df "Now," = [] ->
   calculate_aggregated_answer_percentages (filtered_df df) "Now," = []).
Proof.
  assert (Hincl : forall r, In r (filtered_df df) -> In r df).
  { intros r Hr. apply filtered_df_in in Hr. tauto. }
  assert (Hans : forall a,
    In a (map pct_answer
            (calculate_aggregated_answer_percentages (filtered_df df) "Now,")) ->
    In a (map pct_answer (calculate_aggregated_answer_percentages df "Now,"))).
  { intros a Ha. apply breakdown_answers_in in Ha.
    destruct Ha as (r & Hr & Hq & Ea & Hn).
    apply breakdown_answers_in. exists r. auto. }
  split; [exact Hincl|]. split; [exact Hans|].
  intro E.
  destruct (calculate_aggregated_answer_percentages (filtered_df df) "Now,")
    as [|row t] eqn:Et; [reflexivity|].
  specialize (Hans (pct_answer row)). rewrite E in Hans.
  exfalso. apply Hans. now left.
Qed.

Import Selection.

Lemma set_created_at_same (r : Row) : set_created_at r (created_at r) = r.
Proof. now destruct r. Qed.

Lemma parsed_rows_has_instant (df : list Row) :
  parsed_rows (filter has_instant df) = parsed_rows df.
Proof.
  unfold parsed_rows, dropna_created_at, to_datetime_coerce, has_instant.
  induction df as [|r t IH]; simpl; [reflexivity|].
  destruct (created_at r) eqn:E; simpl; rewrite ?E; simpl; now rewrite IH.
Qed.

Lemma parsed_rows_within (lo hi : option Z) (df : list Row) :
  filter (fun r => within lo hi (created_at r)) (parsed_rows df) =
  parsed_rows (filter (fun r => within lo hi (created_at r)) df).
Proof.
  unfold parsed_rows, dropna_created_at, to_datetime_coerce.
  induction df as [|r t IH]; simpl; [reflexivity|].
  destruct (created_at r) eqn:E; simpl; try exact IH.
  destruct (within lo hi (Timestamp t0)) eqn:Ew; simpl in *; rewrite ?Ew.
  - simpl. rewrite E. simpl. now rewrite IH.
  - exact IH.
Qed.

Lemma process_depends_on_parsed_rows (to_datetime : string -> option Z)
  (frame1 frame2 : DataFrame) (start_date : option string) :
  columns frame1 = columns frame2 ->
  parsed_rows (rows frame1) = parsed_rows (rows frame2) ->
  process_and_output_percentages to_datetime (inr frame1) start_date =
  process_and_output_percentages to_datetime (inr frame2) start_date.
Proof.
  intros Hc Hr.
  unfold process_and_output_percentages, missing_columns, has_column.
  fold (parsed_rows (rows frame1)). fold (parsed_rows (rows frame2)).
  now rewrite Hc, Hr.
Qed.

End ReportSections.

(** ** [geneteprocess.py]: the table per user *)

Section PerUserTable.
Import Genete.


Lemma final_output_pairs_perm (df : list Row) :
  Permutation (map (fun r => (up_user r, up_answer r)) (final_output_df df))
              (groups df).
Proof.
  rewrite (Permutation_map _ (final_output_perm df)).
  unfold answer_counts. rewrite !map_map. simpl.
  rewrite (map_ext _ (fun k => k)) by (now intros [u a]).
  now rewrite map_id.
Qed.


Lemma group_keys_in_iff (df : list Row) (u a : option string) :
  In (u, a) (group_keys df) <->
  exists r, In r df /\ hashed_user_id r = u /\ answer r = a /\
            u <> None /\ a <> None.
Proof.
  unfold group_keys. rewrite filter_In, in_map_iff. simpl. split.
  - intros [(r & [= <- <-] & Hr) Hn]. apply andb_true_iff in Hn.
    exists r. repeat split; auto.
    + destruct (hashed_user_id r); [discriminate|]. simpl in Hn. destruct Hn. discriminate.
    + destruct (answer r); [discriminate|]. simpl in Hn. destruct Hn. discriminate.
  - intros (r & Hr & <- & <- & Hu & Ha). split.
    + exists r. auto.
    + destruct (hashed_user_id r), (answer r); simpl; congruence.
Qed.

(** X8.  The table has a row for a user and an answer exactly when some input
    row carries both, and every percentage in it is greater than 0 and at
    most 100. *)
Theorem per_user_table_rows (df : list Row) :
  (forall u a,
     In (u, a) (map (fun r => (up_user r, up_answer r)) (final_output_df df)) <->
     exists r, In r df /\ hashed_user_id r = u /\ answer r = a /\
               u <> None /\ a <> None) /\
  (forall row, In row (final_output_df df) ->
     0 < up_percentage row /\ up_percentage row <= 100).
Proof.
  split.
  - intros u a. rewrite <- group_keys_in_iff, <- groups_in. split.
    + apply Permutation_in, final_output_pairs_perm.
    + apply Permutation_in. symmetry. apply final_output_pairs_perm.
  - intros row Hrow.
    assert (Hk : In (up_user row, up_answer row) (group_keys df)).
    { apply groups_in.
      apply (Permutation_in _ (final_output_pairs_perm df)).
      apply (in_map (fun r => (up_user r, up_answer r))), Hrow. }
    destruct (final_output_rows df row Hrow) as (u & a & Eu & Ea & ->).
    rewrite Eu, Ea in Hk. apply percent_bounds.
    + rewrite <- count_group. now apply count_positive; [apply pair_eqb_eq|].
    + rewrite <- count_group, <- length_user_keys. unfold count.
      assert (Hsub : forall l : list (option string * option string),
        (List.length (filter (pair_eqb (Some u, Some a)) l) <=
         List.length (filter (fun k => cell_eqb (Some u) (fst k)) l))%nat).
      { induction l as [|k l IH]; [simpl; lia|].
        cbn [filter].
        destruct (pair_eqb (Some u, Some a) k) eqn:E;
          destruct (cell_eqb (Some u) (fst k)) eqn:E'; cbn [List.length];
          try lia.
        apply pair_eqb_eq in E. subst k. simpl in E'.
        rewrite String.eqb_refl in E'. discriminate. }
      apply Hsub.
Qed.

Lemma group_keys_drop_missing_user (df : list Row) :
  group_keys (filter (fun r => notna (hashed_user_id r)) df) = group_keys df.
Proof.
  unfold group_keys. induction df as [|r t IH]; simpl; [reflexivity|].
  destruct (hashed_user_id r) as [u|] eqn:Eu; simpl.
  - rewrite Eu. simpl. now rewrite IH.
  - exact IH.
Qed.

(** X9.  Rows without [hashed_user_id] are left out of the table: it is the
    table of the input without them. *)
Theorem rows_without_user_ignored (df : list Row) :
  final_output_df (filter (fun r => notna (hashed_user_id r)) df) =
  final_output_df df.
Proof.
  unfold final_output_df, answer_counts, groups.
  now rewrite group_keys_drop_missing_user.
Qed.

(** X10.  When rows match "Now," and none of them carries both a user and an
    answer, the script ends with status 0 and writes a table without
    rows, not a message. *)
Theorem per_user_table_can_be_empty (frame : DataFrame) :
  forallb (has_column frame) required_cols = true ->
  (exists r, In r (rows frame) /\ question_startswith "Now," r = true) ->
  (forall r, In r (rows frame) -> question_startswith "Now," r = true ->
             hashed_user_id r = None \/ answer r = None) ->
  calculate_drought_answer_percentages (inr frame) = mkProcess [ToCsv []] [] 0.
Proof.
  intros Hcols (r & Hr & Hq) Hnone.
  unfold calculate_drought_answer_percentages. rewrite Hcols. cbn [negb].
  assert (Hin : In r (filter (question_startswith "Now,") (rows frame)))
    by (apply filter_In; auto).
  assert (Hkeys : group_keys (filter (question_startswith "Now,") (rows frame)) = []).
  { unfold group_keys. apply filter_none, Forall_forall.
    intros k Hk. apply in_map_iff in Hk. destruct Hk as (x & <- & Hx).
    apply filter_In in Hx. destruct Hx as [Hx Hqx]. simpl.
    destruct (Hnone x Hx Hqx) as [E|E]; rewrite E; [reflexivity|].
    apply andb_false_r. }
  destruct (filter (question_startswith "Now,") (rows frame)) as [|x l] eqn:E;
    [contradiction|].
  cbn [empty]. unfold final_output_df, answer_counts, groups.
  rewrite Hkeys. reflexivity.
Qed.

Lemma per_user_table_can_be_empty_witness :
  calculate_drought_answer_percentages
    (inr (mkFrame Samples.survey_columns Samples.unanswered)) =
  mkProcess [ToCsv []] [] 0.
Proof.
  apply per_user_table_can_be_empty.
  - reflexivity.
  - eexists. split; [left; reflexivity|reflexivity].
  - intros r [<-|[]] _. now right.
Defined.

End PerUserTable.

(** ** The evacuation scripts: the merged frame and the failures *)

Section MergedFrame.
Import Evacuate Selection.

Lemma select_user_answer_users (df : list Row) :
  map ex_user_id (select_user_answer df) = map user_id df.
Proof. unfold select_user_answer. rewrite map_map. reflexivity. Qed.

Lemma filter_key_NoDup (u : option string) (right : list Extract) :
  NoDup (map ex_user_id right) ->
  (List.length (filter (fun r => cell_eqb u (ex_user_id r)) right) <= 1)%nat.
Proof.
  induction right as [|x t IH]; simpl; intro H; [lia|].
  inversion H as [|? ? Hx Ht]; subst. specialize (IH Ht).
  destruct (cell_eqb u (ex_user_id x)) eqn:E; [|lia].
  apply cell_eqb_eq in E. subst u.
  rewrite filter_none; [simpl; lia|].
  apply Forall_forall. intros y Hy. apply cell_eqb_neq. intro E.
  apply Hx. rewrite E. now apply in_map.
Qed.

Lemma merge_NoDup (left right : list Extract) :
  NoDup (map ex_user_id left) -> NoDup (map ex_user_id right) ->
  NoDup (map m_user_id (merge left right)).
Proof.
  intros Hl Hr. induction left as [|l t IH]; simpl; [constructor|].
  inversion Hl as [|? ? Hx Ht]; subst. specialize (IH Ht).
  rewrite map_app, map_map. simpl.
  pose proof (filter_key_NoDup (ex_user_id l) right Hr) as Hlen.
  destruct (filter (fun r => cell_eqb (ex_user_id l) (ex_user_id r)) right)
    as [|y [|z f]]; simpl in *; [exact IH| |lia].
  constructor; [|exact IH].
  intro Hin. apply Hx.
  apply (merge_users t right (ex_user_id l)) in Hin. tauto.
Qed.



Lemma to_datetime_strict_raises (df : list Row) (r : Row) (raw : string) :
  In r df -> created_at r = Unparsed raw ->
  exists raw', to_datetime_strict df = inl (ValueError raw').
Proof.
  intros Hr E. unfold to_datetime_strict.
  destruct (find _ df) as [x|] eqn:Ef; [eauto|].
  apply (find_none _ _ Ef) in Hr. rewrite E in Hr. discriminate.
Qed.

(** X12.  A [created_at] cell that is not a date ends both evacuation scripts
    with a [ValueError] and exit status 1, whatever the flags. *)
Theorem unparsable_timestamp_aborts (today : Z) (to_datetime : string -> option Z)
  (frame : DataFrame) (only_today : bool) (start_time end_time : option string)
  (r : Row) (raw : string) :
  has_column frame "created_at" = true ->
  In r (rows frame) -> created_at r = Unparsed raw ->
  exists raw',
    FirstWorking.process_data today (inr frame) only_today =
      inl (ValueError raw') /\
    ProcessEvacuate.process_data today to_datetime (inr frame) only_today
      start_time end_time = inl (ValueError raw') /\
    exit_status (FirstWorking.main today (inr frame) only_today) = 1%Z /\
    exit_status (ProcessEvacuate.main today to_datetime (inr frame) only_today
                   start_time end_time) = 1%Z.
Proof.
  intros Hcol Hr E.
  destruct (to_datetime_strict_raises (rows frame) r raw Hr E) as [raw' Hraise].
  exists raw'.
  assert (H1 : FirstWorking.process_data today (inr frame) only_today =
               inl (ValueError raw')).
  { unfold FirstWorking.process_data. cbn [bind]. unfold getitem.
    rewrite Hcol. cbn [bind ret]. now rewrite Hraise. }
  assert (H2 : ProcessEvacuate.process_data today to_datetime (inr frame)
                 only_today start_time end_time = inl (ValueError raw')).
  { unfold ProcessEvacuate.process_data. cbn [bind]. unfold getitem.
    rewrite Hcol. cbn [bind ret]. now rewrite Hraise. }
  unfold FirstWorking.main, ProcessEvacuate.main. rewrite H1, H2. auto.
Qed.

Lemma unparsable_timestamp_aborts_witness :
  exists raw',
    FirstWorking.process_data 0
      (inr (mkFrame Samples.evacuation_columns
              [Samples.response "u1" "player_select" "Farmer" (Unparsed "soon")]))
      false = inl (ValueError raw').
Proof.
  destruct (unparsable_timestamp_aborts 0 Samples.to_datetime
              (mkFrame Samples.evacuation_columns
                 [Samples.response "u1" "player_select" "Farmer" (Unparsed "soon")])
              false None None
              (Samples.response "u1" "player_select" "Farmer" (Unparsed "soon"))
              "soon") as (raw' & H & _);
    [reflexivity | left; reflexivity | reflexivity |].
  exists raw'. exact H.
Defined.

Lemma time_window_incl (to_datetime : string -> option Z)
  (start_time end_time : option string) (df df' : list Row) :
  ProcessEvacuate.time_window to_datetime start_time end_time df = inr df' ->
  forall r, In r df' -> In r df.
Proof.
  unfold ProcessEvacuate.time_window, ProcessEvacuate.parse_bound.
  assert (Hend : forall l l',
    match end_time with
    | Some e =>
        if truthy end_time
        then bind (match to_datetime e with
                   | Some ts => ret ts
                   | None => raise (ValueError e)
                   end)
               (fun end_ts => ret (filter (fun r => ts_le (created_at r) end_ts) l))
        else ret l
    | None => ret l
    end = inr l' -> forall r, In r l' -> In r l).
  { intros l l'. destruct end_time as [e|]; [|now intros [= <-]].
    destruct (truthy (Some e)); [|now intros [= <-]].
    destruct (to_datetime e); simpl; [|discriminate].
    intros [= <-] r Hr. now apply filter_In in Hr. }
  destruct start_time as [s|]; [|apply Hend].
  destruct (truthy (Some s)); [|apply Hend].
  destruct (to_datetime s); simpl; [|discriminate].
  intros H r Hr. apply (Hend _ _ H) in Hr. now apply filter_In in Hr.
Qed.





End MergedFrame.

Section KeyErrors.
Import Evacuate.

(** X15.  [processEvacuate.py] has no check of its columns.  Without
    [created_at] it always ends with a [KeyError]; another missing column
    goes unnoticed when the time frame holds no row, and raises a
    [KeyError] naming an absent column when it holds one. *)
Theorem missing_column_raises_with_rows (today : Z)
  (to_datetime : string -> option Z) (frame : DataFrame) (only_today : bool)
  (start_time end_time : option string) (df df' : list Row) (col : string) :
  (has_column frame "created_at" = false ->
   ProcessEvacuate.process_data today to_datetime (inr frame) only_today
     start_time end_time = inl (KeyError "created_at")) /\
  (has_column frame "created_at" = true ->
   to_datetime_strict (rows frame) = inr df ->
   ProcessEvacuate.time_window to_datetime start_time end_time
     (if only_today then filter (fun r => date_eq (created_at r) today) df else df)
     = inr df' ->
   In col ["answer"; "step_name"; "user_id"] -> has_column frame col = false ->
   (df' = [] ->
    ProcessEvacuate.process_data today to_datetime (inr frame) only_today
      start_time end_time =
    inr ([Print "Warning: No data found for the specified timeframe."], None)) /\
   (df' <> [] ->
    exists absent,
      ProcessEvacuate.process_data today to_datetime (inr frame) only_today
        start_time end_time = inl (KeyError absent) /\
      In absent ["answer"; "step_name"; "user_id"] /\
      has_column frame absent = false)).
Proof.
  split.
  - intro H. unfold ProcessEvacuate.process_data. cbn [bind].
    unfold getitem. now rewrite H.
  - intros Hcol Hstrict Hwindow Hin Habsent. split.
    + intros ->. now apply (process_data_no_rows today to_datetime frame
                              only_today start_time end_time df).
    + intro Hne.
      assert (E : ProcessEvacuate.process_data today to_datetime (inr frame)
                    only_today start_time end_time =
                  bind (extract_and_merge frame df')
                    (fun merged => ret ([], Some merged))).
      { unfold ProcessEvacuate.process_data. cbn [bind]. unfold getitem.
        rewrite Hcol. cbn [bind ret]. rewrite Hstrict. cbn [bind].
        rewrite Hwindow. cbn [bind]. destruct df'; [contradiction|reflexivity]. }
      rewrite E. unfold extract_and_merge, getitem.
      destruct (has_column frame "answer") eqn:E1;
        [|exists "answer"; split; [reflexivity|split; [simpl; auto|exact E1]]].
      destruct (has_column frame "step_name") eqn:E2;
        [|exists "step_name"; split; [reflexivity|split; [simpl; auto|exact E2]]].
      destruct (has_column frame "user_id") eqn:E3;
        [|exists "user_id"; split; [reflexivity|split; [simpl; auto|exact E3]]].
      exfalso. simpl in Hin.
      destruct Hin as [<-|[<-|[<-|[]]]]; congruence.
Qed.

Lemma missing_column_raises_with_rows_witness :
  ProcessEvacuate.process_data 0 Samples.to_datetime
    (inr (mkFrame ["step_name"; "answer"; "created_at"] Samples.around_midnight))
    false None None = inl (KeyError "user_id") /\
  ProcessEvacuate.process_data 0 Samples.to_datetime
    (inr (mkFrame ["step_name"; "answer"; "created_at"] Samples.around_midnight))
    false (Some "2026-01-02") (Some "2026-01-01") =
  inr ([Print "Warning: No data found for the specified timeframe."], None).
Proof.
  split.
  - pose proof (missing_column_raises_with_rows 0 Samples.to_datetime
                  (mkFrame ["step_name"; "answer"; "created_at"] Samples.around_midnight)
                  false None None Samples.around_midnight Samples.around_midnight
                  "user_id") as [_ H].
    specialize (H eq_refl eq_refl eq_refl
                  (or_intror (or_intror (or_introl eq_refl))) eq_refl).
    destruct H as [_ H]. destruct H as (absent & H & _ & _); [discriminate|].
    rewrite H. vm_compute in H. symmetry. exact H.
  - pose proof (missing_column_raises_with_rows 0 Samples.to_datetime
                  (mkFrame ["step_name"; "answer"; "created_at"] Samples.around_midnight)
                  false (Some "2026-01-02") (Some "2026-01-01")
                  Samples.around_midnight [] "user_id") as [_ H].
    specialize (H eq_refl eq_refl eq_refl
                  (or_intror (or_intror (or_introl eq_refl))) eq_refl).
    destruct H as [H _]. now apply H.
Defined.

End KeyErrors.

(** ** [summarize_noki.py] *)

Section Summary.
Import SummarizeNoki.




Lemma key_eqb_eq (a b : option string * option string * option string) :
  key_eqb a b = true <-> a = b.
Proof.
  destruct a as [[a1 a2] a3], b as [[b1 b2] b3]. unfold key_eqb. simpl.
  rewrite !andb_true_iff, !cell_eqb_eq. split.
  - intros [[-> ->] ->]. reflexivity.
  - intros [= -> -> ->]. auto.
Qed.





Lemma index_of_missing_none (l : list (option string)) :
  index_of_missing l = None <-> ~ In None l.
Proof.
  induction l as [|[x|] t IH]; simpl.
  - tauto.
  - destruct (index_of_missing t); simpl.
    + split; [discriminate|]. intro H. exfalso.
      assert (Hn : ~ In None t) by tauto.
      apply IH in Hn. discriminate.
    + split; [|reflexivity]. intros _ [E|Hin]; [discriminate|].
      now apply (proj1 IH).
  - split; [discriminate|]. intro H. exfalso. apply H. now left.
Qed.

Lemma group_answers_in (df : list RawRow)
  (k : option string * option string * option string) (a : option string) :
  In a (group_answers df k) <->
  exists r, In r df /\ key r = k /\ answer r = a.
Proof.
  unfold group_answers.
  rewrite (unique_in cell_eqb cell_eqb_eq), in_map_iff. split.
  - intros (r & Ea & Hr). apply filter_In in Hr. destruct Hr as [Hr Hk].
    apply key_eqb_eq in Hk. eauto.
  - intros (r & Hr & Hk & Ea). exists r. split; [exact Ea|].
    apply filter_In. split; [exact Hr|]. now apply key_eqb_eq.
Qed.

Lemma groups_in_iff (df : list RawRow)
  (k : option string * option string * option string) :
  In k (groups df) <->
  exists r, In r df /\ key r = k /\ complete k = true.
Proof.
  unfold groups.
  rewrite stable_sort_in, (unique_in key_eqb key_eqb_eq), filter_In, in_map_iff.
  split.
  - intros [(r & E & Hr) Hc]. eauto.
  - intros (r & Hr & E & Hc). eauto.
Qed.


Lemma summarise_fails (df : list RawRow)
  (ks : list (option string * option string * option string))
  (k : option string * option string * option string) :
  In k ks -> In None (group_answers df k) ->
  exists e, summarise df ks = inl e.
Proof.
  induction ks as [|x t IH]; simpl; [tauto|]. intros Hin Hnone.
  unfold join_answers.
  destruct (index_of_missing (group_answers df x)) as [i|] eqn:E;
    [eexists; reflexivity|].
  cbn [bind ret]. destruct Hin as [->|Hin].
  - apply index_of_missing_none in E. contradiction.
  - destruct (IH Hin Hnone) as [e ->]. eexists. reflexivity.
Qed.





(** X18.  One missing answer in a group loses the whole summary: nothing is
    written to standard output and the script ends with status 1. *)
Theorem full_summary_fails_on_missing_answer (df : RawFrame) (r : RawRow) :
  In r (rows df) -> complete (key r) = true -> answer r = None ->
  stdout (generate_full_summary df) = [] /\
  exit_code (generate_full_summary df) = 1%Z.
Proof.
  intros Hr Hc Ha. unfold generate_full_summary.
  destruct (negb (forallb (has_column df) required_cols)); [split; reflexivity|].
  destruct (summarise_fails (rows df) (groups (rows df)) (key r)) as [e ->].
  - apply groups_in_iff. eauto.
  - apply group_answers_in. eauto.
  - split; reflexivity.
Qed.

Lemma full_summary_fails_on_missing_answer_witness :
  stdout
    (generate_full_summary
       (mkRawFrame required_cols
          [mkRaw (Some "h1") (Some "2026-01-01") (Some "q") (Some "A");
           mkRaw (Some "h2") (Some "2026-01-02") (Some "q") None])) = [] /\
  exit_code
    (generate_full_summary
       (mkRawFrame required_cols
          [mkRaw (Some "h1") (Some "2026-01-01") (Some "q") (Some "A");
           mkRaw (Some "h2") (Some "2026-01-02") (Some "q") None])) = 1%Z.
Proof.
  apply (full_summary_fails_on_missing_answer
           (mkRawFrame required_cols
              [mkRaw (Some "h1") (Some "2026-01-01") (Some "q") (Some "A");
               mkRaw (Some "h2") (Some "2026-01-02") (Some "q") None])
           (mkRaw (Some "h2") (Some "2026-01-02") (Some "q") None));
    [right; left; reflexivity | reflexivity | reflexivity].
Defined.

End Summary.

(** ** [downloadStorms.py] *)

Section Download.
Import DownloadStorms.

(** X19.  "Download complete." is printed exactly when the server returned a
    token that is not empty and the stream ended without a failure; the
    output file then holds the chunks, in order, whatever it held before,
    and the request carried the token as a bearer. *)
Theorem download_complete_iff (auth : auth_outcome) (data : data_outcome)
  (file_before : option (list Byte.byte)) :
  (In "Download complete." (printed (download_noki_data auth data file_before)) <->
   exists token chunks,
     auth = AuthJson (Some token) /\ token <> "" /\ data = DataStream chunks None) /\
  (forall token chunks,
     auth = AuthJson (Some token) -> token <> "" -> data = DataStream chunks None ->
     output_file (download_noki_data auth data file_before) =
       Some (List.concat chunks) /\
     authorization (download_noki_data auth data file_before) =
       Some ("Bearer " ++ token)%string).
Proof.
  split.
  - split.
    + unfold download_noki_data.
      destruct auth as [e|[token|]]; simpl.
      * intros [H|[H|[]]]; discriminate.
      * destruct (String.eqb_spec token "") as [->|Hne]; simpl.
        -- intros [H|[H|[]]]; discriminate.
        -- destruct data as [e|chunks [e|]]; simpl.
           ++ intros [H|[H|[H|[]]]]; discriminate.
           ++ intros [H|[H|[H|[]]]]; discriminate.
           ++ intros _. exists token, chunks. auto.
      * intros [H|[H|[]]]; discriminate.
    + intros (token & chunks & -> & Hne & ->). unfold download_noki_data. simpl.
      apply String.eqb_neq in Hne. rewrite Hne. simpl. auto.
  - intros token chunks -> Hne ->. unfold download_noki_data. simpl.
    apply String.eqb_neq in Hne. rewrite Hne. simpl. auto.
Qed.

(** X20.  A run that does not end with "Download complete." leaves the output
    file as it was, unless the stream broke after it had started: then
    the file holds the chunks received so far and its former content is
    lost.  Without a token no download request is made. *)
Theorem failed_download_and_the_file (auth : auth_outcome) (data : data_outcome)
  (file_before : option (list Byte.byte)) :
  ~ In "Download complete." (printed (download_noki_data auth data file_before)) ->
  ((exists token chunks e,
      auth = AuthJson (Some token) /\ token <> "" /\
      data = DataStream chunks (Some e) /\
      output_file (download_noki_data auth data file_before) =
        Some (List.concat chunks)) \/
   output_file (download_noki_data auth data file_before) = file_before) /\
  ((auth = AuthJson None \/ auth = AuthJson (Some "") \/
    exists e, auth = AuthRaises e) ->
   authorization (download_noki_data auth data file_before) = None).
Proof.
  intro Hnot. split.
  - unfold download_noki_data in *.
    destruct auth as [e|[token|]]; simpl in *; auto.
    destruct (String.eqb_spec token "") as [->|Hne]; simpl in *; auto.
    destruct data as [e|chunks [e|]]; simpl in *; auto.
    + left. exists token, chunks, e. auto.
    + exfalso. apply Hnot. auto.
  - intros [->|[->|[e ->]]]; reflexivity.
Qed.

Lemma failed_download_and_the_file_witness :
  output_file
    (download_noki_data (AuthJson (Some "t"))
       (DataStream [[Byte.x61; Byte.x62]] (Some "connection reset"))
       (Some [Byte.x6f; Byte.x6c; Byte.x64])) =
  Some [Byte.x61; Byte.x62].
Proof.
  destruct (failed_download_and_the_file (AuthJson (Some "t"))
              (DataStream [[Byte.x61; Byte.x62]] (Some "connection reset"))
              (Some [Byte.x6f; Byte.x6c; Byte.x64])) as [[H|H] _].
  - simpl. intros [H|[H|[H|[]]]]; discriminate.
  - destruct H as (token & chunks & e & _ & _ & [= <- <-] & H). exact H.
  - discriminate.
Defined.

End Download.

(** ** The figures of [processEvacuate.py] *)

Section Figures.
Import Evacuate Plots.

Lemma patches_two_runs (table : list (list nat)) :
  patches table =
  map (fun row => nth 0 row 0%nat) table ++ map (fun row => nth 1 row 0%nat) table.
Proof. unfold patches. simpl. now rewrite app_nil_r. Qed.

Lemma nth_map_rows (f : list nat -> nat) (l : list (list nat)) (i : nat) :
  f [] = 0%nat -> nth i (map f l) 0%nat = f (nth i l []).
Proof. intro H. rewrite <- H. apply map_nth. Qed.

Lemma iloc_of_patch (table : list (list nat)) (i : nat) :
  (i < List.length (patches table))%nat ->
  (Nat.modulo i (List.length table) < List.length table)%nat /\
  (Nat.div i (List.length table) < List.length EVAC_ORDER)%nat /\
  iloc table (Nat.modulo i (List.length table)) (Nat.div i (List.length table)) =
    nth i (patches table) 0%nat.
Proof.
  rewrite patches_two_runs, length_app, !length_map. intro Hi.
  set (n := List.length table) in *.
  assert (Hn : (0 < n)%nat) by lia.
  destruct (Nat.lt_ge_cases i n) as [Hlt|Hge].
  - rewrite Nat.mod_small, Nat.div_small by exact Hlt.
    split; [exact Hlt|]. split; [simpl; lia|].
    rewrite app_nth1 by (rewrite length_map; exact Hlt).
    unfold iloc. now rewrite nth_map_rows.
  - assert (Hd : Nat.div i n = 1%nat).
    { symmetry. apply (Nat.div_unique i n 1 (i - n)); lia. }
    assert (Hm : Nat.modulo i n = (i - n)%nat).
    { symmetry. apply (Nat.mod_unique i n 1 (i - n)); lia. }
    rewrite Hd, Hm. split; [lia|]. split; [simpl; lia|].
    rewrite app_nth2 by (rewrite length_map; exact Hge).
    rewrite length_map. fold n. unfold iloc. now rewrite nth_map_rows.
Qed.

Lemma nth_annotations (table : list (list nat)) (i : nat) :
  (i < List.length (patches table))%nat ->
  nth i (annotations table) None = annotate table i (nth i (patches table) 0%nat).
Proof.
  intro Hi. unfold annotations.
  rewrite (nth_indep _ None (annotate table 0 0)).
  2:{ rewrite length_map, length_combine, length_seq. lia. }
  change (annotate table 0 0)
    with ((fun ih => annotate table (fst ih) (snd ih)) (0%nat, 0%nat)).
  rewrite map_nth, combine_nth by apply length_seq.
  cbn [fst snd]. now rewrite seq_nth.
Qed.

(** X21.  The loop over the bars of the third figure writes on a bar of
    positive height the height of that very bar and its percentage of the
    total of the bar's row, and nothing on a bar of height 0: the cell
    that the index arithmetic reads for a bar is the cell the bar was
    drawn from. *)
Theorem annotation_reads_its_own_bar (table : list (list nat)) (i : nat) :
  (i < List.length (patches table))%nat ->
  let height := nth i (patches table) 0%nat in
  let total := nth (Nat.modulo i (List.length table)) (row_totals table) 0%nat in
  nth i (annotations table) None =
    (if Nat.ltb 0 height
     then Some (mkAnnotation height
                  (if Nat.ltb 0 total then percent height total else 0))
     else None) /\
  List.length (annotations table) = List.length (patches table).
Proof.
  intro Hi. cbv zeta. split.
  - rewrite (nth_annotations table i Hi). unfold annotate.
    destruct (iloc_of_patch table i Hi) as (_ & _ & ->). reflexivity.
  - unfold annotations. rewrite length_map, length_combine, length_seq. lia.
Qed.

Lemma annotation_reads_its_own_bar_witness :
  nth 3 (annotations [[3; 1]; [0; 2]]%nat) None =
  Some (mkAnnotation 2 (percent 2 2)).
Proof.
  destruct (annotation_reads_its_own_bar [[3; 1]; [0; 2]]%nat 3) as [H _].
  - simpl. lia.
  - rewrite H. reflexivity.
Defined.

Lemma reindex_counts (order : list string) (s : list (option string)) :
  reindex order (value_counts s) =
  map (fun label => count cell_eqb (Some label) (dropna s)) order.
Proof.
  unfold reindex. apply map_ext. intro label.
  destruct (find _ (value_counts s)) as [[v c]|] eqn:E.
  - apply find_some in E. destruct E as [Hin Hv]. cbn [fst snd] in *.
    apply cell_eqb_eq in Hv. subst v.
    apply value_counts_in in Hin. now destruct Hin.
  - unfold count.
    destruct (filter (cell_eqb (Some label)) (dropna s)) as [|y l] eqn:Ef;
      [reflexivity|].
    exfalso.
    assert (Hy : In y (filter (cell_eqb (Some label)) (dropna s)))
      by (rewrite Ef; now left).
    apply filter_In in Hy. destruct Hy as [Hin Hy].
    apply cell_eqb_eq in Hy. subst y.
    assert (H : In (Some label, count cell_eqb (Some label) (dropna s))
                   (value_counts s)) by (apply value_counts_in; auto).
    apply (find_none _ _ E) in H. cbn [fst] in H.
    rewrite cell_eqb_refl in H. discriminate.
Qed.

Lemma count_choice (df : list Merged) (label : string) :
  count cell_eqb (Some label) (dropna (map evacuate_choice df)) =
  List.length (filter (fun m => eq_str (evacuate_choice m) label) df).
Proof.
  unfold count, dropna. induction df as [|m t IH]; simpl; [reflexivity|].
  destruct (evacuate_choice m) as [c|]; simpl; [|exact IH].
  rewrite String.eqb_sym. destruct (String.eqb c label); simpl; now rewrite IH.
Qed.

Lemma two_disjoint_counts {A : Type} (p q : A -> bool) (l : list A) :
  (forall x, p x = true -> q x = false) ->
  (List.length (filter p l) + List.length (filter q l) <= List.length l)%nat.
Proof.
  intro H. induction l as [|x t IH]; simpl; [lia|].
  destruct (p x) eqn:Ep; [rewrite (H x Ep)|destruct (q x)]; simpl; lia.
Qed.

(** X22.  The second figure counts the two choices of [EVAC_ORDER], in that
    order, and nothing else: a row with another choice or with none is in
    neither bar.  When a row is counted, the two percentages are the
    shares of the two counts in their sum; when none is, they are not
    numbers. *)
Theorem overall_figure_counts (df : list Merged) :
  ev_counts df =
    map (fun label =>
           List.length (filter (fun m => eq_str (evacuate_choice m) label) df))
        EVAC_ORDER /\
  (list_sum (ev_counts df) <= List.length df)%nat /\
  (list_sum (ev_counts df) = 0%nat -> ev_pcts df = [None; None]) /\
  (list_sum (ev_counts df) <> 0%nat ->
   ev_pcts df =
     map (fun c => Some (percent c (list_sum (ev_counts df)))) (ev_counts df)).
Proof.
  assert (E : ev_counts df =
              map (fun label =>
                     List.length
                       (filter (fun m => eq_str (evacuate_choice m) label) df))
                  EVAC_ORDER).
  { unfold ev_counts. rewrite reindex_counts. apply map_ext.
    intro label. apply count_choice. }
  split; [exact E|]. split; [|split].
  - rewrite E. simpl. rewrite Nat.add_0_r. apply two_disjoint_counts.
    intros m H. unfold eq_str in *. destruct (evacuate_choice m) as [c|];
      [|reflexivity].
    apply String.eqb_eq in H. subst c. reflexivity.
  - intro H. unfold ev_pcts. rewrite H. rewrite E. reflexivity.
  - intro H. unfold ev_pcts. apply map_ext. intro c.
    destruct (Nat.eqb_spec (list_sum (ev_counts df)) 0); [contradiction|reflexivity].
Qed.

End Figures.

(** ** The merged frame of a run *)

Section MergedUsers.
Import Evacuate.
Local Open Scope exn_scope.

Lemma extract_and_merge_ok (cols : DataFrame) (df : list Row) (merged : list Merged) :
  extract_and_merge cols df = inr merged ->
  merged = merge (player_types (standardize df)) (evac_choices (standardize df)).
Proof.
  unfold extract_and_merge, getitem.
  destruct (has_column cols "answer"); [|discriminate].
  destruct (has_column cols "step_name"); [|discriminate].
  destruct (has_column cols "user_id"); [|discriminate].
  cbn [bind ret]. now intros [= <-].
Qed.

Lemma strict_parse_keeps_rows (df df' : list Row) :
  to_datetime_strict df = inr df' -> df' = df.
Proof.
  unfold to_datetime_strict.
  destruct (find _ df); [discriminate|]. now intros [= <-].
Qed.

Lemma first_working_merged (today : Z) (frame : DataFrame) (only_today : bool)
  (out : list console) (merged : list Merged) :
  FirstWorking.process_data today (inr frame) only_today = inr (out, Some merged) ->
  extract_and_merge frame
    (if only_today
     then filter (fun r => date_eq (created_at r) today) (rows frame)
     else rows frame) = inr merged.
Proof.
  unfold FirstWorking.process_data. cbn [bind].
  destruct (getitem frame "created_at") as [e|[]]; [discriminate|].
  destruct (to_datetime_strict (rows frame)) as [e|df] eqn:E; [discriminate|].
  apply strict_parse_keeps_rows in E. subst df.
  cbn [bind]. cbv zeta.
  match goal with |- context [if ?b then ret _ else _] => destruct b end; [discriminate|].
  destruct (extract_and_merge frame _) as [e|m]; [discriminate|].
  now intros [= _ <-].
Qed.

Lemma process_evacuate_merged (today : Z) (to_datetime : string -> option Z)
  (frame : DataFrame) (only_today : bool) (start_time end_time : option string)
  (out : list console) (merged : list Merged) :
  ProcessEvacuate.process_data today to_datetime (inr frame)
    only_today start_time end_time = inr (out, Some merged) ->
  exists df,
    ProcessEvacuate.time_window to_datetime start_time end_time
      (if only_today
       then filter (fun r => date_eq (created_at r) today) (rows frame)
       else rows frame) = inr df /\
    extract_and_merge frame df = inr merged.
Proof.
  unfold ProcessEvacuate.process_data. cbn [bind].
  destruct (getitem frame "created_at") as [e|[]]; [discriminate|].
  destruct (to_datetime_strict (rows frame)) as [e|df] eqn:E; [discriminate|].
  apply strict_parse_keeps_rows in E. subst df.
  cbn [bind]. cbv zeta.
  destruct (ProcessEvacuate.time_window _ _ _ _) as [e|df]; [discriminate|].
  cbn [bind].
  destruct (empty df); [discriminate|].
  destruct (extract_and_merge frame df) as [e|m] eqn:Em; [discriminate|].
  intros [= _ <-]. now exists df.
Qed.

(** C3.  The merged frame that a run returns holds exactly the users
    present in both extractions of the rows the run kept: a user of the
    merged frame is in the player-type extraction and in the
    evacuation-choice extraction, and every user of both is in the merged
    frame.  In [firstworkingprocessEvacuate.py] the rows kept are those of
    the [--today] selection, in [processEvacuate.py] those of the time
    window. *)
Theorem process_data_keeps_exactly_common_users
  (today : Z) (to_datetime : string -> option Z) (frame : DataFrame)
  (only_today : bool) (start_time end_time : option string) :
  let selected :=
    if only_today
    then filter (fun r => date_eq (created_at r) today) (rows frame)
    else rows frame in
  (forall out merged,
     FirstWorking.process_data today (inr frame) only_today = inr (out, Some merged) ->
     merged = merge (player_types (standardize selected))
                    (evac_choices (standardize selected)) /\
     forall u,
       In u (map m_user_id merged) <->
       In u (map ex_user_id (player_types (standardize selected))) /\
       In u (map ex_user_id (evac_choices (standardize selected)))) /\
  (forall out merged,
     ProcessEvacuate.process_data today to_datetime (inr frame)
       only_today start_time end_time = inr (out, Some merged) ->
     exists df,
       ProcessEvacuate.time_window to_datetime start_time end_time selected = inr df /\
       merged = merge (player_types (standardize df)) (evac_choices (standardize df)) /\
       forall u,
         In u (map m_user_id merged) <->
         In u (map ex_user_id (player_types (standardize df))) /\
         In u (map ex_user_id (evac_choices (standardize df)))).
Proof.
  intro selected. split.
  - intros out merged H.
    apply first_working_merged, extract_and_merge_ok in H.
    split; [exact H|]. intro u. rewrite H. apply merge_users.
  - intros out merged H.
    apply process_evacuate_merged in H. destruct H as (df & Hw & H).
    apply extract_and_merge_ok in H.
    exists df. split; [exact Hw|]. split; [exact H|].
    intro u. rewrite H. apply merge_users.
Qed.

(** On the export with the two spellings of one user, both scripts return
    a merged frame, and its only user is the one found in both
    extractions. *)
Lemma process_data_keeps_exactly_common_users_witness :
  exists merged,
    FirstWorking.process_data 0 (inr Samples.spelled_petowner) false
      = inr ([], Some merged) /\
    forall u, In u (map m_user_id merged) <-> u = Some "u1".
Proof.
  eexists. split; [reflexivity|].
  intro u.
  destruct (process_data_keeps_exactly_common_users 0 Samples.to_datetime
              Samples.spelled_petowner false None None) as [H _].
  destruct (H [] _ eq_refl) as [_ Hu].
  rewrite Hu. simpl. intuition (subst; auto; try contradiction).
Defined.

End MergedUsers.

(** ** The rows of the merged frame *)

Section MergedRows.
Import Evacuate.

Lemma merged_rows_of (df : list Row) :
  NoDup (map m_user_id
           (merge (player_types (standardize df)) (evac_choices (standardize df)))) /\
  (forall m,
     In m (merge (player_types (standardize df)) (evac_choices (standardize df))) ->
     exists p e,
       In p df /\ In e df /\
       is_player_select p = true /\ is_evacuate_select e = true /\
       user_id p = m_user_id m /\ user_id e = m_user_id m /\
       player_type m = replace "Petowner" "Pet Owner" (answer p) /\
       evacuate_choice m = replace "Petowner" "Pet Owner" (answer e)).
Proof.
  split.
  - apply merge_NoDup; unfold player_types, evac_choices;
      rewrite select_user_answer_users; apply latest_rows_NoDup.
  - intros m Hm. apply merge_in in Hm.
    destruct Hm as (l & r & Hl & Hr & E & ->).
    apply in_map_iff in Hl. destruct Hl as (p & <- & Hp).
    apply in_map_iff in Hr. destruct Hr as (e & <- & He).
    apply latest_rows_in in Hp. destruct Hp as [Hp Mp].
    apply latest_rows_in in He. destruct He as [He Me].
    apply in_map_iff in Hp. destruct Hp as (p0 & <- & Hp).
    apply in_map_iff in He. destruct He as (e0 & <- & He).
    exists p0, e0. simpl in *. repeat split; auto.
Qed.

(** X11.  The merged frame that a run returns has one row per user, and
    the two answers of a row are the answers, with "Petowner" respelled,
    of a player-select row and of an evacuate-select row of that user in
    the input. *)
Theorem merged_one_row_per_user
  (today : Z) (to_datetime : string -> option Z) (frame : DataFrame)
  (only_today : bool) (start_time end_time : option string)
  (out : list console) (merged : list Merged) :
  FirstWorking.process_data today (inr frame) only_today = inr (out, Some merged) \/
  ProcessEvacuate.process_data today to_datetime (inr frame)
    only_today start_time end_time = inr (out, Some merged) ->
  NoDup (map m_user_id merged) /\
  (forall m, In m merged ->
     exists p e,
       In p (rows frame) /\ In e (rows frame) /\
       is_player_select p = true /\ is_evacuate_select e = true /\
       user_id p = m_user_id m /\ user_id e = m_user_id m /\
       player_type m = replace "Petowner" "Pet Owner" (answer p) /\
       evacuate_choice m = replace "Petowner" "Pet Owner" (answer e)).
Proof.
  assert (Hsel : forall r,
    In r (if only_today
          then filter (fun r => date_eq (created_at r) today) (rows frame)
          else rows frame) -> In r (rows frame)).
  { intros r. destruct only_today; [|auto].
    intro H. now apply filter_In in H. }
  assert (Hfrom : forall df, (forall r, In r df -> In r (rows frame)) ->
    merged = merge (player_types (standardize df)) (evac_choices (standardize df)) ->
    NoDup (map m_user_id merged) /\
    (forall m, In m merged ->
       exists p e,
         In p (rows frame) /\ In e (rows frame) /\
         is_player_select p = true /\ is_evacuate_select e = true /\
         user_id p = m_user_id m /\ user_id e = m_user_id m /\
         player_type m = replace "Petowner" "Pet Owner" (answer p) /\
         evacuate_choice m = replace "Petowner" "Pet Owner" (answer e))).
  { intros df Hin ->. destruct (merged_rows_of df) as [Hn Hr].
    split; [exact Hn|]. intros m Hm.
    destruct (Hr m Hm) as (p & e & Hp & He & Hrest).
    exists p, e. split; [now apply Hin|]. split; [now apply Hin|]. exact Hrest. }
  intros [H|H].
  - apply first_working_merged, extract_and_merge_ok in H.
    exact (Hfrom _ Hsel H).
  - apply process_evacuate_merged in H. destruct H as (df & Hw & H).
    apply extract_and_merge_ok in H.
    refine (Hfrom df _ H). intros r Hr. apply Hsel.
    exact (time_window_incl _ _ _ _ _ Hw r Hr).
Qed.

Lemma merged_one_row_per_user_witness :
  exists merged,
    FirstWorking.process_data 0 (inr Samples.spelled_petowner) false
      = inr ([], Some merged) /\
    NoDup (map m_user_id merged).
Proof.
  eexists. split; [reflexivity|].
  exact (proj1 (merged_one_row_per_user 0 Samples.to_datetime
                  Samples.spelled_petowner false None None [] _
                  (or_introl eq_refl))).
Defined.

End MergedRows.

(** ** The conditional breakdown of a run *)

Section ConditionalBreakdownOfRun.
Import GeneteDateFilter.
Import ConditionalBreakdown.

Lemma typed_sessions_in (text_answers : bool) (df : list Row) (s : option string) :
  In s (DateFilter.sessions_with_2009_answer text_answers df) <->
  qualifies text_answers df s.
Proof.
  unfold qualifies. destruct text_answers.
  - change (DateFilter.sessions_with_2009_answer true df)
      with (sessions_with_2009_answer df).
    rewrite sessions_in. split.
    + intros (r & Hr & Hq & Ha & E). exists r. repeat split; auto.
    + intros (r & Hr & Hq & _ & Ha & E). exists r. repeat split; auto.
  - unfold DateFilter.sessions_with_2009_answer, DateFilter.answer_is_2009.
    split.
    + intro H. exfalso.
      apply (proj1 (unique_in cell_eqb cell_eqb_eq _ _)) in H.
      apply in_map_iff in H. destruct H as (r & _ & Hr).
      apply filter_In in Hr. destruct Hr as [_ Hr]. discriminate.
    + intros (r & _ & _ & Ht & _). discriminate.
Qed.

Lemma third_output_section (text_answers : bool) (df : list Row) :
  DateFilter.third_output text_answers df =
  section (DateFilter.sessions_with_2009_answer text_answers df) df.
Proof.
  unfold DateFilter.third_output, section, DateFilter.filtered_df.
  destruct (DateFilter.sessions_with_2009_answer text_answers df) as [|s l];
    [reflexivity|].
  cbn [List.length Nat.eqb].
  destruct (calculate_aggregated_answer_percentages _ "Now,"); reflexivity.
Qed.

Lemma report_reported (text_answers : bool) (df : list Row) :
  reported text_answers df (DateFilter.report text_answers df).
Proof.
  exists (DateFilter.sessions_with_2009_answer text_answers df).
  split; [intro s; apply typed_sessions_in|].
  unfold DateFilter.report. now rewrite third_output_section.
Qed.

Lemma no_sessions_on_numbers (df : list Row) :
  DateFilter.sessions_with_2009_answer false df = [].
Proof.
  destruct (DateFilter.sessions_with_2009_answer false df) as [|s l] eqn:E;
    [reflexivity|].
  exfalso. assert (H : In s (DateFilter.sessions_with_2009_answer false df))
    by (rewrite E; now left).
  apply typed_sessions_in in H. destruct H as (r & _ & _ & Ht & _). discriminate.
Qed.

Lemma typed_second_output_tables (text_answers : bool) (df : list Row) :
  ~ In (ToCsv []) (DateFilter.second_output text_answers df).
Proof.
  unfold DateFilter.second_output.
  destruct (empty _); [|destruct (Nat.ltb _ _)]; simpl;
    intros [H|[H|[H|[]]]]; discriminate.
Qed.

Lemma section_tables (sessions : list (option string)) (df : list Row) :
  ~ In (ToCsv []) (section sessions df).
Proof.
  unfold section. destruct sessions as [|s l]; simpl.
  - intros [H|[H|[H|[H|[]]]]]; discriminate.
  - destruct (calculate_aggregated_answer_percentages _ "Now,");
      simpl; intros [H|[H|[H|[]]]]; discriminate.
Qed.

Lemma typed_report_tables (text_answers : bool) (df : list Row) :
  ~ In (ToCsv []) (stdout (DateFilter.report text_answers df)).
Proof.
  unfold DateFilter.report. cbn [stdout].
  rewrite third_output_section, !in_app_iff.
  intros [H|[H|H]];
    [exact (first_output_tables df H)
    | exact (typed_second_output_tables text_answers df H)
    | exact (section_tables _ df H)].
Qed.

Lemma typed_process_tables (object_dtype : list (option string) -> bool)
  (to_datetime : string -> option Z) (tz_of : string -> DateFilter.tz)
  (stdin : M DataFrame) (created_at_tz : DateFilter.tz) (start_date : option string) :
  ~ In (ToCsv [])
      (stdout (DateFilter.process_and_output_percentages object_dtype to_datetime
                 tz_of stdin created_at_tz start_date)).
Proof.
  unfold DateFilter.process_and_output_percentages.
  destruct stdin as [[]|frame]; try (simpl; tauto).
  destruct (forallb (has_column frame) required_cols); cbn [negb];
    [|simpl; tauto].
  destruct start_date as [text|]; [|apply typed_report_tables].
  destruct (truthy (Some text)); [|apply typed_report_tables].
  destruct (to_datetime text); [|simpl; tauto].
  destruct (DateFilter.tz_eqb _ _); [|simpl; tauto].
  destruct (filter _ _) eqn:E; cbn [empty].
  - intros [H|[]]. discriminate.
  - apply typed_report_tables.
Qed.

Section Run.
Variable object_dtype : list (option string) -> bool.
Variable to_datetime : string -> option Z.
Variable tz_of : string -> DateFilter.tz.
Variable frame : DataFrame.
Variable created_at_tz : DateFilter.tz.
Hypothesis Hcols : forallb (has_column frame) required_cols = true.

Let text_answers := object_dtype (map answer (rows frame)).
Let parsed := dropna_created_at (to_datetime_coerce (rows frame)).
Let run := DateFilter.process_and_output_percentages object_dtype to_datetime tz_of
             (inr frame) created_at_tz.

Lemma typed_run_all_rows (start_date : option string) :
  truthy start_date = false ->
  run start_date = DateFilter.report text_answers parsed.
Proof.
  intro Ht. unfold run, DateFilter.process_and_output_percentages.
  rewrite Hcols. cbn [negb].
  destruct start_date as [text|]; [|reflexivity]. now rewrite Ht.
Qed.

Lemma typed_run_from (text : string) (start : Z) :
  truthy (Some text) = true -> to_datetime text = Some start ->
  DateFilter.tz_eqb created_at_tz (tz_of text) = true ->
  run (Some text) =
  let df := filter (fun r => ts_ge (created_at r) start) parsed in
  if empty df
  then mkProcess [Write ("No data found on or after " ++ text ++ " after filtering." ++ nl)] [] 0
  else DateFilter.report text_answers df.
Proof.
  intros Ht Hd Hz. unfold run, DateFilter.process_and_output_percentages.
  rewrite Hcols. cbn [negb]. now rewrite Ht, Hd, Hz.
Qed.

Lemma typed_run_type_error (text : string) (start : Z) :
  truthy (Some text) = true -> to_datetime text = Some start ->
  DateFilter.tz_eqb created_at_tz (tz_of text) = false ->
  run (Some text) =
  mkProcess []
    [("An unexpected error occurred: " ++
      DateFilter.invalid_comparison created_at_tz ++ nl)%string] 1.
Proof.
  intros Ht Hd Hz. unfold run, DateFilter.process_and_output_percentages.
  rewrite Hcols. cbn [negb]. now rewrite Ht, Hd, Hz.
Qed.

End Run.

(** On a text [answer] column, and with time-zone kinds that agree, the
    script is the script of [GeneteDateFilter]. *)
Lemma text_and_same_zone_run (object_dtype : list (option string) -> bool)
  (to_datetime : string -> option Z) (tz_of : string -> DateFilter.tz)
  (stdin : M DataFrame) (created_at_tz : DateFilter.tz) (start_date : option string) :
  (forall cells, object_dtype cells = true) ->
  (forall s, DateFilter.tz_eqb created_at_tz (tz_of s) = true) ->
  DateFilter.process_and_output_percentages object_dtype to_datetime tz_of
    stdin created_at_tz start_date =
  process_and_output_percentages to_datetime stdin start_date.
Proof.
  intros Hobj Hz.
  unfold DateFilter.process_and_output_percentages, process_and_output_percentages.
  destruct stdin as [e|frame]; [reflexivity|].
  destruct (negb _); [reflexivity|]. rewrite Hobj.
  destruct start_date as [text|]; [|reflexivity].
  destruct (truthy (Some text)); [|reflexivity].
  destruct (to_datetime text); [|reflexivity]. now rewrite Hz.
Qed.

(** C4.  A run of [genetedatefilterprocess.py] that reaches its report
    writes the three sections for the rows it kept, and the third section
    is the conditional breakdown: it is computed for exactly the sessions
    with a kept row whose question starts with "First" and whose answer
    is the text "2009"; when there is no such session it says so, and
    otherwise it holds the breakdown of the "Now," questions over the
    rows of these sessions, or a note when the breakdown is empty, and
    never an empty table.  On an [answer] column that [read_csv] did not
    read as text no session is found, whatever the answers are. *)
Theorem conditional_breakdown_of_run
  (object_dtype : list (option string) -> bool)
  (to_datetime : string -> option Z) (tz_of : string -> DateFilter.tz)
  (frame : DataFrame) (created_at_tz : DateFilter.tz) (start_date : option string) :
  forallb (has_column frame) required_cols = true ->
  let text_answers := object_dtype (map answer (rows frame)) in
  let parsed := dropna_created_at (to_datetime_coerce (rows frame)) in
  let run := DateFilter.process_and_output_percentages object_dtype to_datetime tz_of
               (inr frame) created_at_tz start_date in
  (truthy start_date = false -> reported text_answers parsed run) /\
  (forall text start,
     start_date = Some text -> truthy start_date = true ->
     to_datetime text = Some start ->
     DateFilter.tz_eqb created_at_tz (tz_of text) = true ->
     filter (fun r => ts_ge (created_at r) start) parsed <> [] ->
     reported text_answers (filter (fun r => ts_ge (created_at r) start) parsed) run) /\
  (text_answers = false -> truthy start_date = false ->
   stdout run = first_output parsed ++ DateFilter.second_output false parsed ++
                section [] parsed) /\
  ~ In (ToCsv []) (stdout run).
Proof.
  intros Hcols text_answers parsed run.
  split; [|split; [|split]].
  - intro Ht. unfold run.
    rewrite (typed_run_all_rows _ _ _ _ _ Hcols _ Ht). apply report_reported.
  - intros text start -> Ht Hd Hz Hne. unfold run.
    rewrite (typed_run_from _ _ _ _ _ Hcols _ _ Ht Hd Hz). cbv zeta.
    fold parsed.
    destruct (filter (fun r => ts_ge (created_at r) start) parsed) eqn:E;
      [contradiction|].
    cbn [empty]. rewrite <- E. apply report_reported.
  - intros Hf Ht. unfold run.
    rewrite (typed_run_all_rows _ _ _ _ _ Hcols _ Ht).
    fold text_answers parsed. rewrite Hf. unfold DateFilter.report. cbn [stdout].
    now rewrite third_output_section, no_sessions_on_numbers.
  - apply typed_process_tables.
Qed.

(** On the survey whose answers are all numbers the third section names
    no session, although the session [s1] answered 2009. *)
Lemma conditional_breakdown_of_run_witness :
  let parsed :=
    dropna_created_at (to_datetime_coerce (rows TypedSamples.numeric_answers)) in
  stdout (DateFilter.process_and_output_percentages TypedSamples.object_dtype
            Samples.to_datetime TypedSamples.tz_of
            (inr TypedSamples.numeric_answers) DateFilter.Naive None) =
  first_output parsed ++ DateFilter.second_output false parsed ++ section [] parsed.
Proof.
  exact (proj1 (proj2 (proj2
    (conditional_breakdown_of_run TypedSamples.object_dtype Samples.to_datetime
       TypedSamples.tz_of TypedSamples.numeric_answers DateFilter.Naive None
       eq_refl))) eq_refl eq_refl).
Defined.

(** The same session is found once the "Now," answer is a word, because
    the column is then read as text. *)
Example session_found_among_text_answers :
  (exists r, In r (rows TypedSamples.numeric_answers) /\
             question_startswith "First" r = true /\
             answer r = Some "2009" /\ session_id r = Some "s1") /\
  In (Write ("No sessions found where answer to a 'First' question was '2009'." ++ nl))
     (stdout (DateFilter.process_and_output_percentages TypedSamples.object_dtype
                Samples.to_datetime TypedSamples.tz_of
                (inr TypedSamples.numeric_answers) DateFilter.Naive None)) /\
  ~ In (Write ("No sessions found where answer to a 'First' question was '2009'." ++ nl))
       (stdout (DateFilter.process_and_output_percentages TypedSamples.object_dtype
                  Samples.to_datetime TypedSamples.tz_of
                  (inr TypedSamples.text_answers) DateFilter.Naive None)) /\
  DateFilter.third_output true (rows TypedSamples.text_answers) =
  [Write ("--- Overall Percentage of Answers for Questions Starting with 'Now,' (Filtered by 'First' = '2009') ---" ++ nl);
   ToCsv [mkPct (Some "Yes") (percent 1 1)];
   Write nl].
Proof.
  split; [|split; [|split]].
  - eexists. split; [left; reflexivity|]. repeat split.
  - vm_compute. tauto.
  - vm_compute. intuition discriminate.
  - reflexivity.
Qed.

End ConditionalBreakdownOfRun.

(** ** The time window of a run *)

Section TimeWindowOfRun.
Import GeneteDateFilter.

(** C5.  With a start and/or an end bound given, the time-window filter
    of [processEvacuate.py] keeps exactly the rows whose [created_at]
    lies in the inclusive interval, in their order.  The start-date
    filter of [genetedatefilterprocess.py] keeps exactly the rows on or
    after the start, and goes on with them or reports that there are
    none, when the parsed [created_at] column and the parsed start date
    are both with or both without a time zone; when only one of them has
    a time zone the comparison raises, and the run ends with status 1
    and no output. *)
Theorem time_window_keeps_interval
  (object_dtype : list (option string) -> bool)
  (to_datetime : string -> option Z) (tz_of : string -> DateFilter.tz)
  (s e : string) (a b : Z) (df : list Row) (frame : DataFrame)
  (created_at_tz : DateFilter.tz) :
  s <> "" -> e <> "" -> to_datetime s = Some a -> to_datetime e = Some b ->
  forallb (has_column frame) required_cols = true ->
  ProcessEvacuate.time_window to_datetime (Some s) (Some e) df =
    inr (filter (fun r => within (Some a) (Some b) (created_at r)) df) /\
  ProcessEvacuate.time_window to_datetime (Some s) None df =
    inr (filter (fun r => within (Some a) None (created_at r)) df) /\
  ProcessEvacuate.time_window to_datetime None (Some e) df =
    inr (filter (fun r => within None (Some b) (created_at r)) df) /\
  DateFilter.process_and_output_percentages object_dtype to_datetime tz_of
    (inr frame) created_at_tz (Some s) =
    if DateFilter.tz_eqb created_at_tz (tz_of s)
    then
      match filter (fun r => within (Some a) None (created_at r))
              (dropna_created_at (to_datetime_coerce (rows frame))) with
      | [] => mkProcess
                [Write ("No data found on or after " ++ s ++ " after filtering." ++ nl)]
                [] 0
      | kept => DateFilter.report (object_dtype (map answer (rows frame))) kept
      end
    else
      mkProcess []
        [("An unexpected error occurred: " ++
          DateFilter.invalid_comparison created_at_tz ++ nl)%string] 1.
Proof.
  intros Hs He Ha Hb Hcols. split; [|split; [|split]].
  - now apply time_window_both.
  - now apply time_window_start.
  - now apply time_window_end.
  - pose proof (truthy_nonempty s Hs) as Ht.
    destruct (DateFilter.tz_eqb created_at_tz (tz_of s)) eqn:Hz.
    + rewrite (typed_run_from _ _ _ _ _ Hcols _ _ Ht Ha Hz). cbv zeta.
      rewrite ts_ge_within. destruct (filter _ _); reflexivity.
    + exact (typed_run_type_error _ _ _ _ _ Hcols _ _ Ht Ha Hz).
Qed.

(** The scenario of the specification: with the start date [2026-01-02]
    the filter of [processEvacuate.py] drops the row stamped
    [2026-01-01T23:59:59Z]; the run of [genetedatefilterprocess.py] on
    rows stamped with a time zone ends with status 1. *)
Lemma time_window_keeps_interval_witness :
  ProcessEvacuate.time_window Samples.to_datetime (Some "2026-01-02") None
    Samples.around_midnight =
  inr [Samples.response "u2" "player_select" "Farmer"
         (Timestamp Samples.t_2026_01_02_09h)] /\
  within (Some Samples.t_2026_01_02_00h) None
    (Timestamp Samples.t_2026_01_01_23h59m59) = false /\
  DateFilter.process_and_output_percentages TypedSamples.object_dtype
    Samples.to_datetime TypedSamples.tz_of
    (inr TypedSamples.survey_around_midnight) DateFilter.Aware (Some "2026-01-02") =
  mkProcess []
    [("An unexpected error occurred: " ++
      DateFilter.invalid_comparison DateFilter.Aware ++ nl)%string] 1.
Proof.
  destruct (time_window_keeps_interval TypedSamples.object_dtype
              Samples.to_datetime TypedSamples.tz_of
              "2026-01-02" "2026-01-01" Samples.t_2026_01_02_00h 1767225600
              Samples.around_midnight TypedSamples.survey_around_midnight
              DateFilter.Aware)
    as (_ & H & _ & Hrun);
    [discriminate | discriminate | reflexivity | reflexivity | reflexivity |].
  split; [rewrite H; reflexivity|]. split; [reflexivity|]. exact Hrun.
Defined.

End TimeWindowOfRun.

(** ** Inputs without rows *)

Section EmptyInputs.
Import Evacuate GeneteDateFilter.



End EmptyInputs.

(** ** Percentages in floating point *)

Section FloatingSums.
Import Floating.

(** One rounding changes a value that is not negative by at most the
    relative error [u]. *)
Variable fl : Q -> Q.
Variable u : Q.
Hypothesis u_nonneg : 0 <= u.
Hypothesis u_small : u <= 1.
Hypothesis fl_rel : forall x, 0 <= x -> x * (1 - u) <= fl x /\ fl x <= x * (1 + u).

Lemma percent_nonneg (c total : nat) : 0 <= percent c total.
Proof.
  unfold percent. apply Qmult_le_0_compat; [|discriminate].
  unfold Qdiv. apply Qmult_le_0_compat.
  - change 0 with (inject_Z 0). rewrite <- Zle_Qle. lia.
  - apply Qinv_le_0_compat. change 0 with (inject_Z 0). rewrite <- Zle_Qle. lia.
Qed.

Lemma fl_nonneg (x : Q) : 0 <= x -> 0 <= fl x.
Proof.
  intro H. destruct (fl_rel x H) as [Hl _].
  apply Qle_trans with (x * (1 - u)); [|exact Hl].
  apply Qmult_le_0_compat; [exact H|]. lra.
Qed.

Lemma percent_fl_bounds (c total : nat) :
  percent c total * ((1 - u) * (1 - u)) <= percent_fl fl c total /\
  percent_fl fl c total <= percent c total * ((1 + u) * (1 + u)) /\
  0 <= percent_fl fl c total.
Proof.
  unfold percent_fl.
  pose proof (percent_nonneg c total) as Hp. unfold percent in *.
  set (q := inject_Z (Z.of_nat c) / inject_Z (Z.of_nat total)) in *.
  assert (Hq : 0 <= q) by lra.
  destruct (fl_rel q Hq) as [Hl Hu].
  pose proof (fl_nonneg q Hq) as Hf.
  assert (Hy : 0 <= fl q * 100) by lra.
  destruct (fl_rel _ Hy) as [Hl' Hu'].
  pose proof (fl_nonneg _ Hy) as Hf'.
  split; [|split; [|exact Hf']]; nra.
Qed.

Lemma qpow_nonneg (x : Q) (n : nat) : 0 <= x -> 0 <= qpow x n.
Proof.
  intro H. induction n as [|n IH]; simpl; [discriminate|].
  now apply Qmult_le_0_compat.
Qed.

Lemma sum_fl_upper (total : nat) (cs : list nat) (s : Q) :
  0 <= s ->
  fold_left (fun s x => fl (s + x)) (map (fun c => percent_fl fl c total) cs) s <=
  qpow (1 + u) (List.length cs) *
  (s + (1 + u) * (1 + u) * qsum (map (fun c => percent c total) cs)).
Proof.
  revert s. induction cs as [|c cs IH]; intros s Hs; simpl.
  - lra.
  - destruct (percent_fl_bounds c total) as (_ & Hx & Hx0).
    pose proof (percent_nonneg c total) as Hp.
    assert (Hsx : 0 <= s + percent_fl fl c total) by lra.
    destruct (fl_rel _ Hsx) as [_ Hr].
    pose proof (fl_nonneg _ Hsx) as Hs'.
    specialize (IH _ Hs').
    eapply Qle_trans; [exact IH|].
    set (S := qsum (map (fun c => percent c total) cs)) in *.
    assert (HS : 0 <= S).
    { unfold S. clear. induction cs as [|x t IH]; simpl; [discriminate|].
      pose proof (percent_nonneg x total). lra. }
    pose proof (qpow_nonneg (1 + u) (List.length cs)) as HW.
    set (W := qpow (1 + u) (List.length cs)) in *.
    assert (0 <= W) by (apply HW; lra).
    set (x := percent_fl fl c total) in *.
    set (p := percent c total) in *.
    set (s' := fl (s + x)) in *.
    assert (HK : 0 <= (1 + u) * (1 + u)) by nra.
    set (K := (1 + u) * (1 + u)) in *.
    assert (HKS : 0 <= K * S) by (apply Qmult_le_0_compat; assumption).
    assert (H1 : (1 + u) * x <= (1 + u) * (p * K)) by nra.
    assert (H2 : 0 <= u * (K * S)) by (apply Qmult_le_0_compat; assumption).
    assert (Hin : s' + K * S <= (1 + u) * (s + K * (p + S))) by lra.
    assert (Hout : W * (s' + K * S) <= W * ((1 + u) * (s + K * (p + S)))) by nra.
    lra.
Qed.

Lemma sum_fl_lower (total : nat) (cs : list nat) (s : Q) :
  0 <= s ->
  qpow (1 - u) (List.length cs) *
  (s + (1 - u) * (1 - u) * qsum (map (fun c => percent c total) cs)) <=
  fold_left (fun s x => fl (s + x)) (map (fun c => percent_fl fl c total) cs) s.
Proof.
  revert s. induction cs as [|c cs IH]; intros s Hs; simpl.
  - lra.
  - destruct (percent_fl_bounds c total) as (Hx & _ & Hx0).
    pose proof (percent_nonneg c total) as Hp.
    assert (Hsx : 0 <= s + percent_fl fl c total) by lra.
    destruct (fl_rel _ Hsx) as [Hr _].
    pose proof (fl_nonneg _ Hsx) as Hs'.
    specialize (IH _ Hs').
    eapply Qle_trans; [|exact IH].
    set (S := qsum (map (fun c => percent c total) cs)) in *.
    assert (HS : 0 <= S).
    { unfold S. clear. induction cs as [|x t IH]; simpl; [discriminate|].
      pose proof (percent_nonneg x total). lra. }
    pose proof (qpow_nonneg (1 - u) (List.length cs)) as HW.
    set (W := qpow (1 - u) (List.length cs)) in *.
    assert (0 <= W) by (apply HW; lra).
    set (x := percent_fl fl c total) in *.
    set (p := percent c total) in *.
    set (s' := fl (s + x)) in *.
    assert (HK : 0 <= (1 - u) * (1 - u)) by nra.
    set (K := (1 - u) * (1 - u)) in *.
    assert (HKS : 0 <= K * S) by (apply Qmult_le_0_compat; assumption).
    assert (H1 : (1 - u) * (p * K) <= (1 - u) * x) by nra.
    assert (H2 : 0 <= u * (K * S)) by (apply Qmult_le_0_compat; assumption).
    assert (Hin : (1 - u) * (s + K * (p + S)) <= s' + K * S) by lra.
    assert (Hout : W * ((1 - u) * (s + K * (p + S))) <= W * (s' + K * S)) by nra.
    lra.
Qed.

(** The rounded percentages of counts that add up to the total sum to
    100 up to the roundings made: two for each percentage and one for
    each addition. *)
Lemma sum_fl_bounds (total : nat) (cs : list nat) :
  total <> 0%nat -> list_sum cs = total ->
  100 * qpow (1 - u) (2 + List.length cs) <=
    sum_fl fl (map (fun c => percent_fl fl c total) cs) /\
  sum_fl fl (map (fun c => percent_fl fl c total) cs) <=
    100 * qpow (1 + u) (2 + List.length cs).
Proof.
  intros Ht Hsum.
  assert (E : qsum (map (fun c => percent c total) cs) == 100).
  { rewrite (qsum_percent (fun c => c)), map_id, Hsum. now apply percent_whole. }
  pose proof (sum_fl_lower total cs 0 (Qle_refl 0)) as Hl.
  pose proof (sum_fl_upper total cs 0 (Qle_refl 0)) as Hu.
  rewrite E in Hl, Hu. unfold sum_fl. cbn [Nat.add qpow].
  split; [eapply Qle_trans; [|exact Hl] | eapply Qle_trans; [exact Hu|]]; lra.
Qed.

Lemma insert_sorted_map {B C : Type} (f : B -> C) (leb : C -> C -> bool)
  (x : B) (l : list B) :
  insert_sorted leb (f x) (map f l) =
  map f (insert_sorted (fun a b => leb (f a) (f b)) x l).
Proof.
  induction l as [|y t IH]; simpl; [reflexivity|].
  destruct (leb (f x) (f y)); simpl; [reflexivity|]. now rewrite IH.
Qed.

Lemma stable_sort_map {B C : Type} (f : B -> C) (leb : C -> C -> bool) (l : list B) :
  stable_sort leb (map f l) =
  map f (stable_sort (fun a b => leb (f a) (f b)) l).
Proof.
  induction l as [|x t IH]; simpl; [reflexivity|].
  now rewrite IH, insert_sorted_map.
Qed.

(** The global breakdown in floating point. *)
Lemma calculate_fl_sum (df : list Row) (question_prefix : string) :
  GeneteDateFilter.matching_answers df question_prefix <> [] ->
  let table :=
    calculate_aggregated_answer_percentages (percent_fl fl) df question_prefix in
  100 * qpow (1 - u) (2 + List.length table) <=
    sum_fl fl (map GeneteDateFilter.percentage table) /\
  sum_fl fl (map GeneteDateFilter.percentage table) <=
    100 * qpow (1 + u) (2 + List.length table).
Proof.
  intro Hm. unfold calculate_aggregated_answer_percentages.
  unfold GeneteDateFilter.matching_answers in Hm.
  destruct (filter (GeneteDateFilter.question_startswith question_prefix) df)
    as [|r0 t0] eqn:Ef; [contradiction|].
  cbn [empty]. rewrite <- Ef in *. clear Ef r0 t0.
  rewrite value_counts_total.
  set (answers := map answer
                    (filter (GeneteDateFilter.question_startswith question_prefix) df)) in *.
  assert (Ht : List.length (dropna answers) <> 0%nat).
  { destruct (dropna answers); [contradiction|discriminate]. }
  destruct (Nat.eqb_spec (List.length (dropna answers)) 0) as [E|_];
    [contradiction|].
  cbv zeta. rewrite stable_sort_map.
  set (sorted := stable_sort _ (value_counts answers)).
  rewrite map_map. cbn [GeneteDateFilter.percentage].
  rewrite !length_map.
  rewrite <- (length_map snd sorted).
  rewrite <- (map_map snd (fun c => percent_fl fl c (List.length (dropna answers)))).
  apply sum_fl_bounds; [exact Ht|].
  unfold sorted.
  rewrite (Permutation_list_sum (Permutation_map snd (stable_sort_perm _ _))).
  apply value_counts_total.
Qed.

Lemma merged_df_fl_map (pct : nat -> nat -> Q) (counts : list Genete.AnswerCount) :
  Forall (fun c => Genete.ac_user c <> None) counts ->
  merged_df pct counts (Genete.total_answers_per_user counts) =
  map (fun c => Genete.mkUserPct (Genete.ac_user c) (Genete.ac_answer c)
                  (pct (Genete.ac_count c)
                       (Genete.user_total counts (Genete.ac_user c))))
      counts.
Proof.
  intro H. unfold merged_df. apply flat_map_singleton. intros c Hc.
  rewrite totals_lookup; [reflexivity| |].
  - now apply in_map.
  - rewrite Forall_forall in H. now apply H.
Qed.

(** The table per user in floating point. *)
Lemma final_output_fl_sum (df : list Row) (user : option string) :
  let table := final_output_df (percent_fl fl) df in
  In user (map Genete.up_user table) ->
  100 * qpow (1 - u) (2 + List.length (percentages_of user table)) <=
    sum_fl fl (percentages_of user table) /\
  sum_fl fl (percentages_of user table) <=
    100 * qpow (1 + u) (2 + List.length (percentages_of user table)).
Proof.
  cbv zeta. unfold final_output_df, percentages_of.
  rewrite merged_df_fl_map by apply answer_counts_users.
  set (counts := Genete.answer_counts df).
  rewrite stable_sort_map.
  set (sorted := stable_sort _ counts).
  assert (Hperm : Permutation sorted counts) by apply stable_sort_perm.
  rewrite map_map. cbn [Genete.up_user].
  intro Hu. apply in_map_iff in Hu. destruct Hu as (c & <- & Hc).
  rewrite filter_map_swap, map_map. cbn [Genete.up_user Genete.up_percentage].
  set (mine := filter (fun x => cell_eqb (Genete.ac_user c) (Genete.ac_user x)) sorted).
  rewrite (map_ext_in _
             (fun x => percent_fl fl (Genete.ac_count x)
                         (Genete.user_total counts (Genete.ac_user c)))).
  2:{ intros x Hx. apply filter_In in Hx. destruct Hx as [_ Hx].
      apply cell_eqb_eq in Hx. now rewrite Hx. }
  rewrite length_map, <- (length_map Genete.ac_count mine).
  rewrite <- (map_map Genete.ac_count
                (fun n => percent_fl fl n (Genete.user_total counts (Genete.ac_user c)))).
  assert (Hsum : list_sum (map Genete.ac_count mine) =
                 Genete.user_total counts (Genete.ac_user c)).
  { unfold Genete.user_total, mine.
    apply Permutation_list_sum, Permutation_map, Permutation_filter_same, Hperm. }
  apply sum_fl_bounds; [|exact Hsum].
  assert (Hcin : In c counts) by (eapply Permutation_in; [exact Hperm|exact Hc]).
  assert (Hpos : (0 < Genete.ac_count c)%nat).
  { destruct (answer_counts_in _ _ Hcin) as [Hk ->].
    now apply count_positive; [apply pair_eqb_eq|]. }
  pose proof (list_sum_bound Genete.ac_count
                (filter (fun c0 => cell_eqb (Genete.ac_user c) (Genete.ac_user c0)) counts) c)
    as Hb.
  assert (Hin : In c (filter (fun c0 => cell_eqb (Genete.ac_user c) (Genete.ac_user c0))
                        counts)).
  { apply filter_In. split; [exact Hcin|apply cell_eqb_refl]. }
  specialize (Hb Hin). unfold Genete.user_total. lia.
Qed.

End FloatingSums.

(** With roundings that change nothing the floating-point breakdowns are
    the exact ones. *)
Lemma exact_breakdowns (df : list Row) (question_prefix : string) :
  Floating.calculate_aggregated_answer_percentages percent df question_prefix =
  GeneteDateFilter.calculate_aggregated_answer_percentages df question_prefix /\
  Floating.final_output_df percent df = Genete.final_output_df df.
Proof. split; reflexivity. Qed.

(** C1, as the code has it.  When a row matching the prefix has an
    answer, the percentages of the global breakdown sum to 100 within the
    floating-point error: with [u] the relative error of one rounding
    and [n] the number of rows of the breakdown, the sum computed row
    after row lies between [100 (1 - u)^(n + 2)] and
    [100 (1 + u)^(n + 2)].  The same holds per user for the rows of each
    user of the table of [geneteprocess.py]. *)
Theorem percentages_sum_to_100 (fl : Q -> Q) (u : Q)
  (df : list Row) (question_prefix : string) :
  0 <= u -> u <= 1 ->
  (forall x, 0 <= x -> x * (1 - u) <= fl x /\ fl x <= x * (1 + u)) ->
  (exists r, In r df /\
             GeneteDateFilter.question_startswith question_prefix r = true /\
             answer r <> None) ->
  let table :=
    Floating.calculate_aggregated_answer_percentages
      (Floating.percent_fl fl) df question_prefix in
  let per_user :=
    Floating.final_output_df (Floating.percent_fl fl)
      (filter (Genete.question_startswith question_prefix) df) in
  (100 * Floating.qpow (1 - u) (2 + List.length table) <=
     Floating.sum_fl fl (map GeneteDateFilter.percentage table) /\
   Floating.sum_fl fl (map GeneteDateFilter.percentage table) <=
     100 * Floating.qpow (1 + u) (2 + List.length table)) /\
  (forall user,
     In user (map Genete.up_user per_user) ->
     100 * Floating.qpow (1 - u)
             (2 + List.length (Floating.percentages_of user per_user)) <=
       Floating.sum_fl fl (Floating.percentages_of user per_user) /\
     Floating.sum_fl fl (Floating.percentages_of user per_user) <=
       100 * Floating.qpow (1 + u)
               (2 + List.length (Floating.percentages_of user per_user))).
Proof.
  intros Hu0 Hu1 Hfl (r & Hr & Hq & Ha). cbv zeta. split.
  - apply (calculate_fl_sum fl u Hu0 Hu1 Hfl). intro E.
    assert (H : In (answer r) (GeneteDateFilter.matching_answers df question_prefix)).
    { apply matching_answers_in. exists r. auto. }
    rewrite E in H. exact H.
  - intros user Huser.
    exact (final_output_fl_sum fl u Hu0 Hu1 Hfl _ user Huser).
Qed.

(** Two answers to one question, with roundings that change nothing and
    the unit roundoff of binary64. *)
Lemma percentages_sum_to_100_witness :
  let u := 1 # 9007199254740992 in
  let table :=
    Floating.calculate_aggregated_answer_percentages
      (Floating.percent_fl (fun x => x)) Samples.two_answers "Now," in
  100 * Floating.qpow (1 - u) 4 <=
    Floating.sum_fl (fun x => x) (map GeneteDateFilter.percentage table) /\
  Floating.sum_fl (fun x => x) (map GeneteDateFilter.percentage table) <=
    100 * Floating.qpow (1 + u) 4.
Proof.
  cbv zeta.
  refine (proj1 (percentages_sum_to_100 (fun x => x) (1 # 9007199254740992)
                   Samples.two_answers "Now," _ _ _ _)).
  - discriminate.
  - discriminate.
  - intros x Hx. split; lra.
  - exists (Samples.survey "h1" "s1" "Now, drought?" (Some "A")
              (Timestamp Samples.t_2026_01_01_10h)).
    repeat split; [simpl; auto | discriminate].
Defined.

(** ** The share of "2009" answers *)

Section ShareOf2009.
Import GeneteDateFilter.

(** X3.  When a row has a question starting with "First", the second
    section writes one percentage: the number of "First" rows whose
    answer compares equal to the text "2009" over the number of all
    "First" rows, answered or not; it lies between 0 and 100, and it is 0
    on an [answer] column that was not read as text.  Without such a row
    the section says so.  It never writes "No answers found ...": the
    branch cannot be reached. *)
Theorem share_of_2009_answers (text_answers : bool) (df : list Row) :
  let first := filter (question_startswith "First") df in
  let p := percent (List.length (filter (DateFilter.answer_is_2009 text_answers) first))
             (List.length first) in
  (first <> [] ->
   DateFilter.second_output text_answers df =
   [Write ("--- Overall Percentage of '2009' Answers for Questions Starting with 'First' ---" ++ nl);
    WritePercent2009 p;
    Write nl] /\
   0 <= p /\ p <= 100 /\
   (text_answers = false -> p == 0)) /\
  (first = [] ->
   DateFilter.second_output text_answers df =
   [Write ("--- Overall Percentage of '2009' Answers for Questions Starting with 'First' ---" ++ nl);
    Write ("No questions starting with 'First' found in the dataset (after date filter if applied)." ++ nl);
    Write nl]) /\
  ~ In (Write ("No answers found for questions starting with 'First'." ++ nl))
       (DateFilter.second_output text_answers df).
Proof.
  cbv zeta. unfold DateFilter.second_output.
  destruct (filter (question_startswith "First") df) as [|r t] eqn:E.
  - split; [intro H; contradiction|]. split; [reflexivity|].
    simpl. intros [H|[H|[H|[]]]]; discriminate.
  - assert (He : empty (r :: t) = false) by reflexivity.
    assert (Hl : Nat.ltb 0 (List.length (r :: t)) = true) by reflexivity.
    set (first := r :: t) in *. rewrite He, Hl.
    split; [|split; [intro H; discriminate|]].
    + intros _. split; [reflexivity|].
      destruct (percent_range
                  (List.length (filter (DateFilter.answer_is_2009 text_answers) first))
                  (List.length first)) as [H0 H100];
        [apply filter_length_le | now apply Nat.ltb_lt |].
      split; [exact H0|]. split; [exact H100|].
      intros ->. unfold DateFilter.answer_is_2009.
      rewrite filter_none by (apply Forall_forall; reflexivity).
      unfold percent, Qdiv. simpl List.length. ring.
    + intros [H|[H|[H|[]]]]; discriminate.
Qed.

Lemma share_of_2009_answers_witness :
  DateFilter.second_output false (rows TypedSamples.numeric_answers) =
  [Write ("--- Overall Percentage of '2009' Answers for Questions Starting with 'First' ---" ++ nl);
   WritePercent2009 (percent 0 1);
   Write nl].
Proof.
  exact (proj1 (proj1 (share_of_2009_answers false (rows TypedSamples.numeric_answers))
                  ltac:(discriminate))).
Defined.

End ShareOf2009.
